(** * anigifs: the cube-to-sphere morph player

    A shallow embedding of the repository's two programs,
    [src/rotate.py] (pygame renderer with a separate Qt control window) and
    [src/modules/audio.py] (single Qt window; [src/modules/ui.py] repeats
    its [MainWindow]), and the properties of its specification checked
    against them.

    Numbers.  Every number the programs compute with is a Python [float]
    (an [int] where the source writes one).  The embedding is written once,
    over an interface [PyFloat] of the operations the source uses, and has
    two instances:
    - [Q], exact rational arithmetic: the reading under which the
      specification's algebraic sentences are stated and proved;
    - [float], Rocq's primitive binary64 numbers, which are Python's
      [float]: concrete runs are replayed on it bit for bit.
    Rounding is therefore outside the general theorems (stated over [Q]) and
    inside the replays (computed over [float]). *)

From Stdlib Require Import ZArith QArith Qabs Qround Lia Lra Psatz List Bool.
From Stdlib Require Import Floats.
From Stdlib Require String.
Import String.StringSyntax.
Delimit Scope string_scope with string.
Import ListNotations.

(** * Python values *)

Module Py.

Declare Scope py_scope.
Delimit Scope py_scope with py.

(** Exceptions and fallible computations. *)
Inductive exn : Set :=
  | ZeroDivisionError
  | IndexError
  | TypeError
  | ValueError
  | OverflowError.

Inductive result (X : Type) : Type :=
  | Ok (x : X)
  | Raise (e : exn).
Arguments Ok {X} x.
Arguments Raise {X} e.

Definition bind {X Y} (c : result X) (k : X -> result Y) : result Y :=
  match c with
  | Ok x => k x
  | Raise e => Raise e
  end.

Notation "x <- c ;; k" := (bind c (fun x => k))
  (at level 61, c at next level, right associativity) : py_scope.
Notation "' p <- c ;; k" := (bind c (fun x => let 'p := x in k))
  (at level 61, p pattern, c at next level, right associativity) : py_scope.

(** The operations of a Python [float] that the sources use.  [lit q] is the
    literal written [q] in the source; [fdiv] is [/] once the divisor is known
    not to be zero ([truediv] below raises first, as Python does); [int] is
    [int(x)], which truncates toward zero and raises on an infinity or a
    NaN. *)
Class PyFloat (A : Type) : Type := {
  lit : Q -> A;
  fadd : A -> A -> A;
  fsub : A -> A -> A;
  fmul : A -> A -> A;
  fdiv : A -> A -> A;
  fopp : A -> A;
  fabs : A -> A;
  fltb : A -> A -> bool;
  fleb : A -> A -> bool;
  feqb : A -> A -> bool;
  int : A -> result Z
}.
Arguments lit {A _} q%_Q.

Infix "+" := fadd : py_scope.
Infix "-" := fsub : py_scope.
Infix "*" := fmul : py_scope.
Infix "/" := fdiv : py_scope.
Notation "- x" := (fopp x) : py_scope.
Notation "x <? y" := (fltb x y) : py_scope.
Notation "x >? y" := (fltb y x) : py_scope.
Notation "x <=? y" := (fleb x y) : py_scope.
Notation "x =? y" := (feqb x y) : py_scope.

(** What the sources take from [math], [numpy] and the builtins beyond
    arithmetic: [math.sqrt] / [np.sqrt], [round(x, ndigits)] and numpy's
    conversion of a coordinate to [float32].  The properties below hold
    whatever these compute. *)
Class PyMath (A : Type) : Type := {
  fsqrt : A -> A;
  fround : A -> Z -> A;
  float32 : A -> A
}.

(** Exact arithmetic. *)
Definition Qltb (x y : Q) : bool := negb (Qle_bool y x).

Definition Qint (x : Q) : Z := Z.quot (Qnum x) (Z.pos (Qden x)).

#[export] Instance PyFloat_Q : PyFloat Q := {|
  lit := fun q => q;
  fadd := Qplus;
  fsub := Qminus;
  fmul := Qmult;
  fdiv := Qdiv;
  fopp := Qopp;
  fabs := Qabs;
  fltb := Qltb;
  fleb := Qle_bool;
  feqb := Qeq_bool;
  int := fun x => Ok (Qint x)
|}.

(** Exact rounding to [ndigits] decimals, ties to even, and a square root
    rounded down to twelve decimals (the exact one is seldom rational).  They
    serve to run the geometry on examples; the theorems below hold for every
    choice of [PyMath Q]. *)
Definition Qround_half_even (x : Q) (ndigits : Z) : Q :=
  let scale := (10 ^ ndigits)%Z in
  let y := x * inject_Z scale in
  let f := Qfloor y in
  let r := y - inject_Z f in
  let k :=
    match r ?= 1 # 2 with
    | Lt => f
    | Gt => (f + 1)%Z
    | Eq => if Z.even f then f else (f + 1)%Z
    end in
  inject_Z k / inject_Z scale.

Definition Qsqrt_down (x : Q) : Q :=
  inject_Z (Z.sqrt (Qfloor (x * inject_Z (10 ^ 24)))) / inject_Z (10 ^ 12).

Definition PyMath_Q : PyMath Q :=
  {| fsqrt := Qsqrt_down; fround := Qround_half_even; float32 := fun x => x |}.

(** Binary64.  A literal [n/d] with [n] and [d] below [2^53] is the
    correctly rounded quotient of two exact numbers, that is, the double
    nearest to the decimal, which is how Python reads a literal. *)
Definition float_of_Z (z : Z) : float :=
  match z with
  | Z0 => PrimFloat.zero
  | Zpos _ => PrimFloat.of_uint63 (Uint63.of_Z z)
  | Zneg p => PrimFloat.opp (PrimFloat.of_uint63 (Uint63.of_Z (Zpos p)))
  end.

Definition float_of_Q (q : Q) : float :=
  PrimFloat.div (float_of_Z (Qnum q)) (float_of_Z (Zpos (Qden q))).

Definition float_int (x : float) : result Z :=
  match Prim2SF x with
  | S754_zero _ => Ok 0%Z
  | S754_finite s m e =>
      let mag := if (0 <=? e)%Z then (Z.pos m * 2 ^ e)%Z
                 else (Z.pos m / 2 ^ (- e))%Z in
      Ok (if s then (- mag)%Z else mag)
  | S754_infinity _ => Raise OverflowError
  | S754_nan => Raise ValueError
  end.

#[export] Instance PyFloat_float : PyFloat float := {|
  lit := float_of_Q;
  fadd := PrimFloat.add;
  fsub := PrimFloat.sub;
  fmul := PrimFloat.mul;
  fdiv := PrimFloat.div;
  fopp := PrimFloat.opp;
  fabs := PrimFloat.abs;
  fltb := PrimFloat.ltb;
  fleb := PrimFloat.leb;
  feqb := PrimFloat.eqb;
  int := float_int
|}.

Section Builtins.
Context {A : Type} `{PyFloat A}.
Local Open Scope py_scope.

(** [min(a, b)] and [max(a, b)]: the first argument unless the second is
    strictly better. *)
Definition min (a b : A) : A := if b <? a then b else a.
Definition max (a b : A) : A := if b >? a then b else a.

(** [x / y] on floats, and on ints (true division). *)
Definition truediv (x y : A) : result A :=
  if y =? lit 0 then Raise ZeroDivisionError else Ok (x / y).

Definition float_of_int (z : Z) : A := lit (inject_Z z).

Definition int_truediv (x y : Z) : result A :=
  if (y =? 0)%Z then Raise ZeroDivisionError
  else Ok (float_of_int x / float_of_int y).
End Builtins.

(** [range(n)], and [for x in xs: s = f(s, x)] with exceptions. *)
Definition range (n : Z) : list nat := seq 0 (Z.to_nat n).

Fixpoint for_each {S X} (xs : list X) (f : S -> X -> result S) (s : S)
  : result S :=
  match xs with
  | [] => Ok s
  | x :: xs' => bind (f s x) (for_each xs' f)
  end.

(** [xs[i]] for an index that is not negative. *)
Definition getitem {X} (xs : list X) (i : nat) : result X :=
  match nth_error xs i with
  | Some x => Ok x
  | None => Raise IndexError
  end.

(** [[f(x) for x in xs]]. *)
Fixpoint comprehension {X Y} (f : X -> result Y) (xs : list X)
  : result (list Y) :=
  match xs with
  | [] => Ok []
  | x :: xs' =>
      bind (f x) (fun y => bind (comprehension f xs') (fun ys => Ok (y :: ys)))
  end.

(** [xs[start:]]: a negative [start] counts from the end. *)
Definition slice_from {X} (xs : list X) (start : Z) : list X :=
  if (start <? 0)%Z
  then skipn (Z.to_nat (Z.max 0 (Z.of_nat (length xs) + start))) xs
  else skipn (Z.to_nat start) xs.

(** The index of the first element that satisfies [p], counting from [i]. *)
Fixpoint first_index {X} (p : X -> bool) (xs : list X) (i : nat) : option nat :=
  match xs with
  | [] => None
  | x :: xs' => if p x then Some i else first_index p xs' (S i)
  end.

End Py.
Export Py.

(** * Objects

    Attribute layouts of the classes.  [SmoothValue], [RotationController]
    and [EnhancedAudioPlayer] are declared in both programs with the same
    attributes; their methods are embedded per file below. *)

Record SmoothValue (A : Type) : Type := mkSmoothValue {
  current : A;
  target : A;
  smoothing : A
}.
Arguments mkSmoothValue {A}.
Arguments current {A}.
Arguments target {A}.
Arguments smoothing {A}.

Record RotationController (A : Type) : Type := mkRotationController {
  rotation_x : SmoothValue A;
  rotation_y : SmoothValue A;
  momentum_x : A;
  momentum_y : A;
  velocity_x : SmoothValue A;
  velocity_y : SmoothValue A;
  auto_rotation : bool;
  transition : SmoothValue A;
  damping : A;
  momentum_multiplier : A;
  last_time : A
}.
Arguments mkRotationController {A}.
Arguments rotation_x {A}.
Arguments rotation_y {A}.
Arguments momentum_x {A}.
Arguments momentum_y {A}.
Arguments velocity_x {A}.
Arguments velocity_y {A}.
Arguments auto_rotation {A}.
Arguments transition {A}.
Arguments damping {A}.
Arguments momentum_multiplier {A}.
Arguments last_time {A}.

(** Attribute assignment, [self.f = v]. *)
Section Assign.
Context {A : Type}.
Implicit Type self : RotationController A.

Definition assign_rotation_x (v : SmoothValue A) self :=
  mkRotationController v (rotation_y self) (momentum_x self) (momentum_y self)
    (velocity_x self) (velocity_y self) (auto_rotation self) (transition self)
    (damping self) (momentum_multiplier self) (last_time self).

Definition assign_rotation_y (v : SmoothValue A) self :=
  mkRotationController (rotation_x self) v (momentum_x self) (momentum_y self)
    (velocity_x self) (velocity_y self) (auto_rotation self) (transition self)
    (damping self) (momentum_multiplier self) (last_time self).

Definition assign_momentum_x (v : A) self :=
  mkRotationController (rotation_x self) (rotation_y self) v (momentum_y self)
    (velocity_x self) (velocity_y self) (auto_rotation self) (transition self)
    (damping self) (momentum_multiplier self) (last_time self).

Definition assign_momentum_y (v : A) self :=
  mkRotationController (rotation_x self) (rotation_y self)
    (momentum_x self) v
    (velocity_x self) (velocity_y self) (auto_rotation self) (transition self)
    (damping self) (momentum_multiplier self) (last_time self).

Definition assign_velocity_x (v : SmoothValue A) self :=
  mkRotationController (rotation_x self) (rotation_y self)
    (momentum_x self) (momentum_y self)
    v (velocity_y self) (auto_rotation self) (transition self)
    (damping self) (momentum_multiplier self) (last_time self).

Definition assign_velocity_y (v : SmoothValue A) self :=
  mkRotationController (rotation_x self) (rotation_y self)
    (momentum_x self) (momentum_y self)
    (velocity_x self) v (auto_rotation self) (transition self)
    (damping self) (momentum_multiplier self) (last_time self).

Definition assign_auto_rotation (v : bool) self :=
  mkRotationController (rotation_x self) (rotation_y self)
    (momentum_x self) (momentum_y self)
    (velocity_x self) (velocity_y self) v (transition self)
    (damping self) (momentum_multiplier self) (last_time self).

Definition assign_transition (v : SmoothValue A) self :=
  mkRotationController (rotation_x self) (rotation_y self)
    (momentum_x self) (momentum_y self)
    (velocity_x self) (velocity_y self) (auto_rotation self) v
    (damping self) (momentum_multiplier self) (last_time self).
End Assign.

Record EnhancedAudioPlayer (A : Type) : Type := mkEnhancedAudioPlayer {
  audio_data : option (list A);
  sample_rate : option Z;
  playing : bool;
  paused : bool;
  current_position : A;
  speed : A;
  is_rewinding : bool
}.
Arguments mkEnhancedAudioPlayer {A}.
Arguments audio_data {A}.
Arguments sample_rate {A}.
Arguments playing {A}.
Arguments paused {A}.
Arguments current_position {A}.
Arguments speed {A}.
Arguments is_rewinding {A}.

Section AssignPlayer.
Context {A : Type}.
Implicit Type self : EnhancedAudioPlayer A.

Definition assign_playing (v : bool) self :=
  mkEnhancedAudioPlayer (audio_data self) (sample_rate self) v (paused self)
    (current_position self) (speed self) (is_rewinding self).

Definition assign_paused (v : bool) self :=
  mkEnhancedAudioPlayer (audio_data self) (sample_rate self) (playing self) v
    (current_position self) (speed self) (is_rewinding self).

Definition assign_current_position (v : A) self :=
  mkEnhancedAudioPlayer (audio_data self) (sample_rate self) (playing self)
    (paused self) v (speed self) (is_rewinding self).

Definition assign_audio_data (v : list A) self :=
  mkEnhancedAudioPlayer (Some v) (sample_rate self) (playing self)
    (paused self) (current_position self) (speed self) (is_rewinding self).

Definition assign_sample_rate (v : Z) self :=
  mkEnhancedAudioPlayer (audio_data self) (Some v) (playing self)
    (paused self) (current_position self) (speed self) (is_rewinding self).

Definition assign_player_speed (v : A) self :=
  mkEnhancedAudioPlayer (audio_data self) (sample_rate self) (playing self)
    (paused self) (current_position self) v (is_rewinding self).

Definition assign_is_rewinding (v : bool) self :=
  mkEnhancedAudioPlayer (audio_data self) (sample_rate self) (playing self)
    (paused self) (current_position self) (speed self) v.
End AssignPlayer.

(** The [sounddevice] module, as the calls made to it, oldest first. *)
Inductive sd_call (A : Type) : Type :=
  | sd_stop
  | sd_play (chunk : list A) (samplerate : Z).
Arguments sd_stop {A}.
Arguments sd_play {A} chunk samplerate.

Definition sounddevice (A : Type) : Type := list (sd_call A).

(** The dict carried by an emitted [animation_signal]: the keys it holds. *)
Record signal (A : Type) : Type := mkSignal {
  sig_paused : option bool;
  sig_rewind_mode : option bool;
  sig_position : option A;
  sig_speed : option A
}.
Arguments mkSignal {A}.
Arguments sig_paused {A}.
Arguments sig_rewind_mode {A}.
Arguments sig_position {A}.
Arguments sig_speed {A}.

(** A vertex [[x, y, z]], and an edge [(i, j)] between two vertex indices. *)
Definition vec3 (A : Type) : Type := (A * A * A)%type.
Definition edge : Type := (nat * nat)%type.

(** [QSlider.setValue] on the progress slider, whose range is 0..100. *)
Definition slider_value (v : Z) : Z := Z.max 0 (Z.min 100 v).

(** * src/rotate.py *)

Module Rotate.

Module SmoothValue.
Section Methods.
Context {A : Type} `{PyFloat A}.
Local Open Scope py_scope.

Definition init (initial smoothing : A) : SmoothValue A :=
  {| current := initial; target := initial; smoothing := smoothing |}.

Definition update (self : SmoothValue A) : SmoothValue A :=
  {| current := current self
                + (target self - current self) * (lit 1.0 - smoothing self);
     target := target self;
     smoothing := smoothing self |}.

Definition set_target (self : SmoothValue A) (value : A) : SmoothValue A :=
  {| current := current self; target := value; smoothing := smoothing self |}.

Definition get (self : SmoothValue A) : A := current self.
End Methods.
End SmoothValue.

Module RotationController.
Section Methods.
Context {A : Type} `{PyFloat A}.
Local Open Scope py_scope.
Implicit Type self : RotationController A.

(** [__init__]; [now] is what [time.time()] returns. *)
Definition init (now : A) : RotationController A :=
  {| rotation_x := SmoothValue.init (lit 0.0) (lit 0.8);
     rotation_y := SmoothValue.init (lit 0.0) (lit 0.8);
     momentum_x := lit 0.0;
     momentum_y := lit 0.0;
     velocity_x := SmoothValue.init (lit 0.0) (lit 0.6);
     velocity_y := SmoothValue.init (lit 0.0) (lit 0.6);
     auto_rotation := true;
     transition := SmoothValue.init (lit 1.0) (lit 0.95);
     damping := lit 0.95;
     momentum_multiplier := lit 0.2;
     last_time := now |}.

(** [update(delta_time)]: the argument is never read. *)
Definition update self (delta_time : A) : RotationController A :=
  let self := assign_rotation_x (SmoothValue.update (rotation_x self)) self in
  let self := assign_rotation_y (SmoothValue.update (rotation_y self)) self in
  let self := assign_velocity_x (SmoothValue.update (velocity_x self)) self in
  let self := assign_velocity_y (SmoothValue.update (velocity_y self)) self in
  let self := assign_transition (SmoothValue.update (transition self)) self in
  let self :=
    if (fabs (momentum_x self) >? lit 0.01) || (fabs (momentum_y self) >? lit 0.01)
    then
      let self :=
        assign_rotation_x
          (SmoothValue.set_target (rotation_x self)
             (SmoothValue.get (rotation_x self) + momentum_x self)) self in
      let self :=
        assign_rotation_y
          (SmoothValue.set_target (rotation_y self)
             (SmoothValue.get (rotation_y self) + momentum_y self)) self in
      let velocity := (fabs (momentum_x self) + fabs (momentum_y self)) * lit 0.5 in
      let dynamic_damping :=
        damping self
        * (lit 0.97 + lit 0.03 * (lit 1.0 - min (lit 1.0) (velocity / lit 3.0))) in
      let self := assign_momentum_x (momentum_x self * dynamic_damping) self in
      assign_momentum_y (momentum_y self * dynamic_damping) self
    else self in
  let self :=
    if fabs (momentum_x self) <? lit 0.01
    then assign_momentum_x (lit 0) self else self in
  if fabs (momentum_y self) <? lit 0.01
  then assign_momentum_y (lit 0) self else self.

Definition start_orbit self : RotationController A :=
  let self := assign_auto_rotation false self in
  assign_transition (SmoothValue.set_target (transition self) (lit 0.0)) self.

(** Momentum about an axis comes from the velocity of the pointer across it:
    [momentum_x] from [velocity_y], [momentum_y] from [velocity_x]. *)
Definition stop_orbit self : RotationController A :=
  let self :=
    assign_momentum_x
      (SmoothValue.get (velocity_y self) * momentum_multiplier self) self in
  let self :=
    assign_momentum_y
      (SmoothValue.get (velocity_x self) * momentum_multiplier self) self in
  let self :=
    assign_transition (SmoothValue.set_target (transition self) (lit 1.0)) self in
  assign_auto_rotation true self.

Definition should_resume_auto_rotation self : bool :=
  (fabs (momentum_x self) <? lit 0.3)
  && (fabs (momentum_y self) <? lit 0.3)
  && (SmoothValue.get (transition self) >? lit 0.95).

Definition resume_auto_rotation self : RotationController A :=
  let self := assign_auto_rotation true self in
  assign_transition (SmoothValue.set_target (transition self) (lit 1.0)) self.

(** The guard keeps a zero [delta_time] away from the divisions. *)
Definition update_mouse_velocity self (dx dy delta_time : A)
  : RotationController A :=
  if delta_time >? lit 0 then
    let self :=
      assign_velocity_x
        (SmoothValue.set_target (velocity_x self) (dx / delta_time * lit 1.3))
        self in
    assign_velocity_y
      (SmoothValue.set_target (velocity_y self) (dy / delta_time * lit 1.3))
      self
  else self.
End Methods.
End RotationController.

Module EnhancedAudioPlayer.
Section Methods.
Context {A : Type} `{PyFloat A}.
Local Open Scope py_scope.
Implicit Type self : EnhancedAudioPlayer A.

Definition init : EnhancedAudioPlayer A :=
  {| audio_data := None; sample_rate := None; playing := false;
     paused := false; current_position := lit 0.0; speed := lit 1.0;
     is_rewinding := false |}.

(** [play(from_pos=None)].  An exception ends the run: the attributes
    assigned before it are not kept in the model. *)
Definition play self (from_pos : option A) (sd : sounddevice A)
  : result (EnhancedAudioPlayer A * sounddevice A) :=
  match audio_data self with
  | None => Ok (self, sd)
  | Some data =>
      let self :=
        match from_pos with
        | Some p => assign_current_position p self
        | None => self
        end in
      match sample_rate self with
      | None => Raise TypeError
      | Some rate =>
          start_sample <- int (current_position self * float_of_int rate) ;;
          let sd := sd ++ [sd_stop] in
          let chunk := slice_from data start_sample in
          samplerate <- int (float_of_int rate * speed self) ;;
          let sd := sd ++ [sd_play chunk samplerate] in
          let self := assign_playing true self in
          let self := assign_paused false self in
          Ok (self, sd)
      end
  end.

(** [pause()].  [stream_time] is what [sd.get_stream().time] gives;
    sounddevice has a stream once [sd.play] was called, as it was when
    [playing] holds. *)
Definition pause self (stream_time : A) (sd : sounddevice A)
  : result (EnhancedAudioPlayer A * sounddevice A) :=
  if playing self && negb (paused self) then
    let elapsed := stream_time in
    advance <- truediv elapsed (speed self) ;;
    let self :=
      assign_current_position (current_position self + advance) self in
    let sd := sd ++ [sd_stop] in
    let self := assign_paused true self in
    Ok (self, sd)
  else Ok (self, sd).

Definition resume self (sd : sounddevice A)
  : result (EnhancedAudioPlayer A * sounddevice A) :=
  if paused self then play self (Some (current_position self)) sd
  else Ok (self, sd).

(** [set_position(position_seconds)] takes [len(self.audio_data)] whether
    or not a file was loaded. *)
Definition set_position self (position_seconds : A) (sd : sounddevice A)
  : result (EnhancedAudioPlayer A * sounddevice A) :=
  match audio_data self with
  | None => Raise TypeError
  | Some data =>
      match sample_rate self with
      | None => Raise TypeError
      | Some rate =>
          total <- int_truediv (Z.of_nat (length data)) rate ;;
          let self :=
            assign_current_position
              (max (lit 0.0) (min position_seconds total)) self in
          if playing self && negb (paused self)
          then play self (Some (current_position self)) sd
          else Ok (self, sd)
      end
  end.

Definition set_speed self (speed : A) (sd : sounddevice A)
  : result (EnhancedAudioPlayer A * sounddevice A) :=
  let self := assign_player_speed speed self in
  if playing self && negb (paused self)
  then play self (Some (current_position self)) sd
  else Ok (self, sd).

Definition start_rewind self : EnhancedAudioPlayer A :=
  assign_is_rewinding true self.

Definition stop_rewind self : EnhancedAudioPlayer A :=
  assign_is_rewinding false self.

Definition cleanup self (sd : sounddevice A)
  : EnhancedAudioPlayer A * sounddevice A :=
  let sd := sd ++ [sd_stop] in
  let self := assign_playing false self in
  let self := assign_paused false self in
  let self := assign_is_rewinding false self in
  (self, sd).
End Methods.
End EnhancedAudioPlayer.

Module ProgressWindow.

Record t (A : Type) : Type := mk {
  duration : A;
  elapsed : A;
  running : bool;
  paused : bool;
  speed : A;
  start_animation : bool;
  rewind_mode : bool;
  slider_being_dragged : bool;
  progress_slider : Z
}.
Arguments mk {A}.
Arguments duration {A}.
Arguments elapsed {A}.
Arguments running {A}.
Arguments paused {A}.
Arguments speed {A}.
Arguments start_animation {A}.
Arguments rewind_mode {A}.
Arguments slider_being_dragged {A}.
Arguments progress_slider {A}.

Section Methods.
Context {A : Type} `{PyFloat A}.
Local Open Scope py_scope.
Implicit Type self : t A.

Definition assign_elapsed (v : A) self :=
  mk (duration self) v (running self) (paused self) (speed self)
    (start_animation self) (rewind_mode self) (slider_being_dragged self)
    (progress_slider self).

Definition assign_paused (v : bool) self :=
  mk (duration self) (elapsed self) (running self) v (speed self)
    (start_animation self) (rewind_mode self) (slider_being_dragged self)
    (progress_slider self).

Definition assign_speed (v : A) self :=
  mk (duration self) (elapsed self) (running self) (paused self) v
    (start_animation self) (rewind_mode self) (slider_being_dragged self)
    (progress_slider self).

Definition assign_start_animation (v : bool) self :=
  mk (duration self) (elapsed self) (running self) (paused self) (speed self)
    v (rewind_mode self) (slider_being_dragged self) (progress_slider self).

Definition assign_rewind_mode (v : bool) self :=
  mk (duration self) (elapsed self) (running self) (paused self) (speed self)
    (start_animation self) v (slider_being_dragged self) (progress_slider self).

Definition assign_slider_being_dragged (v : bool) self :=
  mk (duration self) (elapsed self) (running self) (paused self) (speed self)
    (start_animation self) (rewind_mode self) v (progress_slider self).

Definition assign_progress_slider (v : Z) self :=
  mk (duration self) (elapsed self) (running self) (paused self) (speed self)
    (start_animation self) (rewind_mode self) (slider_being_dragged self) v.

(** [__init__(duration=30.0)] with [init_ui]; the texts of the buttons and
    labels are display only and are not part of the state. *)
Definition init (duration : A) : t A :=
  {| duration := duration; elapsed := lit 0; running := true; paused := true;
     speed := lit 1.0; start_animation := false; rewind_mode := false;
     slider_being_dragged := false; progress_slider := 0 |}.

(** The transport part of [update_ui]: the new state and what it emits. *)
Definition update_progress self : t A * list (signal A) :=
  if negb (paused self) then
    if rewind_mode self then
      let self := assign_elapsed (elapsed self - lit 0.016 * lit 2.0) self in
      if elapsed self <? lit 0 then
        let self := assign_elapsed (lit 0) self in
        let self := assign_rewind_mode false self in
        let self := assign_paused true self in
        (self, [mkSignal (Some true) (Some false) (Some (elapsed self)) None])
      else (self, [])
    else
      let self := assign_elapsed (elapsed self + lit 0.016 * speed self) self in
      if elapsed self >? duration self then
        let self := assign_elapsed (duration self) self in
        let self := assign_paused true self in
        (self, [mkSignal (Some true) None (Some (elapsed self)) None])
      else (self, [])
  else (self, []).

(** [update_ui], run by the 16 ms timer.  After the transport it refreshes
    the slider (unless the user holds it) and the time label, which take
    [elapsed / duration], [int(elapsed)] and [int(duration)]. *)
Definition update_ui self : result (t A * list (signal A)) :=
  if running self then
    let '(self, emitted) := update_progress self in
    self <- (if negb (slider_being_dragged self) then
               ratio <- truediv (elapsed self) (duration self) ;;
               let progress_percent := ratio * lit 100 in
               value <- int progress_percent ;;
               Ok (assign_progress_slider (slider_value value) self)
             else Ok self) ;;
    _ <- int (elapsed self) ;;
    _ <- int (duration self) ;;
    Ok (self, emitted)
  else Ok (self, []).

Definition slider_pressed self : t A := assign_slider_being_dragged true self.

Definition slider_released self : t A * list (signal A) :=
  let self := assign_slider_being_dragged false self in
  let position_value := progress_slider self in
  let self :=
    assign_elapsed
      (float_of_int position_value / lit 100.0 * duration self) self in
  (self, [mkSignal None None (Some (elapsed self)) None]).

Definition slider_changed self (value : Z) : t A :=
  if slider_being_dragged self
  then assign_elapsed (float_of_int value / lit 100.0 * duration self) self
  else self.

Definition toggle_play_pause self : t A * list (signal A) :=
  let self := assign_rewind_mode false self in
  let self := assign_paused (negb (paused self)) self in
  let self :=
    if paused self then self
    else if negb (start_animation self)
         then assign_start_animation true self else self in
  (self, [mkSignal (Some (paused self)) (Some false) (Some (elapsed self)) None]).

Definition toggle_rewind self : t A * list (signal A) :=
  let self :=
    if rewind_mode self then
      let self := assign_rewind_mode false self in
      assign_paused true self
    else
      let self := assign_rewind_mode true self in
      let self := assign_paused false self in
      if negb (start_animation self)
      then assign_start_animation true self else self in
  (self,
   [mkSignal (Some (paused self)) (Some (rewind_mode self))
      (Some (elapsed self)) None]).

Definition toggle_speed self : t A * list (signal A) :=
  let self :=
    if speed self =? lit 1.0 then assign_speed (lit 2.0) self
    else assign_speed (lit 1.0) self in
  (self, [mkSignal None None None (Some (speed self))]).

Definition get_elapsed_normalized self : result A :=
  ratio <- truediv (elapsed self) (duration self) ;;
  Ok (min (lit 1.0) (max (lit 0.0) ratio)).
End Methods.
End ProgressWindow.

Section Geometry.
Context {A : Type} `{PyFloat A} `{PyMath A}.
Local Open Scope py_scope.

Definition cube_vertices (size : A) : list (vec3 A) :=
  [ (- size, - size, - size);
    (size, - size, - size);
    (size, size, - size);
    (- size, size, - size);
    (- size, - size, size);
    (size, - size, size);
    (size, size, size);
    (- size, size, size) ].

Definition cube_quads : list (list nat) :=
  [ [0; 3; 2; 1]; [4; 5; 6; 7]; [0; 1; 5; 4];
    [3; 7; 6; 2]; [0; 4; 7; 3]; [1; 2; 6; 5] ]%nat.

(** The helper [interpolate] of [create_tessellated_cube]. *)
Definition interpolate (v1 v2 : vec3 A) (t : A) : vec3 A :=
  let '(x1, y1, z1) := v1 in
  let '(x2, y2, z2) := v2 in
  (x1 + (x2 - x1) * t, y1 + (y2 - y1) * t, z1 + (z2 - z1) * t).

(** [np.allclose(a, b)] on two vertices of finite coordinates, with numpy's
    default tolerances. *)
Definition isclose (a b : A) : bool :=
  fabs (a - b) <=? lit 0.00000001 + lit 0.00001 * fabs b.

Definition allclose (a b : vec3 A) : bool :=
  let '(a0, a1, a2) := a in
  let '(b0, b1, b2) := b in
  isclose a0 b0 && isclose a1 b1 && isclose a2 b2.

(** The helper [add_vertex]: the list it leaves and the index it returns. *)
Definition add_vertex (vertices : list (vec3 A)) (v : vec3 A)
  : list (vec3 A) * nat :=
  match first_index (fun existing => allclose v existing) vertices 0 with
  | Some i => (vertices, i)
  | None =>
      let vertices := vertices ++ [v] in
      (vertices, (length vertices - 1)%nat)
  end.

(** One pass of the loop over [i] that fills [grid_indices]: row [i]. *)
Definition grid_row (corners : list (vec3 A)) (subdivisions : Z) (i : nat)
  (vertices : list (vec3 A)) : result (list (vec3 A) * list nat) :=
  t1 <- int_truediv (Z.of_nat i) subdivisions ;;
  for_each (range (subdivisions + 1))
    (fun '(vertices, row_indices) j =>
       t2 <- int_truediv (Z.of_nat j) subdivisions ;;
       c0 <- getitem corners 0 ;;
       c1 <- getitem corners 1 ;;
       let edge1 := interpolate c0 c1 t2 in
       c3 <- getitem corners 3 ;;
       c2 <- getitem corners 2 ;;
       let edge2 := interpolate c3 c2 t2 in
       let point := interpolate edge1 edge2 t1 in
       let '(vertices, idx) := add_vertex vertices point in
       Ok (vertices, row_indices ++ [idx]))
    (vertices, []).

(** The grid of one face. *)
Definition face_grid (corners : list (vec3 A)) (subdivisions : Z)
  (vertices : list (vec3 A)) : result (list (vec3 A) * list (list nat)) :=
  for_each (range (subdivisions + 1))
    (fun '(vertices, grid_indices) i =>
       '(vertices, row_indices) <- grid_row corners subdivisions i vertices ;;
       Ok (vertices, grid_indices ++ [row_indices]))
    (vertices, []).

(** The edges of one face, from its grid. *)
Definition face_edges (grid_indices : list (list nat)) (subdivisions : Z)
  (edges : list edge) : result (list edge) :=
  for_each (range (subdivisions + 1))
    (fun edges i =>
       for_each (range subdivisions)
         (fun edges j =>
            row <- getitem grid_indices i ;;
            a <- getitem row j ;;
            b <- getitem row (j + 1) ;;
            let edges := edges ++ [(a, b)] in
            if (Z.of_nat i <? subdivisions)%Z then
              below <- getitem grid_indices (i + 1) ;;
              c <- getitem below j ;;
              Ok (edges ++ [(a, c)])
            else Ok edges)
         edges)
    edges.

Definition create_tessellated_cube (size : A) (subdivisions : Z)
  : result (list (vec3 A) * list edge) :=
  let basic_vertices := cube_vertices size in
  let basic_quads := cube_quads in
  for_each basic_quads
    (fun '(vertices, edges) quad =>
       corners <- comprehension (getitem basic_vertices) quad ;;
       '(vertices, grid_indices) <- face_grid corners subdivisions vertices ;;
       edges <- face_edges grid_indices subdivisions edges ;;
       Ok (vertices, edges))
    ([], []).

(** [v[k]**2] is [v[k] * v[k]]. *)
Definition generate_sphere_vertices (cube_vertices : list (vec3 A)) (radius : A)
  : result (list (vec3 A)) :=
  for_each cube_vertices
    (fun sphere_vertices '(x, y, z) =>
       let distance := fsqrt (x * x + y * y + z * z) in
       if distance <? lit 0.0001 then
         Ok (sphere_vertices ++ [(lit 0, lit 0, lit 0)])
       else
         qx <- truediv x distance ;;
         qy <- truediv y distance ;;
         qz <- truediv z distance ;;
         Ok (sphere_vertices ++ [(qx * radius, qy * radius, qz * radius)]))
    [].

Definition lerp (start end_ : vec3 A) (t : A) : vec3 A :=
  let '(s0, s1, s2) := start in
  let '(e0, e1, e2) := end_ in
  (s0 + (e0 - s0) * t, s1 + (e1 - s1) * t, s2 + (e2 - s2) * t).

(** The vertices [draw_morphed_shape] computes and draws. *)
Definition draw_morphed_shape (cube_vertices sphere_vertices : list (vec3 A))
  (t : A) : result (list (vec3 A)) :=
  for_each (range (Z.of_nat (length cube_vertices)))
    (fun morph_vertices i =>
       c <- getitem cube_vertices i ;;
       s <- getitem sphere_vertices i ;;
       Ok (morph_vertices ++ [lerp c s t]))
    [].

(** What [draw_morphed_shape] hands to the GL: the vertices it sends between
    [glBegin(GL_LINES)] and [glEnd()], two for every edge, and the alpha of
    the sphere it lays over them once [t] has passed 0.7. *)
Definition draw_morphed_shape_gl (cube_vertices sphere_vertices : list (vec3 A))
  (edges : list edge) (t : A) : result (list (vec3 A) * option A) :=
  morph_vertices <- draw_morphed_shape cube_vertices sphere_vertices t ;;
  lines <-
    for_each edges
      (fun lines '(a, b) =>
         va <- getitem morph_vertices a ;;
         vb <- getitem morph_vertices b ;;
         Ok (lines ++ [va; vb]))
      [] ;;
  if t >? lit 0.7 then
    let opacity := (t - lit 0.7) / lit 0.3 in
    Ok (lines, Some (opacity * lit 0.5))
  else Ok (lines, None).
End Geometry.

(** [AnimationThread]: the attributes its loop reads, which
    [handle_progress_signals] keeps. *)
Module AnimationThread.

Record t (A : Type) : Type := mk {
  running : bool;
  audio_file : String.string;
  paused : bool;
  rewind_mode : bool;
  speed : A
}.
Arguments mk {A}.
Arguments running {A}.
Arguments audio_file {A}.
Arguments paused {A}.
Arguments rewind_mode {A}.
Arguments speed {A}.

Section Methods.
Context {A : Type} `{PyFloat A}.
Implicit Type self : t A.

(** [__init__(audio_file, progress_window)], with the three attributes that
    [run] sets before its loop. *)
Definition init (audio_file : String.string) : t A :=
  {| running := true; audio_file := audio_file; paused := true;
     rewind_mode := false; speed := lit 1.0 |}.

(** The slot connected to [ProgressWindow.animation_signal]. *)
Definition handle_progress_signals self (signal_dict : signal A) : t A :=
  let self :=
    match sig_paused signal_dict with
    | Some v => mk (running self) (audio_file self) v (rewind_mode self) (speed self)
    | None => self
    end in
  let self :=
    match sig_rewind_mode signal_dict with
    | Some v => mk (running self) (audio_file self) (paused self) v (speed self)
    | None => self
    end in
  match sig_speed signal_dict with
  | Some v => mk (running self) (audio_file self) (paused self) (rewind_mode self) v
  | None => self
  end.
End Methods.
End AnimationThread.

(** One pass of the loop of [AnimationThread.run], without the drawing, which
    reads the state and changes none of it. *)
Module Run.

(** Pygame events, as far as the loop tells them apart. *)
Inductive key : Set := K_ESCAPE | K_SPACE | K_other.

Inductive event : Set :=
  | QUIT
  | KEYDOWN (k : key)
  | MOUSEBUTTONDOWN (button : Z) (pos : Z * Z)
  | MOUSEBUTTONUP (button : Z) (pos : Z * Z)
  | MOUSEMOTION (pos : Z * Z)
  | other_event.

(** [os._exit(0)] ends the program where it stands. *)
Inductive outcome (X : Type) : Type :=
  | Continue (x : X)
  | Exit.
Arguments Continue {X} x.
Arguments Exit {X}.

(** The local variables of [run] that live from one pass to the next. *)
Record locals (A : Type) : Type := mkLocals {
  controller : RotationController A;
  last_mouse_pos : option (Z * Z);
  audio_player : EnhancedAudioPlayer A;
  last_time : A;
  animation_completed : bool
}.
Arguments mkLocals {A}.
Arguments controller {A}.
Arguments last_mouse_pos {A}.
Arguments audio_player {A}.
Arguments last_time {A}.
Arguments animation_completed {A}.

Section Loop.
Context {A : Type} `{PyFloat A}.
Local Open Scope py_scope.

(** The body of [for event in pygame.event.get()]. *)
Definition handle_event (delta_time : A)
  (state : RotationController A * option (Z * Z)) (e : event)
  : outcome (RotationController A * option (Z * Z)) :=
  let '(controller, last_mouse_pos) := state in
  match e with
  | QUIT => Exit
  | KEYDOWN K_ESCAPE => Exit
  | KEYDOWN K_SPACE =>
      if auto_rotation controller
      then Continue (RotationController.start_orbit controller, last_mouse_pos)
      else Continue (RotationController.resume_auto_rotation controller,
                     last_mouse_pos)
  | KEYDOWN K_other => Continue (controller, last_mouse_pos)
  | MOUSEBUTTONDOWN button pos =>
      if (button =? 1)%Z
      then Continue (RotationController.start_orbit controller, Some pos)
      else Continue (controller, last_mouse_pos)
  | MOUSEBUTTONUP button _ =>
      if (button =? 1)%Z
      then Continue (RotationController.stop_orbit controller, None)
      else Continue (controller, last_mouse_pos)
  | MOUSEMOTION pos =>
      match last_mouse_pos with
      | Some last =>
          let dx := (fst pos - fst last)%Z in
          let dy := (snd pos - snd last)%Z in
          let controller :=
            RotationController.update_mouse_velocity controller
              (float_of_int dx) (float_of_int dy) delta_time in
          let controller :=
            assign_rotation_y
              (SmoothValue.set_target (rotation_y controller)
                 (SmoothValue.get (rotation_y controller)
                  + float_of_int dx * lit 0.5)) controller in
          let controller :=
            assign_rotation_x
              (SmoothValue.set_target (rotation_x controller)
                 (SmoothValue.get (rotation_x controller)
                  + float_of_int dy * lit 0.5)) controller in
          Continue (controller, Some pos)
      | None => Continue (controller, last_mouse_pos)
      end
  | other_event => Continue (controller, last_mouse_pos)
  end.

Fixpoint handle_events (delta_time : A) (events : list event)
  (state : RotationController A * option (Z * Z))
  : outcome (RotationController A * option (Z * Z)) :=
  match events with
  | [] => Continue state
  | e :: rest =>
      match handle_event delta_time state e with
      | Continue state => handle_events delta_time rest state
      | Exit => Exit
      end
  end.

(** "Sync audio player with progress window state" and "Sync speed with
    progress window": [elapsed] is [progress_window.elapsed], [stream_time]
    what [pause()] reads from sounddevice. *)
Definition sync_audio (self : AnimationThread.t A)
  (audio_player : EnhancedAudioPlayer A) (elapsed stream_time : A)
  (sd : sounddevice A) : result (EnhancedAudioPlayer A * sounddevice A) :=
  '(audio_player, sd) <-
    (if AnimationThread.paused self then
       if playing audio_player && negb (paused audio_player)
       then EnhancedAudioPlayer.pause audio_player stream_time sd
       else Ok (audio_player, sd)
     else
       if AnimationThread.rewind_mode self then
         if negb (is_rewinding audio_player)
         then Ok (EnhancedAudioPlayer.start_rewind audio_player, sd)
         else Ok (audio_player, sd)
       else
         let audio_player :=
           if is_rewinding audio_player
           then EnhancedAudioPlayer.stop_rewind audio_player
           else audio_player in
         if (paused audio_player || negb (playing audio_player))
            && match AnimationThread.audio_file self with
               | String.EmptyString => false
               | String.String _ _ => true
               end
         then EnhancedAudioPlayer.play audio_player (Some elapsed) sd
         else Ok (audio_player, sd)) ;;
  if negb (speed audio_player =? AnimationThread.speed self)
  then EnhancedAudioPlayer.set_speed audio_player (AnimationThread.speed self) sd
  else Ok (audio_player, sd).

(** The pass: [now] is what [time.time()] returns, [events] what
    [pygame.event.get()] returns, [progress_window] the control window as
    the pass finds it. *)
Definition frame (self : AnimationThread.t A) (l : locals A) (now : A)
  (events : list event) (progress_window : ProgressWindow.t A)
  (stream_time : A) (sd : sounddevice A)
  : result (outcome (locals A * sounddevice A)) :=
  let current_time := now in
  let delta_time := current_time - last_time l in
  let last_time := current_time in
  let controller := RotationController.update (controller l) delta_time in
  match handle_events delta_time events (controller, last_mouse_pos l) with
  | Exit => Ok Exit
  | Continue (controller, last_mouse_pos) =>
      let controller :=
        if negb (auto_rotation controller)
           && RotationController.should_resume_auto_rotation controller
        then RotationController.resume_auto_rotation controller
        else controller in
      '(audio_player, sd) <-
        sync_audio self (audio_player l) (ProgressWindow.elapsed progress_window)
          stream_time sd ;;
      t <- ProgressWindow.get_elapsed_normalized progress_window ;;
      let '(animation_completed, controller) :=
        if (lit 1.0 <=? t) && negb (animation_completed l) then
          (true,
           if negb (auto_rotation controller)
           then RotationController.resume_auto_rotation controller
           else controller)
        else (animation_completed l, controller) in
      Ok (Continue
            (mkLocals controller last_mouse_pos audio_player last_time
               animation_completed, sd))
  end.
End Loop.
End Run.

End Rotate.

(** * src/modules/audio.py *)

Module Audio.

Module SmoothValue.
Section Methods.
Context {A : Type} `{PyFloat A}.
Local Open Scope py_scope.

Definition init (initial smoothing : A) : SmoothValue A :=
  {| current := initial; target := initial; smoothing := smoothing |}.

Definition update (self : SmoothValue A) : SmoothValue A :=
  {| current := current self
                + (target self - current self) * (lit 1.0 - smoothing self);
     target := target self;
     smoothing := smoothing self |}.

Definition set_target (self : SmoothValue A) (value : A) : SmoothValue A :=
  {| current := current self; target := value; smoothing := smoothing self |}.

Definition get (self : SmoothValue A) : A := current self.
End Methods.
End SmoothValue.

Module RotationController.
Section Methods.
Context {A : Type} `{PyFloat A}.
Local Open Scope py_scope.
Implicit Type self : RotationController A.

(** [__init__]; [now] is what [time.time()] returns. *)
Definition init (now : A) : RotationController A :=
  {| rotation_x := SmoothValue.init (lit 0.0) (lit 0.8);
     rotation_y := SmoothValue.init (lit 0.0) (lit 0.8);
     momentum_x := lit 0.0;
     momentum_y := lit 0.0;
     velocity_x := SmoothValue.init (lit 0.0) (lit 0.6);
     velocity_y := SmoothValue.init (lit 0.0) (lit 0.6);
     auto_rotation := true;
     transition := SmoothValue.init (lit 1.0) (lit 0.95);
     damping := lit 0.95;
     momentum_multiplier := lit 0.2;
     last_time := now |}.

(** [update(delta_time)]: the argument is never read. *)
Definition update self (delta_time : A) : RotationController A :=
  let self := assign_rotation_x (SmoothValue.update (rotation_x self)) self in
  let self := assign_rotation_y (SmoothValue.update (rotation_y self)) self in
  let self := assign_velocity_x (SmoothValue.update (velocity_x self)) self in
  let self := assign_velocity_y (SmoothValue.update (velocity_y self)) self in
  let self := assign_transition (SmoothValue.update (transition self)) self in
  let self :=
    if (fabs (momentum_x self) >? lit 0.01) || (fabs (momentum_y self) >? lit 0.01)
    then
      let self :=
        assign_rotation_x
          (SmoothValue.set_target (rotation_x self)
             (SmoothValue.get (rotation_x self) + momentum_x self)) self in
      let self :=
        assign_rotation_y
          (SmoothValue.set_target (rotation_y self)
             (SmoothValue.get (rotation_y self) + momentum_y self)) self in
      let velocity := (fabs (momentum_x self) + fabs (momentum_y self)) * lit 0.5 in
      let dynamic_damping :=
        damping self
        * (lit 0.97 + lit 0.03 * (lit 1.0 - min (lit 1.0) (velocity / lit 3.0))) in
      let self := assign_momentum_x (momentum_x self * dynamic_damping) self in
      assign_momentum_y (momentum_y self * dynamic_damping) self
    else self in
  let self :=
    if fabs (momentum_x self) <? lit 0.01
    then assign_momentum_x (lit 0) self else self in
  if fabs (momentum_y self) <? lit 0.01
  then assign_momentum_y (lit 0) self else self.

Definition start_orbit self : RotationController A :=
  let self := assign_auto_rotation false self in
  assign_transition (SmoothValue.set_target (transition self) (lit 0.0)) self.

(** As in rotate.py: [momentum_x] from [velocity_y], [momentum_y] from
    [velocity_x]. *)
Definition stop_orbit self : RotationController A :=
  let self :=
    assign_momentum_x
      (SmoothValue.get (velocity_y self) * momentum_multiplier self) self in
  let self :=
    assign_momentum_y
      (SmoothValue.get (velocity_x self) * momentum_multiplier self) self in
  let self :=
    assign_transition (SmoothValue.set_target (transition self) (lit 1.0)) self in
  assign_auto_rotation true self.

Definition should_resume_auto_rotation self : bool :=
  (fabs (momentum_x self) <? lit 0.3)
  && (fabs (momentum_y self) <? lit 0.3)
  && (SmoothValue.get (transition self) >? lit 0.95).

Definition resume_auto_rotation self : RotationController A :=
  let self := assign_auto_rotation true self in
  assign_transition (SmoothValue.set_target (transition self) (lit 1.0)) self.

(** The guard keeps a zero [delta_time] away from the divisions. *)
Definition update_mouse_velocity self (dx dy delta_time : A)
  : RotationController A :=
  if delta_time >? lit 0 then
    let self :=
      assign_velocity_x
        (SmoothValue.set_target (velocity_x self) (dx / delta_time * lit 1.3))
        self in
    assign_velocity_y
      (SmoothValue.set_target (velocity_y self) (dy / delta_time * lit 1.3))
      self
  else self.
End Methods.
End RotationController.

Module EnhancedAudioPlayer.
Section Methods.
Context {A : Type} `{PyFloat A}.
Local Open Scope py_scope.
Implicit Type self : EnhancedAudioPlayer A.

Definition init : EnhancedAudioPlayer A :=
  {| audio_data := None; sample_rate := None; playing := false;
     paused := false; current_position := lit 0.0; speed := lit 1.0;
     is_rewinding := false |}.

(** [play(from_pos=None)]: as in rotate.py, and it starts nothing when the
    position lies past the end of the data. *)
Definition play self (from_pos : option A) (sd : sounddevice A)
  : result (EnhancedAudioPlayer A * sounddevice A) :=
  match audio_data self with
  | None => Ok (self, sd)
  | Some data =>
      let self :=
        match from_pos with
        | Some p => assign_current_position p self
        | None => self
        end in
      match sample_rate self with
      | None => Raise TypeError
      | Some rate =>
          start_sample <- int (current_position self * float_of_int rate) ;;
          let sd := sd ++ [sd_stop] in
          if (start_sample <? Z.of_nat (length data))%Z then
            let chunk := slice_from data start_sample in
            samplerate <- int (float_of_int rate * speed self) ;;
            let sd := sd ++ [sd_play chunk samplerate] in
            let self := assign_playing true self in
            let self := assign_paused false self in
            Ok (self, sd)
          else Ok (self, sd)
      end
  end.

Definition set_position self (position_seconds : A) (sd : sounddevice A)
  : result (EnhancedAudioPlayer A * sounddevice A) :=
  match audio_data self with
  | Some data =>
      match sample_rate self with
      | None => Raise TypeError
      | Some rate =>
          total <- int_truediv (Z.of_nat (length data)) rate ;;
          let self :=
            assign_current_position
              (max (lit 0.0) (min position_seconds total)) self in
          if playing self && negb (paused self)
          then play self (Some (current_position self)) sd
          else Ok (self, sd)
      end
  | None => Ok (self, sd)
  end.

(** [pause()].  [stream] is the [time] of [sd.get_stream()], [None] when
    sounddevice has no stream to give; whatever goes wrong while the
    position is advanced is swallowed by the bare [except]. *)
Definition pause self (stream : option A) (sd : sounddevice A)
  : EnhancedAudioPlayer A * sounddevice A :=
  if playing self && negb (paused self) then
    let self :=
      match stream with
      | Some elapsed =>
          match truediv elapsed (speed self) with
          | Ok advance =>
              assign_current_position (current_position self + advance) self
          | Raise _ => self
          end
      | None => self
      end in
    let sd := sd ++ [sd_stop] in
    let self := assign_paused true self in
    (self, sd)
  else (self, sd).

Definition resume self (sd : sounddevice A)
  : result (EnhancedAudioPlayer A * sounddevice A) :=
  if paused self then play self (Some (current_position self)) sd
  else Ok (self, sd).

Definition set_speed self (speed : A) (sd : sounddevice A)
  : result (EnhancedAudioPlayer A * sounddevice A) :=
  let self := assign_player_speed speed self in
  if playing self && negb (paused self)
  then play self (Some (current_position self)) sd
  else Ok (self, sd).

Definition start_rewind self (sd : sounddevice A)
  : EnhancedAudioPlayer A * sounddevice A :=
  let self := assign_is_rewinding true self in
  let sd := sd ++ [sd_stop] in
  let self := assign_playing false self in
  (self, sd).

Definition stop_rewind self : EnhancedAudioPlayer A :=
  assign_is_rewinding false self.

Definition cleanup self (sd : sounddevice A)
  : EnhancedAudioPlayer A * sounddevice A :=
  let sd := sd ++ [sd_stop] in
  let self := assign_playing false self in
  let self := assign_paused false self in
  let self := assign_is_rewinding false self in
  (self, sd).
End Methods.

Section Loading.
Context {A : Type} `{PyMath A}.
Implicit Type self : EnhancedAudioPlayer A.

(** [load_file(file_path)].  [loaded] is what [librosa.load] returns for the
    file, the samples and the sampling rate, or [None] when it raises; the
    answer is the [True] or [False] returned. *)
Definition load_file self (loaded : option (list A * Z))
  : EnhancedAudioPlayer A * bool :=
  match loaded with
  | Some (data, sr) =>
      let self := assign_audio_data (map float32 data) self in
      let self := assign_sample_rate sr self in
      (self, true)
  | None => (self, false)
  end.
End Loading.
End EnhancedAudioPlayer.

Module MorphOpenGLWidget.

(** The attributes of the widget that the animation reads or writes; the
    mouse position and the Qt timer are left to the event loop. *)
Record t (A : Type) : Type := mk {
  controller : RotationController A;
  last_time : A;
  elapsed : A;
  duration : A;
  paused : bool;
  rewind_mode : bool;
  speed : A;
  cube_vertices : option (list (vec3 A));
  sphere_vertices : option (list (vec3 A));
  edges : option (list edge);
  subdivisions : Z
}.
Arguments mk {A}.
Arguments controller {A}.
Arguments last_time {A}.
Arguments elapsed {A}.
Arguments duration {A}.
Arguments paused {A}.
Arguments rewind_mode {A}.
Arguments speed {A}.
Arguments cube_vertices {A}.
Arguments sphere_vertices {A}.
Arguments edges {A}.
Arguments subdivisions {A}.

(** The keys [keyPressEvent] tells apart. *)
Inductive Key : Set := Key_Space | Key_Escape | Key_other.

Section Methods.
Context {A : Type} `{PyFloat A} `{PyMath A}.
Local Open Scope py_scope.
Implicit Type self : t A.

Definition assign_controller (v : RotationController A) self :=
  mk v (last_time self) (elapsed self) (duration self) (paused self)
    (rewind_mode self) (speed self) (cube_vertices self) (sphere_vertices self)
    (edges self) (subdivisions self).

Definition assign_last_time (v : A) self :=
  mk (controller self) v (elapsed self) (duration self) (paused self)
    (rewind_mode self) (speed self) (cube_vertices self) (sphere_vertices self)
    (edges self) (subdivisions self).

Definition assign_elapsed (v : A) self :=
  mk (controller self) (last_time self) v (duration self) (paused self)
    (rewind_mode self) (speed self) (cube_vertices self) (sphere_vertices self)
    (edges self) (subdivisions self).

Definition assign_paused (v : bool) self :=
  mk (controller self) (last_time self) (elapsed self) (duration self) v
    (rewind_mode self) (speed self) (cube_vertices self) (sphere_vertices self)
    (edges self) (subdivisions self).

Definition assign_rewind_mode (v : bool) self :=
  mk (controller self) (last_time self) (elapsed self) (duration self)
    (paused self) v (speed self) (cube_vertices self) (sphere_vertices self)
    (edges self) (subdivisions self).

Definition assign_speed (v : A) self :=
  mk (controller self) (last_time self) (elapsed self) (duration self)
    (paused self) (rewind_mode self) v (cube_vertices self)
    (sphere_vertices self) (edges self) (subdivisions self).

Definition assign_geometry (cube sphere : list (vec3 A)) (es : list edge) self :=
  mk (controller self) (last_time self) (elapsed self) (duration self)
    (paused self) (rewind_mode self) (speed self) (Some cube) (Some sphere)
    (Some es) (subdivisions self).

(** [__init__]; [now0] and [now] are what [time.time()] returns to the
    controller's [__init__] and then to the widget's. *)
Definition init (now0 now : A) : t A :=
  {| controller := RotationController.init now0;
     last_time := now;
     elapsed := lit 0.0;
     duration := lit 30.0;
     paused := true;
     rewind_mode := false;
     speed := lit 1.0;
     cube_vertices := None;
     sphere_vertices := None;
     edges := None;
     subdivisions := 5 |}.

Definition _interpolate (v1 v2 : vec3 A) (t : A) : vec3 A :=
  let '(x1, y1, z1) := v1 in
  let '(x2, y2, z2) := v2 in
  (x1 + (x2 - x1) * t, y1 + (y2 - y1) * t, z1 + (z2 - z1) * t).

(** Equality of two keys of [vertex_cache] (tuples of three floats), and
    the lookup [vertex_cache[key]] when [key in vertex_cache]. *)
Definition key_eqb (a b : vec3 A) : bool :=
  let '(a0, a1, a2) := a in
  let '(b0, b1, b2) := b in
  (a0 =? b0) && (a1 =? b1) && (a2 =? b2).

Fixpoint cache_get (vertex_cache : list (vec3 A * nat)) (key : vec3 A)
  : option nat :=
  match vertex_cache with
  | [] => None
  | (k, idx) :: rest => if key_eqb key k then Some idx else cache_get rest key
  end.

(** [np.array(rows, dtype=np.float32)]. *)
Definition float32_array (rows : list (vec3 A)) : list (vec3 A) :=
  map (fun '(x, y, z) => (float32 x, float32 y, float32 z)) rows.

(** One pass of the loop over [i] that fills [grid_indices]: row [i]. *)
Definition grid_row (corners : list (vec3 A)) (subdivisions : Z) (i : nat)
  (state : list (vec3 A) * list (vec3 A * nat))
  : result (list (vec3 A) * list (vec3 A * nat) * list nat) :=
  t1 <- int_truediv (Z.of_nat i) subdivisions ;;
  for_each (range (subdivisions + 1))
    (fun '(vertices, vertex_cache, row_indices) j =>
       t2 <- int_truediv (Z.of_nat j) subdivisions ;;
       c0 <- getitem corners 0 ;;
       c1 <- getitem corners 1 ;;
       let edge1 := _interpolate c0 c1 t2 in
       c3 <- getitem corners 3 ;;
       c2 <- getitem corners 2 ;;
       let edge2 := _interpolate c3 c2 t2 in
       let point := _interpolate edge1 edge2 t1 in
       let point_tuple :=
         let '(x, y, z) := point in (fround x 6, fround y 6, fround z 6) in
       let '(vertices, vertex_cache, idx) :=
         match cache_get vertex_cache point_tuple with
         | Some idx => (vertices, vertex_cache, idx)
         | None =>
             let vertices := vertices ++ [point] in
             let idx := (length vertices - 1)%nat in
             (vertices, vertex_cache ++ [(point_tuple, idx)], idx)
         end in
       Ok (vertices, vertex_cache, row_indices ++ [idx]))
    (fst state, snd state, []).

(** The grid of one face. *)
Definition face_grid (corners : list (vec3 A)) (subdivisions : Z)
  (state : list (vec3 A) * list (vec3 A * nat))
  : result (list (vec3 A) * list (vec3 A * nat) * list (list nat)) :=
  for_each (range (subdivisions + 1))
    (fun '(vertices, vertex_cache, grid_indices) i =>
       '(vertices, vertex_cache, row_indices) <-
         grid_row corners subdivisions i (vertices, vertex_cache) ;;
       Ok (vertices, vertex_cache, grid_indices ++ [row_indices]))
    (fst state, snd state, []).

(** The edges of one face, from its grid. *)
Definition face_edges (grid_indices : list (list nat)) (subdivisions : Z)
  (edges : list edge) : result (list edge) :=
  for_each (range (subdivisions + 1))
    (fun edges i =>
       for_each (range subdivisions)
         (fun edges j =>
            row <- getitem grid_indices i ;;
            a <- getitem row j ;;
            b <- getitem row (j + 1) ;;
            let edges := edges ++ [(a, b)] in
            if (Z.of_nat i <? subdivisions)%Z then
              below <- getitem grid_indices (i + 1) ;;
              c <- getitem below j ;;
              Ok (edges ++ [(a, c)])
            else Ok edges)
         edges)
    edges.

Definition _create_tessellated_cube (size : A) (subdivisions : Z)
  : result (list (vec3 A) * list edge) :=
  let basic_vertices :=
    [ (- size, - size, - size);
      (size, - size, - size);
      (size, size, - size);
      (- size, size, - size);
      (- size, - size, size);
      (size, - size, size);
      (size, size, size);
      (- size, size, size) ] in
  let basic_quads :=
    [ [0; 3; 2; 1]; [4; 5; 6; 7]; [0; 1; 5; 4];
      [3; 7; 6; 2]; [0; 4; 7; 3]; [1; 2; 6; 5] ]%nat in
  '(vertices, vertex_cache, edges) <-
    for_each basic_quads
      (fun '(vertices, vertex_cache, edges) quad =>
         corners <- comprehension (getitem basic_vertices) quad ;;
         '(vertices, vertex_cache, grid_indices) <-
           face_grid corners subdivisions (vertices, vertex_cache) ;;
         edges <- face_edges grid_indices subdivisions edges ;;
         Ok (vertices, vertex_cache, edges))
      ([], [], []) ;;
  Ok (float32_array vertices, edges).

(** The rows are numpy [float32] values, whose division raises nothing. *)
Definition _generate_sphere_vertices (cube_vertices : list (vec3 A)) (radius : A)
  : list (vec3 A) :=
  float32_array
    (fold_left
       (fun sphere_vertices '(x, y, z) =>
          let distance := fsqrt (x * x + y * y + z * z) in
          if distance <? lit 0.0001 then
            sphere_vertices ++ [(lit 0, lit 0, lit 0)]
          else
            sphere_vertices
            ++ [(x / distance * radius, y / distance * radius,
                 z / distance * radius)])
       cube_vertices []).

Definition _create_geometry self : result (t A) :=
  '(cube, es) <- _create_tessellated_cube (lit 1.0) (subdivisions self) ;;
  let sphere := _generate_sphere_vertices cube (lit 1.0) in
  Ok (assign_geometry cube sphere es self).

(** [start + (end - start) * t] on two numpy arrays of vertices: element by
    element when they have as many rows, one row against all rows of the
    other when an array has a single row, an error otherwise. *)
Definition lerp_row (start end_ : vec3 A) (t : A) : vec3 A :=
  let '(s0, s1, s2) := start in
  let '(e0, e1, e2) := end_ in
  (s0 + (e0 - s0) * t, s1 + (e1 - s1) * t, s2 + (e2 - s2) * t).

Definition _lerp (start end_ : list (vec3 A)) (t : A) : result (list (vec3 A)) :=
  if (length start =? length end_)%nat then
    Ok (map (fun '(s, e) => lerp_row s e t) (combine start end_))
  else
    match start, end_ with
    | [s], _ :: _ => Ok (map (fun e => lerp_row s e t) end_)
    | _ :: _, [e] => Ok (map (fun s => lerp_row s e t) start)
    | _, _ => Raise ValueError
    end.

(** The vertices [_draw_morphed_shape] computes and draws. *)
Definition _draw_morphed_shape self (t : A) : result (list (vec3 A)) :=
  match cube_vertices self, sphere_vertices self with
  | Some cube, Some sphere => _lerp cube sphere t
  | _, _ => Raise TypeError
  end.

Definition get_normalized_elapsed self : result A :=
  ratio <- truediv (elapsed self) (duration self) ;;
  Ok (min (lit 1.0) (max (lit 0.0) ratio)).

(** The vertices [paintGL] draws. *)
Definition paintGL self : result (list (vec3 A)) :=
  t <- get_normalized_elapsed self ;;
  _draw_morphed_shape self t.

(** [update_animation], run by the 16 ms timer; [now] is what [time.time()]
    returns.  Repainting and the texts of the buttons are display only. *)
Definition update_animation self (now : A) : t A :=
  let current_time := now in
  let delta_time := current_time - last_time self in
  let self := assign_last_time current_time self in
  let self :=
    assign_controller (RotationController.update (controller self) delta_time)
      self in
  let self :=
    if negb (auto_rotation (controller self))
       && RotationController.should_resume_auto_rotation (controller self)
    then assign_controller
           (RotationController.resume_auto_rotation (controller self)) self
    else self in
  if negb (paused self) then
    if rewind_mode self then
      let self := assign_elapsed (elapsed self - lit 0.016 * lit 2.0) self in
      if elapsed self <? lit 0 then
        let self := assign_elapsed (lit 0) self in
        let self := assign_rewind_mode false self in
        assign_paused true self
      else self
    else
      let self := assign_elapsed (elapsed self + lit 0.016 * speed self) self in
      if elapsed self >? duration self then
        let self := assign_elapsed (duration self) self in
        assign_paused true self
      else self
  else self.

Definition set_position self (position_seconds : A) : t A :=
  assign_elapsed (max (lit 0.0) (min position_seconds (duration self))) self.

Definition toggle_play_pause self : t A :=
  let self := assign_rewind_mode false self in
  assign_paused (negb (paused self)) self.

Definition toggle_rewind self : t A :=
  if rewind_mode self then
    let self := assign_rewind_mode false self in
    assign_paused true self
  else
    let self := assign_rewind_mode true self in
    assign_paused false self.

Definition set_speed self (speed : A) : t A := assign_speed speed self.

(** What [_draw_morphed_shape] hands to the GL: the vertices it sends between
    [glBegin(GL_LINES)] and [glEnd()], two for every edge, and the alpha of
    the sphere it lays over them once [t] has passed 0.7. *)
Definition _draw_morphed_shape_gl self (t : A)
  : result (list (vec3 A) * option A) :=
  morphed_vertices <- _draw_morphed_shape self t ;;
  match edges self with
  | None => Raise TypeError
  | Some es =>
      lines <-
        for_each es
          (fun lines '(a, b) =>
             va <- getitem morphed_vertices a ;;
             vb <- getitem morphed_vertices b ;;
             Ok (lines ++ [va; vb]))
          [] ;;
      if t >? lit 0.7 then
        let opacity := (t - lit 0.7) / lit 0.3 in
        Ok (lines, Some (opacity * lit 0.5))
      else Ok (lines, None)
  end.

(** [keyPressEvent]: the widget it leaves and whether [QApplication.quit()]
    was called. *)
Definition keyPressEvent self (key : Key) : t A * bool :=
  match key with
  | Key_Space =>
      let controller :=
        if auto_rotation (controller self)
        then RotationController.start_orbit (controller self)
        else RotationController.resume_auto_rotation (controller self) in
      (assign_controller controller self, false)
  | Key_Escape => (self, true)
  | Key_other => (self, false)
  end.
End Methods.
End MorphOpenGLWidget.

(** [MainWindow], which src/modules/ui.py repeats. *)
Module MainWindow.

Record t (A : Type) : Type := mk {
  audio_player : EnhancedAudioPlayer A;
  gl_widget : MorphOpenGLWidget.t A;
  slider_being_dragged : bool;
  progress_slider : Z
}.
Arguments mk {A}.
Arguments audio_player {A}.
Arguments gl_widget {A}.
Arguments slider_being_dragged {A}.
Arguments progress_slider {A}.

Section Methods.
Context {A : Type} `{PyFloat A} `{PyMath A}.
Local Open Scope py_scope.
Implicit Type self : t A.

Definition slider_pressed self : t A :=
  mk (audio_player self) (gl_widget self) true (progress_slider self).

Definition slider_released self (sd : sounddevice A)
  : result (t A * sounddevice A) :=
  let position_value := progress_slider self in
  let position_seconds :=
    float_of_int position_value / lit 100.0
    * MorphOpenGLWidget.duration (gl_widget self) in
  let widget := MorphOpenGLWidget.set_position (gl_widget self) position_seconds in
  '(player, sd) <-
    EnhancedAudioPlayer.set_position (audio_player self) position_seconds sd ;;
  Ok (mk player widget false (progress_slider self), sd).

Definition slider_changed self (value : Z) : t A :=
  if slider_being_dragged self then
    let position_seconds :=
      float_of_int value / lit 100.0
      * MorphOpenGLWidget.duration (gl_widget self) in
    mk (audio_player self)
      (MorphOpenGLWidget.assign_elapsed position_seconds (gl_widget self))
      (slider_being_dragged self) (progress_slider self)
  else self.

(** [__init__], up to the file dialog it ends with, which is
    [load_audio_file]. *)
Definition init (now0 now : A) : t A :=
  mk EnhancedAudioPlayer.init (MorphOpenGLWidget.init now0 now) false 0.

(** [toggle_play_pause]; [stream] is what [pause()] reads from sounddevice. *)
Definition toggle_play_pause self (stream : option A) (sd : sounddevice A)
  : result (t A * sounddevice A) :=
  let widget := MorphOpenGLWidget.toggle_play_pause (gl_widget self) in
  if MorphOpenGLWidget.paused widget then
    let '(player, sd) :=
      if playing (audio_player self)
      then EnhancedAudioPlayer.pause (audio_player self) stream sd
      else (audio_player self, sd) in
    Ok (mk player widget (slider_being_dragged self) (progress_slider self), sd)
  else
    let widget := MorphOpenGLWidget.assign_rewind_mode false widget in
    '(player, sd) <-
      EnhancedAudioPlayer.set_position (audio_player self)
        (MorphOpenGLWidget.elapsed widget) sd ;;
    '(player, sd) <-
      (if paused player then EnhancedAudioPlayer.resume player sd
       else EnhancedAudioPlayer.play player None sd) ;;
    Ok (mk player widget (slider_being_dragged self) (progress_slider self), sd).

Definition toggle_rewind self (stream : option A) (sd : sounddevice A)
  : t A * sounddevice A :=
  let widget := MorphOpenGLWidget.toggle_rewind (gl_widget self) in
  if MorphOpenGLWidget.rewind_mode widget then
    let '(player, sd) :=
      EnhancedAudioPlayer.pause (audio_player self) stream sd in
    (mk player widget (slider_being_dragged self) (progress_slider self), sd)
  else
    let widget := MorphOpenGLWidget.assign_paused true widget in
    (mk (audio_player self) widget (slider_being_dragged self)
       (progress_slider self), sd).

Definition toggle_speed self (sd : sounddevice A)
  : result (t A * sounddevice A) :=
  let widget :=
    if MorphOpenGLWidget.speed (gl_widget self) =? lit 1.0
    then MorphOpenGLWidget.assign_speed (lit 2.0) (gl_widget self)
    else MorphOpenGLWidget.assign_speed (lit 1.0) (gl_widget self) in
  '(player, sd) <-
    EnhancedAudioPlayer.set_speed (audio_player self)
      (MorphOpenGLWidget.speed widget) sd ;;
  Ok (mk player widget (slider_being_dragged self) (progress_slider self), sd).

(** [update_ui], run by the 50 ms timer: the slider follows [elapsed] unless
    the user holds it; the time label takes [int(elapsed)] and
    [int(duration)]. *)
Definition update_ui self : result (t A) :=
  self <- (if negb (slider_being_dragged self) then
             ratio <- truediv (MorphOpenGLWidget.elapsed (gl_widget self))
                        (MorphOpenGLWidget.duration (gl_widget self)) ;;
             let progress_percent := ratio * lit 100 in
             value <- int progress_percent ;;
             Ok (mk (audio_player self) (gl_widget self)
                   (slider_being_dragged self) (slider_value value))
           else Ok self) ;;
  _ <- int (MorphOpenGLWidget.elapsed (gl_widget self)) ;;
  _ <- int (MorphOpenGLWidget.duration (gl_widget self)) ;;
  Ok self.

(** [load_audio_file]: [file_name] is what the file dialog returns, the empty
    string when it is cancelled, and [loaded] what [librosa.load] makes of
    that file. *)
Definition load_audio_file self (file_name : String.string)
  (loaded : option (list A * Z)) (sd : sounddevice A)
  : result (t A * sounddevice A) :=
  match file_name with
  | String.EmptyString => Ok (self, sd)
  | String.String _ _ =>
      let '(player, sd) := EnhancedAudioPlayer.cleanup (audio_player self) sd in
      let '(player, loaded_ok) := EnhancedAudioPlayer.load_file player loaded in
      if loaded_ok then
        if negb (MorphOpenGLWidget.paused (gl_widget self)) then
          '(player, sd) <-
            EnhancedAudioPlayer.play player
              (Some (MorphOpenGLWidget.elapsed (gl_widget self))) sd ;;
          Ok (mk player (gl_widget self) (slider_being_dragged self)
                (progress_slider self), sd)
        else
          Ok (mk player (gl_widget self) (slider_being_dragged self)
                (progress_slider self), sd)
      else
        Ok (mk player (gl_widget self) (slider_being_dragged self)
              (progress_slider self), sd)
  end.

Definition closeEvent self (sd : sounddevice A) : t A * sounddevice A :=
  let '(player, sd) := EnhancedAudioPlayer.cleanup (audio_player self) sd in
  (mk player (gl_widget self) (slider_being_dragged self) (progress_slider self),
   sd).
End Methods.
End MainWindow.

End Audio.

(** * Runs and vocabulary *)

Local Open Scope Q_scope.

(** ** The transport *)

(** Runs of the two timers: the widget of audio.py is ticked with the clock
    readings in [clock], the control window of rotate.py [n] times. *)
Definition run_animation {A : Type} `{PyFloat A}
  (clock : list A) (w : Audio.MorphOpenGLWidget.t A) : Audio.MorphOpenGLWidget.t A :=
  fold_left Audio.MorphOpenGLWidget.update_animation clock w.

Fixpoint run_ui {A : Type} `{PyFloat A}
  (n : nat) (w : Rotate.ProgressWindow.t A) : result (Rotate.ProgressWindow.t A) :=
  match n with
  | O => Ok w
  | S n' =>
      bind (Rotate.ProgressWindow.update_ui w) (fun '(w', _) => run_ui n' w')
  end.

(** The attributes that make up the transport, which the widget of audio.py
    and the control window of rotate.py both hold, and the step that one tick
    of either timer performs on them ([update_animation_tick] and
    [update_ui_tick] below relate it to the two programs). *)
Record transport : Type := mkTransport {
  t_elapsed : Q;
  t_duration : Q;
  t_paused : bool;
  t_rewind_mode : bool;
  t_speed : Q
}.

Definition tick (v : transport) : transport :=
  if negb (t_paused v) then
    if t_rewind_mode v then
      let e := t_elapsed v - 0.016 * 2.0 in
      if Qltb e 0
      then mkTransport 0 (t_duration v) true false (t_speed v)
      else mkTransport e (t_duration v) false true (t_speed v)
    else
      let e := t_elapsed v + 0.016 * t_speed v in
      if Qltb (t_duration v) e
      then mkTransport (t_duration v) (t_duration v) true false (t_speed v)
      else mkTransport e (t_duration v) false false (t_speed v)
  else v.

Definition widget_transport (w : Audio.MorphOpenGLWidget.t Q) : transport :=
  mkTransport (Audio.MorphOpenGLWidget.elapsed w)
    (Audio.MorphOpenGLWidget.duration w) (Audio.MorphOpenGLWidget.paused w)
    (Audio.MorphOpenGLWidget.rewind_mode w) (Audio.MorphOpenGLWidget.speed w).

Definition window_transport (w : Rotate.ProgressWindow.t Q) : transport :=
  mkTransport (Rotate.ProgressWindow.elapsed w)
    (Rotate.ProgressWindow.duration w) (Rotate.ProgressWindow.paused w)
    (Rotate.ProgressWindow.rewind_mode w) (Rotate.ProgressWindow.speed w).

(** The three states of the transport, at a given [elapsed]. *)
Definition paused_at (e : Q) (v : transport) : Prop :=
  t_elapsed v == e /\ t_paused v = true /\ t_rewind_mode v = false.

Definition playing_forward_at (e : Q) (v : transport) : Prop :=
  t_elapsed v == e /\ t_paused v = false /\ t_rewind_mode v = false.

Definition rewinding_at (e : Q) (v : transport) : Prop :=
  t_elapsed v == e /\ t_paused v = false /\ t_rewind_mode v = true.

(** ** The rotation controller *)

(** The calls a client can make on a controller, and a run of them: the
    final state and what [should_resume_auto_rotation] answered on the way. *)
Inductive call (A : Type) : Type :=
  | Update (delta_time : A)
  | StartOrbit
  | StopOrbit
  | ShouldResumeAutoRotation
  | ResumeAutoRotation
  | UpdateMouseVelocity (dx dy delta_time : A).
Arguments Update {A} delta_time.
Arguments StartOrbit {A}.
Arguments StopOrbit {A}.
Arguments ShouldResumeAutoRotation {A}.
Arguments ResumeAutoRotation {A}.
Arguments UpdateMouseVelocity {A} dx dy delta_time.

Section Runs.
Context {A : Type} `{PyFloat A}.

Definition rotate_call (c : RotationController A) (k : call A)
  : RotationController A * option bool :=
  match k with
  | Update delta_time => (Rotate.RotationController.update c delta_time, None)
  | StartOrbit => (Rotate.RotationController.start_orbit c, None)
  | StopOrbit => (Rotate.RotationController.stop_orbit c, None)
  | ShouldResumeAutoRotation =>
      (c, Some (Rotate.RotationController.should_resume_auto_rotation c))
  | ResumeAutoRotation => (Rotate.RotationController.resume_auto_rotation c, None)
  | UpdateMouseVelocity dx dy delta_time =>
      (Rotate.RotationController.update_mouse_velocity c dx dy delta_time, None)
  end.

Definition audio_call (c : RotationController A) (k : call A)
  : RotationController A * option bool :=
  match k with
  | Update delta_time => (Audio.RotationController.update c delta_time, None)
  | StartOrbit => (Audio.RotationController.start_orbit c, None)
  | StopOrbit => (Audio.RotationController.stop_orbit c, None)
  | ShouldResumeAutoRotation =>
      (c, Some (Audio.RotationController.should_resume_auto_rotation c))
  | ResumeAutoRotation => (Audio.RotationController.resume_auto_rotation c, None)
  | UpdateMouseVelocity dx dy delta_time =>
      (Audio.RotationController.update_mouse_velocity c dx dy delta_time, None)
  end.

Fixpoint run_calls
  (perform : RotationController A -> call A -> RotationController A * option bool)
  (c : RotationController A) (calls : list (call A))
  : RotationController A * list (option bool) :=
  match calls with
  | [] => (c, [])
  | k :: rest =>
      let '(c', answer) := perform c k in
      let '(c'', answers) := run_calls perform c' rest in
      (c'', answer :: answers)
  end.
End Runs.

(** A controller in the middle of a drag: the button went down, the pointer
    moved by (3, 4) in half a second, and one tick passed. *)
Definition dragged_controller : RotationController Q :=
  Rotate.RotationController.update
    (Rotate.RotationController.update_mouse_velocity
       (Rotate.RotationController.start_orbit (Rotate.RotationController.init 0))
       3 4 0.5)
    0.016.

(** ** Seeking and the morph *)

(** [clamp(x, lo, hi)], in the words of the specification. *)
Definition clamp (x lo hi : Q) : Q :=
  if Qlt_le_dec x lo then lo else if Qlt_le_dec hi x then hi else x.

(** Vertices compared coordinate by coordinate. *)
Definition vec3_eq (a b : vec3 Q) : Prop :=
  let '(a0, a1, a2) := a in
  let '(b0, b1, b2) := b in
  a0 == b0 /\ a1 == b1 /\ a2 == b2.

(** [m] and then [m'] lie on the way from [c] to [s]. *)
Definition on_the_way (c s m m' : Q) : Prop :=
  (c <= s -> c <= m /\ m <= m' /\ m' <= s)
  /\ (s <= c -> s <= m' /\ m' <= m /\ m <= c).

Definition vec3_on_the_way (c s m m' : vec3 Q) : Prop :=
  let '(c0, c1, c2) := c in
  let '(s0, s1, s2) := s in
  let '(m0, m1, m2) := m in
  let '(m0', m1', m2') := m' in
  on_the_way c0 s0 m0 m0' /\ on_the_way c1 s1 m1 m1' /\ on_the_way c2 s2 m2 m2'.

(** The interpolation in the words of the specification:
    [cube + (sphere - cube) * clamp(t, 0, 1)]. *)
Definition spec_interpolate (cube sphere : vec3 Q) (t : Q) : vec3 Q :=
  let '(c0, c1, c2) := cube in
  let '(s0, s1, s2) := sphere in
  let k := clamp t 0 1 in
  (c0 + (s0 - c0) * k, c1 + (s1 - c1) * k, c2 + (s2 - c2) * k).

(** ** Geometry *)

(** Every index is below [n]; every edge joins two indices below [n]. *)
Definition indices_below (n : nat) (idxs : list nat) : Prop :=
  Forall (fun i => (i < n)%nat) idxs.

Definition edges_below (n : nat) (edges : list edge) : Prop :=
  Forall (fun '(i, j) => (i < n)%nat /\ (j < n)%nat) edges.

Definition grid_below (n : nat) (side : nat) (grid_indices : list (list nat)) : Prop :=
  Forall (fun row => length row = side /\ indices_below n row) grid_indices.

(** Every index stored in [vertex_cache] is below [len]. *)
Definition cache_below {A : Type} (len : nat) (vertex_cache : list (vec3 A * nat))
  : Prop :=
  Forall (fun entry => (snd entry < len)%nat) vertex_cache.

(** ** Runs of the controller *)

(** What every method of [RotationController] keeps from the constructor
    on: the fade of the auto-rotation between 0 and 1, heading for 1 while
    [auto_rotation] holds and for 0 otherwise, and the three constants. *)
Definition fade_follows_flag (c : RotationController Q) : Prop :=
  0 <= current (transition c) /\ current (transition c) <= 1
  /\ target (transition c) == (if auto_rotation c then 1 else 0)
  /\ smoothing (transition c) == 0.95
  /\ damping c == 0.95
  /\ momentum_multiplier c == 0.2.

(** The auto-rotation is off and its fade heads for 0. *)
Definition fading_out (c : RotationController Q) : Prop :=
  auto_rotation c = false
  /\ 0 <= current (transition c) /\ current (transition c) <= 1
  /\ target (transition c) == 0
  /\ smoothing (transition c) == 0.95.

(** [update] called once per tick, oldest first. *)
Definition run_updates {A : Type} `{PyFloat A}
  (delta_times : list A) (c : RotationController A) : RotationController A :=
  fold_left Rotate.RotationController.update delta_times c.

(** The drag of [dragged_controller], released; and the same in binary64. *)
Definition released_controller : RotationController Q :=
  Rotate.RotationController.stop_orbit dragged_controller.

Definition released_float : RotationController float :=
  Rotate.RotationController.stop_orbit
    (Rotate.RotationController.update
       (Rotate.RotationController.update_mouse_velocity
          (Rotate.RotationController.start_orbit
             (Rotate.RotationController.init (lit 0)))
          (lit 3) (lit 4) (lit 0.5))
       (lit 0.016)).

(** ** The audio player *)

(** Four samples at two samples a second: loaded, and playing from 0. *)
Definition demo_player : EnhancedAudioPlayer Q :=
  mkEnhancedAudioPlayer (Some [0.1; 0.2; 0.3; 0.4]) (Some 2%Z) false false 0 1 false.

Definition playing_player : EnhancedAudioPlayer Q :=
  mkEnhancedAudioPlayer (Some [0.1; 0.2; 0.3; 0.4]) (Some 2%Z) true false 0 1 false.

(** ** The control window of rotate.py and its thread *)

(** What happens to the control window: a tick of its timer, and what the
    user does to the slider and the buttons.  Moving the handle makes Qt
    store the new value, kept within the range of the slider, and call
    [slider_changed] with it. *)
Inductive window_event : Set :=
  | UpdateUi
  | SliderPressed
  | SliderMoved (value : Z)
  | SliderReleased
  | TogglePlayPause
  | ToggleRewind
  | ToggleSpeed.

Definition window_step {A : Type} `{PyFloat A}
  (w : Rotate.ProgressWindow.t A) (e : window_event)
  : result (Rotate.ProgressWindow.t A * list (signal A)) :=
  match e with
  | UpdateUi => Rotate.ProgressWindow.update_ui w
  | SliderPressed => Ok (Rotate.ProgressWindow.slider_pressed w, [])
  | SliderMoved value =>
      let value := slider_value value in
      Ok (Rotate.ProgressWindow.slider_changed
            (Rotate.ProgressWindow.assign_progress_slider value w) value, [])
  | SliderReleased => Ok (Rotate.ProgressWindow.slider_released w)
  | TogglePlayPause => Ok (Rotate.ProgressWindow.toggle_play_pause w)
  | ToggleRewind => Ok (Rotate.ProgressWindow.toggle_rewind w)
  | ToggleSpeed => Ok (Rotate.ProgressWindow.toggle_speed w)
  end.

(** A run of events: the window it leaves and the signals emitted on the
    way, oldest first. *)
Fixpoint run_window {A : Type} `{PyFloat A}
  (events : list window_event) (w : Rotate.ProgressWindow.t A)
  : result (Rotate.ProgressWindow.t A * list (signal A)) :=
  match events with
  | [] => Ok (w, [])
  | e :: rest =>
      bind (window_step w e) (fun '(w', emitted) =>
      bind (run_window rest w') (fun '(w'', later) =>
      Ok (w'', emitted ++ later)))
  end.

(** The slot [handle_progress_signals] runs once for every signal, in the
    order of emission. *)
Definition deliver {A : Type} `{PyFloat A}
  (signals : list (signal A)) (thread : Rotate.AnimationThread.t A)
  : Rotate.AnimationThread.t A :=
  fold_left Rotate.AnimationThread.handle_progress_signals signals thread.

(** [elapsed] within [0, duration], a speed of 1 or 2, and no rewinding
    while paused. *)
Definition transport_invariant (v : transport) : Prop :=
  0 <= t_elapsed v /\ t_elapsed v <= t_duration v
  /\ (t_speed v == 1 \/ t_speed v == 2)
  /\ (t_rewind_mode v = true -> t_paused v = false).

Definition window_invariant (d : Q) (w : Rotate.ProgressWindow.t Q) : Prop :=
  Rotate.ProgressWindow.duration w = d
  /\ Rotate.ProgressWindow.running w = true
  /\ (0 <= Rotate.ProgressWindow.progress_slider w <= 100)%Z
  /\ transport_invariant (window_transport w).

(** The thread holds the transport flags and the speed of the window. *)
Definition mirrors {A : Type}
  (thread : Rotate.AnimationThread.t A) (w : Rotate.ProgressWindow.t A) : Prop :=
  Rotate.AnimationThread.paused thread = Rotate.ProgressWindow.paused w
  /\ Rotate.AnimationThread.rewind_mode thread = Rotate.ProgressWindow.rewind_mode w
  /\ Rotate.AnimationThread.speed thread = Rotate.ProgressWindow.speed w.

(** The locals of [run] as its loop first finds them, the clock at 0; and
    a thread with a file to play that was told to play. *)
Definition first_pass : Rotate.Run.locals Q :=
  Rotate.Run.mkLocals (Rotate.RotationController.init 0) None
    Rotate.EnhancedAudioPlayer.init 0 false.

Definition playing_thread : Rotate.AnimationThread.t Q :=
  Rotate.AnimationThread.handle_progress_signals
    (Rotate.AnimationThread.init "music.mp3"%string)
    (mkSignal (Some false) None None None).

(** ** The main window of audio.py *)

(** What happens to the main window: a tick of the animation timer, one of
    the events of the controls (with what [pause()] would read from
    sounddevice then), a key. *)
Inductive main_event (A : Type) : Type :=
  | Animate (now : A)
  | Control (e : window_event) (stream : option A)
  | KeyPressed (key : Audio.MorphOpenGLWidget.Key).
Arguments Animate {A} now.
Arguments Control {A} e stream.
Arguments KeyPressed {A} key.

Definition main_step {A : Type} `{PyFloat A}
  (state : Audio.MainWindow.t A * sounddevice A) (e : main_event A)
  : result (Audio.MainWindow.t A * sounddevice A) :=
  let '(m, sd) := state in
  let with_widget widget :=
    Audio.MainWindow.mk (Audio.MainWindow.audio_player m) widget
      (Audio.MainWindow.slider_being_dragged m)
      (Audio.MainWindow.progress_slider m) in
  match e with
  | Animate now =>
      Ok (with_widget
            (Audio.MorphOpenGLWidget.update_animation
               (Audio.MainWindow.gl_widget m) now), sd)
  | KeyPressed key =>
      Ok (with_widget
            (fst (Audio.MorphOpenGLWidget.keyPressEvent
                    (Audio.MainWindow.gl_widget m) key)), sd)
  | Control UpdateUi _ =>
      bind (Audio.MainWindow.update_ui m) (fun m => Ok (m, sd))
  | Control SliderPressed _ => Ok (Audio.MainWindow.slider_pressed m, sd)
  | Control (SliderMoved value) _ =>
      let value := slider_value value in
      Ok (Audio.MainWindow.slider_changed
            (Audio.MainWindow.mk (Audio.MainWindow.audio_player m)
               (Audio.MainWindow.gl_widget m)
               (Audio.MainWindow.slider_being_dragged m) value) value, sd)
  | Control SliderReleased _ => Audio.MainWindow.slider_released m sd
  | Control TogglePlayPause stream =>
      Audio.MainWindow.toggle_play_pause m stream sd
  | Control ToggleRewind stream =>
      Ok (Audio.MainWindow.toggle_rewind m stream sd)
  | Control ToggleSpeed _ => Audio.MainWindow.toggle_speed m sd
  end.

Fixpoint run_main {A : Type} `{PyFloat A}
  (events : list (main_event A))
  (state : Audio.MainWindow.t A * sounddevice A)
  : result (Audio.MainWindow.t A * sounddevice A) :=
  match events with
  | [] => Ok state
  | e :: rest => bind (main_step state e) (run_main rest)
  end.


(** The main window with the four samples loaded, paused one second into
    the animation. *)
Definition loaded_window : Audio.MainWindow.t Q :=
  Audio.MainWindow.mk demo_player
    (Audio.MorphOpenGLWidget.assign_elapsed 1 (Audio.MorphOpenGLWidget.init 0 0))
    false 0.

(** ** Drawing *)

(** The morphed vertices at [t], and the vertices the line loop sends for a
    list of edges: both ends of every edge, in order. *)
Definition morph_at (cube sphere : list (vec3 Q)) (t : Q) : list (vec3 Q) :=
  map (fun '(c, s) => Rotate.lerp c s t) (combine cube sphere).

Definition lines_of (morph : list (vec3 Q)) (edges : list edge) : list (vec3 Q) :=
  flat_map (fun '(a, b) => [nth a morph (0, 0, 0); nth b morph (0, 0, 0)]) edges.

(** The sphere laid over the wireframe: none up to [t = 0.7], then one of
    alpha [(t - 0.7) / 0.3 * 0.5]. *)
Definition overlay_at (t : Q) (overlay : option Q) : Prop :=
  match overlay with
  | None => t <= 0.7
  | Some alpha => 0.7 < t /\ alpha == (t - 0.7) / 0.3 * 0.5
  end.

(** * Properties *)

(** ** Exact arithmetic: the comparisons of the [Q] instance *)

(** The operations of the [Q] instance, spelled out. *)
Ltac py_unfold :=
  cbv [lit fadd fsub fmul fdiv fopp fabs fltb fleb feqb int PyFloat_Q] in *.

Lemma Qltb_lt (x y : Q) : Qltb x y = true <-> x < y.
Proof.
  unfold Qltb. rewrite negb_true_iff.
  destruct (Qle_bool y x) eqn:E.
  - apply Qle_bool_iff in E. split; [discriminate | intros L; lra].
  - split; [intros _ | reflexivity].
    destruct (Qlt_le_dec x y) as [L | L]; [exact L |].
    apply Qle_bool_iff in L. congruence.
Qed.

Lemma Qltb_ge (x y : Q) : Qltb x y = false <-> y <= x.
Proof.
  destruct (Qltb x y) eqn:E.
  - apply Qltb_lt in E. split; [discriminate | intros L; lra].
  - split; [intros _ | reflexivity].
    destruct (Qlt_le_dec x y) as [L | L]; [| exact L].
    apply Qltb_lt in L. congruence.
Qed.

(** ** Smoothed scalars *)

Lemma inject_nat_nonneg (n : nat) : 0 <= inject_Z (Z.of_nat n).
Proof. change 0 with (inject_Z 0). rewrite <- Zle_Qle. lia. Qed.

Lemma inject_nat_succ (n : nat) :
  inject_Z (Z.of_nat (S n)) == inject_Z (Z.of_nat n) + 1.
Proof. rewrite Nat2Z.inj_succ, <- Z.add_1_r, inject_Z_plus. reflexivity. Qed.

(** A sequence that shrinks by the factor [s] at every step lies under a
    hyperbola in the number of steps: enough for convergence, and it needs
    no powers. *)
Section Decay.
Variable s : Q.
Variable g : nat -> Q.
Hypothesis s_pos : 0 < s.
Hypothesis s_lt_1 : s < 1.
Hypothesis g_start : 0 <= g 0%nat.
Hypothesis g_step : forall n, g (S n) == s * g n.

Lemma decay_step (x k B : Q) :
  0 <= x -> 0 <= k ->
  x * (1 + k * (1 - s)) <= B ->
  s * x * (1 + (k + 1) * (1 - s)) <= B.
Proof.
  intros Hx Hk HB.
  assert (H1 : 0 <= (1 - s) * (1 - s)) by (apply Qmult_le_0_compat; lra).
  assert (H2 : 0 <= (1 - s) * (1 - s) * (1 + k))
    by (apply Qmult_le_0_compat; lra).
  assert (H3 : 0 <= x * ((1 - s) * (1 - s) * (1 + k)))
    by (apply Qmult_le_0_compat; assumption).
  assert (E : x * (1 + k * (1 - s)) - s * x * (1 + (k + 1) * (1 - s))
              == x * ((1 - s) * (1 - s) * (1 + k))) by ring.
  lra.
Qed.

Lemma decay_bound n :
  0 <= g n /\ g n * (1 + inject_Z (Z.of_nat n) * (1 - s)) <= g 0%nat.
Proof.
  induction n as [| n [IH1 IH2]].
  - split; [exact g_start |].
    change (inject_Z (Z.of_nat 0)) with 0.
    assert (E : g 0%nat * (1 + 0 * (1 - s)) == g 0%nat) by ring.
    rewrite E. apply Qle_refl.
  - split.
    + rewrite g_step. apply Qmult_le_0_compat; lra.
    + rewrite g_step, inject_nat_succ.
      apply decay_step; [exact IH1 | apply inject_nat_nonneg | exact IH2].
Qed.

Lemma decay_small (eps : Q) :
  0 < eps -> exists N : nat, forall n, (N <= n)%nat -> g n < eps.
Proof.
  intros Heps.
  set (d := 1 - s).
  assert (Hd : 0 < d) by (unfold d; lra).
  assert (Hde : 0 < d * eps) by (apply Qmult_lt_0_compat; assumption).
  exists (S (Z.to_nat (Qceiling (g 0%nat / (d * eps))))). intros n Hn.
  destruct (decay_bound n) as [B1 B2]. fold d in B2.
  pose proof (inject_nat_nonneg n) as Hk.
  set (k := inject_Z (Z.of_nat n)) in *.
  assert (Hq : g 0%nat / (d * eps) < k).
  { apply Qle_lt_trans with (inject_Z (Qceiling (g 0%nat / (d * eps)))).
    - apply Qle_ceiling.
    - unfold k. rewrite <- Zlt_Qlt. lia. }
  assert (Hg0 : g 0%nat < k * (d * eps)).
  { assert (E : g 0%nat == g 0%nat / (d * eps) * (d * eps)) by (field; lra).
    rewrite E at 1. apply Qmult_lt_compat_r; assumption. }
  assert (Hkd : 0 <= k * d) by (apply Qmult_le_0_compat; lra).
  destruct (Qlt_le_dec (g n) eps) as [L | L]; [exact L | exfalso].
  assert (eps * (1 + k * d) <= g n * (1 + k * d))
    by (apply Qmult_le_compat_r; lra).
  assert (E : eps * (1 + k * d) == eps + k * (d * eps)) by ring.
  lra.
Qed.
End Decay.

Section OnePole.
Variable upd : SmoothValue Q -> SmoothValue Q.
Hypothesis upd_current : forall sv,
  current (upd sv)
  == current sv + (target sv - current sv) * (1 - smoothing sv).
Hypothesis upd_target : forall sv, target (upd sv) = target sv.
Hypothesis upd_smoothing : forall sv, smoothing (upd sv) = smoothing sv.

Variable sv : SmoothValue Q.
Hypothesis smoothing_pos : 0 < smoothing sv.
Hypothesis smoothing_lt_1 : smoothing sv < 1.

Let after (n : nat) : SmoothValue Q := Nat.iter n upd sv.

Lemma after_fixed n :
  target (after n) = target sv /\ smoothing (after n) = smoothing sv.
Proof.
  induction n as [| n [IHt IHs]]; [split; reflexivity |].
  unfold after in *. simpl. rewrite upd_target, upd_smoothing. auto.
Qed.

Lemma after_gap n :
  target sv - current (after (S n))
  == smoothing sv * (target sv - current (after n)).
Proof.
  destruct (after_fixed n) as [Ht Hs].
  change (after (S n)) with (upd (after n)).
  rewrite upd_current, Ht, Hs. ring.
Qed.

Lemma after_gap_above n :
  current (after (S n)) - target sv
  == smoothing sv * (current (after n) - target sv).
Proof. pose proof (after_gap n). lra. Qed.

Lemma below_stays_below n :
  current sv <= target sv -> current (after n) <= target sv.
Proof.
  intros Hle.
  destruct (decay_bound (smoothing sv) (fun n => target sv - current (after n)))
    with (n := n) as [B _]; try assumption.
  - unfold after. simpl. lra.
  - exact after_gap.
  - simpl in B. lra.
Qed.

Lemma above_stays_above n :
  target sv <= current sv -> target sv <= current (after n).
Proof.
  intros Hle.
  destruct (decay_bound (smoothing sv) (fun n => current (after n) - target sv))
    with (n := n) as [B _]; try assumption.
  - unfold after. simpl. lra.
  - exact after_gap_above.
  - simpl in B. lra.
Qed.

Lemma gap_vanishes (eps : Q) :
  0 < eps ->
  exists N : nat, forall n, (N <= n)%nat ->
    Qabs (current (after n) - target sv) < eps.
Proof.
  intros Heps.
  destruct (Qlt_le_dec (target sv) (current sv)) as [L | L].
  - destruct (decay_small (smoothing sv)
                (fun n => current (after n) - target sv)) with (eps := eps)
      as [N HN]; try assumption.
    + unfold after. simpl. lra.
    + exact after_gap_above.
    + exists N. intros n Hn. specialize (HN n Hn). simpl in HN.
      pose proof (above_stays_above n). apply Qabs_Qlt_condition. lra.
  - destruct (decay_small (smoothing sv)
                (fun n => target sv - current (after n))) with (eps := eps)
      as [N HN]; try assumption.
    + unfold after. simpl. lra.
    + exact after_gap.
    + exists N. intros n Hn. specialize (HN n Hn). simpl in HN.
      pose proof (below_stays_below n). apply Qabs_Qlt_condition. lra.
Qed.
End OnePole.

(** C5.  A smoothed scalar whose smoothing coefficient lies in (0,1) and whose
    target [T] is held: every [update] keeps [T] and moves [current] toward it
    by the fraction [1 - smoothing] of the remaining gap; for every
    [eps > 0] the gap [|current - T|] is below [eps] from some tick on; and
    [current] never passes [T], from whichever side it starts.  Both copies
    of [SmoothValue]. *)
Theorem smooth_value_converges (sv : SmoothValue Q) :
  0 < smoothing sv -> smoothing sv < 1 ->
  let T := target sv in
  let after n := Nat.iter n Rotate.SmoothValue.update sv in
  (forall n, Nat.iter n Audio.SmoothValue.update sv = after n)
  /\ (forall n, target (after n) = T)
  /\ (forall n,
        current (after (S n)) - current (after n)
        == (1 - smoothing sv) * (T - current (after n)))
  /\ (forall eps, 0 < eps ->
        exists N : nat, forall n, (N <= n)%nat ->
          Qabs (current (after n) - T) < eps)
  /\ (current sv <= T -> forall n, current (after n) <= T)
  /\ (T <= current sv -> forall n, T <= current (after n)).
Proof.
  intros Hpos Hlt T after.
  assert (Hcur : forall s : SmoothValue Q,
             current (Rotate.SmoothValue.update s)
             == current s + (target s - current s) * (1 - smoothing s))
    by (intros s; cbn [Rotate.SmoothValue.update current]; py_unfold; ring).
  assert (Htar : forall s : SmoothValue Q,
             target (Rotate.SmoothValue.update s) = target s)
    by (intros s; reflexivity).
  assert (Hsm : forall s : SmoothValue Q,
             smoothing (Rotate.SmoothValue.update s) = smoothing s)
    by (intros s; reflexivity).
  split; [intros n; reflexivity |].
  split; [intros n; apply (after_fixed _ Htar Hsm sv n) |].
  split.
  { intros n.
    pose proof (after_gap _ Hcur Htar Hsm sv n) as G.
    fold after in G. fold T in G. lra. }
  split; [intros eps Heps;
          exact (gap_vanishes _ Hcur Htar Hsm sv Hpos Hlt eps Heps) |].
  split; intros Hside n.
  - exact (below_stays_below _ Hcur Htar Hsm sv Hpos Hlt n Hside).
  - exact (above_stays_above _ Hcur Htar Hsm sv Hpos Hlt n Hside).
Qed.

Lemma smooth_value_converges_witness :
  let sv := mkSmoothValue 0 1 0.8 in
  let after n := Nat.iter n Rotate.SmoothValue.update sv in
  (forall n, Nat.iter n Audio.SmoothValue.update sv = after n)
  /\ (forall n, target (after n) = 1)
  /\ (forall n,
        current (after (S n)) - current (after n)
        == (1 - 0.8) * (1 - current (after n)))
  /\ (forall eps, 0 < eps ->
        exists N : nat, forall n, (N <= n)%nat ->
          Qabs (current (after n) - 1) < eps)
  /\ (0 <= 1 -> forall n, current (after n) <= 1)
  /\ (1 <= 0 -> forall n, 1 <= current (after n)).
Proof.
  apply (smooth_value_converges (mkSmoothValue 0 1 0.8)); reflexivity.
Defined.

(** Four updates from 0 toward 1 with the default smoothing 0.8, in exact
    arithmetic and in binary64. *)
Example smooth_value_four_updates :
  current (Nat.iter 4 Rotate.SmoothValue.update (mkSmoothValue 0 1 0.8))
  == 0.5904
  /\ PrimFloat.ltb
       (current (Nat.iter 4 Rotate.SmoothValue.update
                   (mkSmoothValue (lit 0) (lit 1) (lit 0.8))))
       (lit 1) = true.
Proof. split; [vm_compute; reflexivity | vm_compute; reflexivity]. Qed.

(** ** The transport *)


(** A loop whose every pass is one step of a view is an iteration of it. *)
Lemma fold_left_view {S X V : Type} (f : S -> X -> S) (view : S -> V)
  (step : V -> V) :
  (forall s x, view (f s x) = step (view s)) ->
  forall xs s, view (fold_left f xs s) = Nat.iter (length xs) step (view s).
Proof.
  intros Hf xs. induction xs as [| x xs IH]; intros s; [reflexivity |].
  cbn [fold_left length]. rewrite IH, Hf, Nat.iter_succ_r. reflexivity.
Qed.

Section WidgetTick.
Import Audio.MorphOpenGLWidget.

Lemma update_animation_tick (w : Audio.MorphOpenGLWidget.t Q) (now : Q) :
  widget_transport (Audio.MorphOpenGLWidget.update_animation w now)
  = tick (widget_transport w).
Proof.
  destruct w as [c lt e d p r sp cv sv es sub].
  unfold update_animation. cbv zeta.
  match goal with
  | |- context [if ?b then assign_controller ?x ?y else ?z] => destruct b
  end;
  cbv [tick widget_transport assign_controller assign_last_time
       assign_elapsed assign_paused assign_rewind_mode
       controller last_time elapsed duration paused rewind_mode speed
       cube_vertices sphere_vertices edges subdivisions
       t_elapsed t_duration t_paused t_rewind_mode t_speed
       lit fadd fsub fmul fltb PyFloat_Q];
  destruct p; cbn [negb]; try reflexivity;
  destruct r; destruct (Qltb _ _); reflexivity.
Qed.

Lemma run_animation_ticks (clock : list Q) (w : t Q) :
  widget_transport (run_animation clock w)
  = Nat.iter (length clock) tick (widget_transport w).
Proof.
  unfold run_animation.
  apply fold_left_view. exact update_animation_tick.
Qed.
End WidgetTick.

Section WindowTick.
Import Rotate.ProgressWindow.

Lemma update_ui_tick (w : Rotate.ProgressWindow.t Q) :
  running w = true -> ~ duration w == 0 ->
  exists w' emitted,
    update_ui w = Ok (w', emitted)
    /\ window_transport w' = tick (window_transport w)
    /\ running w' = true.
Proof.
  intros Hrun Hdur.
  destruct w as [d e run p sp sa r drag sl].
  cbn [running duration] in Hrun, Hdur. subst run.
  unfold update_ui. cbn [running].
  assert (Hprog : window_transport (fst (update_progress (mk d e true p sp sa r drag sl)))
                  = tick (window_transport (mk d e true p sp sa r drag sl))
                  /\ running (fst (update_progress (mk d e true p sp sa r drag sl))) = true
                  /\ duration (fst (update_progress (mk d e true p sp sa r drag sl))) = d).
  { cbv [update_progress tick window_transport assign_elapsed assign_paused assign_rewind_mode
         duration elapsed running paused speed start_animation rewind_mode
         slider_being_dragged progress_slider
         t_elapsed t_duration t_paused t_rewind_mode t_speed
         lit fadd fsub fmul fltb PyFloat_Q].
    destruct p; cbn [negb fst]; [auto |].
    destruct r; destruct (Qltb _ _); cbn [fst]; auto. }
  destruct (update_progress _) as [w1 emitted]. cbn [fst] in Hprog.
  destruct Hprog as (Ht & Hr & Hd).
  destruct w1 as [d1 e1 run1 p1 sp1 sa1 r1 drag1 sl1].
  cbn [running duration] in Hr, Hd. subst.
  assert (Hdiv : truediv e1 d = Ok (e1 / d)).
  { unfold truediv. cbv [feqb lit PyFloat_Q fdiv].
    destruct (Qeq_bool d 0) eqn:E; [| reflexivity].
    apply Qeq_bool_iff in E. contradiction. }
  cbn [slider_being_dragged elapsed duration].
  destruct drag1; cbn [negb bind].
  - eexists _, _. split; [reflexivity |]. split; [exact Ht | reflexivity].
  - rewrite Hdiv. cbn [bind]. eexists _, _. split; [reflexivity |].
    split; [exact Ht | reflexivity].
Qed.

Lemma tick_duration (v : transport) : t_duration (tick v) = t_duration v.
Proof.
  unfold tick. destruct (t_paused v), (t_rewind_mode v); cbn [negb];
    try reflexivity; destruct (Qltb _ _); reflexivity.
Qed.

Lemma run_ui_ticks (n : nat) (w : t Q) :
  running w = true -> ~ duration w == 0 ->
  exists w',
    run_ui n w = Ok w'
    /\ window_transport w' = Nat.iter n tick (window_transport w).
Proof.
  revert w. induction n as [| n IH]; intros w Hrun Hdur.
  - exists w. split; reflexivity.
  - destruct (update_ui_tick w Hrun Hdur) as (w1 & emitted & Hui & Ht & Hr).
    destruct (IH w1) as (w' & Hrest & Ht'); [exact Hr | |].
    + change (duration w1) with (t_duration (window_transport w1)).
      rewrite Ht, tick_duration. exact Hdur.
    + exists w'. cbn [run_ui]. rewrite Hui. cbn [bind]. split; [exact Hrest |].
      rewrite Ht', Ht, Nat.iter_succ_r. reflexivity.
Qed.
End WindowTick.

Lemma tick_paused v : t_paused v = true -> tick v = v.
Proof. intros Hp. unfold tick. rewrite Hp. reflexivity. Qed.

Lemma iter_tick_paused n v : t_paused v = true -> Nat.iter n tick v = v.
Proof.
  intros Hp. induction n as [| n IH]; [reflexivity |].
  simpl. rewrite IH. apply tick_paused, Hp.
Qed.

Lemma inject_nat_le (n m : nat) :
  (n <= m)%nat -> inject_Z (Z.of_nat n) <= inject_Z (Z.of_nat m).
Proof. intros Hle. rewrite <- Zle_Qle. lia. Qed.

Lemma forward_run v n :
  t_paused v = false -> t_rewind_mode v = false -> 0 <= t_speed v ->
  t_elapsed v + inject_Z (Z.of_nat n) * (0.016 * t_speed v) <= t_duration v ->
  t_elapsed (Nat.iter n tick v)
    == t_elapsed v + inject_Z (Z.of_nat n) * (0.016 * t_speed v)
  /\ t_paused (Nat.iter n tick v) = false
  /\ t_rewind_mode (Nat.iter n tick v) = false
  /\ t_speed (Nat.iter n tick v) = t_speed v
  /\ t_duration (Nat.iter n tick v) = t_duration v.
Proof.
  intros Hp Hr Hs. induction n as [| n IH]; intros Hb.
  - simpl. split; [change (inject_Z (Z.of_nat 0)) with 0; ring | auto].
  - rewrite inject_nat_succ in Hb.
    pose proof (inject_nat_nonneg n) as Hn.
    assert (Hstep : 0 <= inject_Z (Z.of_nat n) * (0.016 * t_speed v) /\ 0 <= 0.016 * t_speed v).
    { split; [apply Qmult_le_0_compat |]; lra. }
    destruct IH as (He & Hp' & Hr' & Hs' & Hd'); [nra |].
    change (Nat.iter (S n) tick v) with (tick (Nat.iter n tick v)).
    set (u := Nat.iter n tick v) in *.
    unfold tick. rewrite Hp', Hr'. cbn [negb].
    rewrite Hs', Hd'.
    destruct (Qltb _ _) eqn:E.
    + apply Qltb_lt in E. rewrite He in E. nra.
    + cbn [t_elapsed t_paused t_rewind_mode t_speed t_duration].
      split; [rewrite He, inject_nat_succ; ring | auto].
Qed.

Lemma forward_stop v :
  t_paused v = false -> t_rewind_mode v = false ->
  t_duration v < t_elapsed v + 0.016 * t_speed v ->
  tick v = mkTransport (t_duration v) (t_duration v) true false (t_speed v).
Proof.
  intros Hp Hr Hb. unfold tick. rewrite Hp, Hr. cbn [negb].
  apply Qltb_lt in Hb. rewrite Hb. reflexivity.
Qed.

Lemma rewind_run v n :
  t_paused v = false -> t_rewind_mode v = true ->
  0 <= t_elapsed v - inject_Z (Z.of_nat n) * 0.032 ->
  t_elapsed (Nat.iter n tick v) == t_elapsed v - inject_Z (Z.of_nat n) * 0.032
  /\ t_paused (Nat.iter n tick v) = false
  /\ t_rewind_mode (Nat.iter n tick v) = true
  /\ t_speed (Nat.iter n tick v) = t_speed v
  /\ t_duration (Nat.iter n tick v) = t_duration v.
Proof.
  intros Hp Hr. induction n as [| n IH]; intros Hb.
  - simpl. split; [change (inject_Z (Z.of_nat 0)) with 0; ring | auto].
  - rewrite inject_nat_succ in Hb.
    pose proof (inject_nat_nonneg n) as Hn.
    destruct IH as (He & Hp' & Hr' & Hs' & Hd'); [lra |].
    change (Nat.iter (S n) tick v) with (tick (Nat.iter n tick v)).
    set (u := Nat.iter n tick v) in *.
    unfold tick. rewrite Hp', Hr'. cbn [negb].
    rewrite Hs', Hd'.
    destruct (Qltb _ _) eqn:E.
    + apply Qltb_lt in E. rewrite He in E. lra.
    + cbn [t_elapsed t_paused t_rewind_mode t_speed t_duration].
      split; [rewrite He, inject_nat_succ; ring | auto].
Qed.

Lemma rewind_stop v :
  t_paused v = false -> t_rewind_mode v = true ->
  t_elapsed v - 0.032 < 0 ->
  tick v = mkTransport 0 (t_duration v) true false (t_speed v).
Proof.
  intros Hp Hr Hb. unfold tick. rewrite Hp, Hr. cbn [negb].
  assert (E : Qltb (t_elapsed v - 0.016 * 2.0) 0 = true) by (apply Qltb_lt; lra).
  rewrite E. reflexivity.
Qed.

Lemma forward_scenario v n :
  t_elapsed v == 0 -> t_duration v == 30 -> t_speed v == 1 ->
  t_paused v = false -> t_rewind_mode v = false ->
  ((n <= 1875)%nat ->
     t_elapsed (Nat.iter n tick v) == inject_Z (Z.of_nat n) * 0.016
     /\ t_paused (Nat.iter n tick v) = false
     /\ t_rewind_mode (Nat.iter n tick v) = false)
  /\ ((1876 <= n)%nat ->
     t_elapsed (Nat.iter n tick v) == 30
     /\ t_paused (Nat.iter n tick v) = true
     /\ t_rewind_mode (Nat.iter n tick v) = false).
Proof.
  intros He Hd Hs Hp Hr.
  assert (Hrun : forall k, (k <= 1875)%nat ->
            t_elapsed (Nat.iter k tick v) == inject_Z (Z.of_nat k) * 0.016
            /\ t_paused (Nat.iter k tick v) = false
            /\ t_rewind_mode (Nat.iter k tick v) = false
            /\ t_speed (Nat.iter k tick v) = t_speed v
            /\ t_duration (Nat.iter k tick v) = t_duration v).
  { intros k Hk. pose proof (inject_nat_le _ _ Hk) as Hq.
    change (inject_Z (Z.of_nat 1875)) with 1875 in Hq.
    pose proof (inject_nat_nonneg k).
    destruct (forward_run v k) as (E & P & R & S & D); try assumption; [lra | nra |].
    split; [rewrite E; nra | auto]. }
  split; [intros Hn; destruct (Hrun n Hn) as (E & P & R & _); auto |].
  intros Hn.
  destruct (Hrun 1875%nat (Nat.le_refl _)) as (E & P & R & S & D).
  change (inject_Z (Z.of_nat 1875)) with 1875 in E.
  replace n with ((n - 1876) + 1 + 1875)%nat by lia.
  rewrite !Nat.iter_add. set (u := Nat.iter 1875 tick v) in *.
  change (Nat.iter 1 tick u) with (tick u).
  rewrite (forward_stop u) by (try assumption; rewrite S, D; lra).
  rewrite iter_tick_paused by reflexivity.
  cbn [t_elapsed t_paused t_rewind_mode]. rewrite D. auto.
Qed.

Lemma rewind_scenario v n :
  t_elapsed v == 10 -> t_paused v = false -> t_rewind_mode v = true ->
  ((n <= 312)%nat ->
     t_elapsed (Nat.iter n tick v) == 10 - inject_Z (Z.of_nat n) * 0.032
     /\ t_paused (Nat.iter n tick v) = false
     /\ t_rewind_mode (Nat.iter n tick v) = true)
  /\ ((313 <= n)%nat ->
     t_elapsed (Nat.iter n tick v) == 0
     /\ t_paused (Nat.iter n tick v) = true
     /\ t_rewind_mode (Nat.iter n tick v) = false).
Proof.
  intros He Hp Hr.
  assert (Hrun : forall k, (k <= 312)%nat ->
            t_elapsed (Nat.iter k tick v) == 10 - inject_Z (Z.of_nat k) * 0.032
            /\ t_paused (Nat.iter k tick v) = false
            /\ t_rewind_mode (Nat.iter k tick v) = true).
  { intros k Hk. pose proof (inject_nat_le _ _ Hk) as Hq.
    change (inject_Z (Z.of_nat 312)) with 312 in Hq.
    destruct (rewind_run v k) as (E & P & R & _); try assumption; [lra |].
    split; [rewrite E; lra | auto]. }
  split; [exact (Hrun n) |].
  intros Hn.
  destruct (Hrun 312%nat (Nat.le_refl _)) as (E & P & R).
  change (inject_Z (Z.of_nat 312)) with 312 in E.
  replace n with ((n - 313) + 1 + 312)%nat by lia.
  rewrite !Nat.iter_add. set (u := Nat.iter 312 tick v) in *.
  change (Nat.iter 1 tick u) with (tick u).
  rewrite (rewind_stop u) by (try assumption; lra).
  rewrite iter_tick_paused by reflexivity.
  cbn [t_elapsed t_paused t_rewind_mode]. split; [reflexivity | auto].
Qed.

(** C1, amended.  From Paused at [elapsed = 0] with [duration = 30] and
    [speed = 1], [toggle_play_pause()] and then [n] ticks of the timer: every
    tick adds the fixed frame step [0.016 * speed], whatever the clock read
    ([clock] is arbitrary, and rotate.py's timer reads none).  So after
    [n <= 1875] ticks the transport is PlayingForward at [n * 0.016] (ten
    ticks: 0.16), and from the 1876th tick on, the one at which [elapsed]
    would exceed 30, it is Paused at exactly 30.  Both timers. *)
Theorem transport_forward_playback
  (w : Audio.MorphOpenGLWidget.t Q) (p : Rotate.ProgressWindow.t Q)
  (clock : list Q) :
  paused_at 0 (widget_transport w) ->
  Audio.MorphOpenGLWidget.duration w == 30 ->
  Audio.MorphOpenGLWidget.speed w == 1 ->
  paused_at 0 (window_transport p) ->
  Rotate.ProgressWindow.duration p == 30 ->
  Rotate.ProgressWindow.speed p == 1 ->
  Rotate.ProgressWindow.running p = true ->
  let n := length clock in
  let w' := run_animation clock (Audio.MorphOpenGLWidget.toggle_play_pause w) in
  exists p',
    run_ui n (fst (Rotate.ProgressWindow.toggle_play_pause p)) = Ok p'
    /\ ((n <= 1875)%nat ->
        playing_forward_at (inject_Z (Z.of_nat n) * 0.016) (widget_transport w')
        /\ playing_forward_at (inject_Z (Z.of_nat n) * 0.016) (window_transport p'))
    /\ ((1876 <= n)%nat ->
        paused_at 30 (widget_transport w') /\ paused_at 30 (window_transport p')).
Proof.
  intros (Hwe & Hwp & _) Hwd Hws (Hpe & Hpp & _) Hpd Hps Hrun n w'.
  cbn [widget_transport window_transport t_elapsed t_paused] in Hwe, Hwp, Hpe, Hpp.
  set (p1 := fst (Rotate.ProgressWindow.toggle_play_pause p)).
  assert (Hp1 : window_transport p1
                = mkTransport (Rotate.ProgressWindow.elapsed p)
                    (Rotate.ProgressWindow.duration p) false false
                    (Rotate.ProgressWindow.speed p)
                /\ Rotate.ProgressWindow.running p1 = true
                /\ Rotate.ProgressWindow.duration p1 = Rotate.ProgressWindow.duration p).
  { unfold p1. destruct p as [d e run pa sp sa r drag sl].
    cbn in Hpp, Hrun. subst pa run. destruct sa; repeat split. }
  destruct Hp1 as (Hv1 & Hr1 & Hd1).
  destruct (run_ui_ticks n p1) as (p' & Hok & Hv); [exact Hr1 | rewrite Hd1; lra |].
  exists p'. split; [exact Hok |].
  assert (Hw1 : widget_transport (Audio.MorphOpenGLWidget.toggle_play_pause w)
                = mkTransport (Audio.MorphOpenGLWidget.elapsed w)
                    (Audio.MorphOpenGLWidget.duration w) false false
                    (Audio.MorphOpenGLWidget.speed w)).
  { destruct w as [c lt e d pa r sp cv sv es sub]. cbn in Hwp. subst pa. reflexivity. }
  unfold w'. rewrite run_animation_ticks, Hw1, Hv, Hv1. fold n.
  destruct (forward_scenario
              (mkTransport (Audio.MorphOpenGLWidget.elapsed w)
                 (Audio.MorphOpenGLWidget.duration w) false false
                 (Audio.MorphOpenGLWidget.speed w)) n) as [Wa Wb];
    try assumption; try reflexivity.
  destruct (forward_scenario
              (mkTransport (Rotate.ProgressWindow.elapsed p)
                 (Rotate.ProgressWindow.duration p) false false
                 (Rotate.ProgressWindow.speed p)) n) as [Pa Pb];
    try assumption; try reflexivity.
  unfold playing_forward_at, paused_at. split; intros Hn; split; auto.
Qed.

Lemma transport_forward_playback_witness :
  exists p',
    run_ui 10 (fst (Rotate.ProgressWindow.toggle_play_pause
                      (Rotate.ProgressWindow.init 30))) = Ok p'
    /\ ((10 <= 1875)%nat ->
        playing_forward_at (10 * 0.016)
          (widget_transport
             (run_animation [1; 2; 3; 4; 5; 6; 7; 8; 9; 10]
                (Audio.MorphOpenGLWidget.toggle_play_pause
                   (Audio.MorphOpenGLWidget.init 0 0))))
        /\ playing_forward_at (10 * 0.016) (window_transport p'))
    /\ ((1876 <= 10)%nat ->
        paused_at 30
          (widget_transport
             (run_animation [1; 2; 3; 4; 5; 6; 7; 8; 9; 10]
                (Audio.MorphOpenGLWidget.toggle_play_pause
                   (Audio.MorphOpenGLWidget.init 0 0))))
        /\ paused_at 30 (window_transport p')).
Proof.
  apply (transport_forward_playback (Audio.MorphOpenGLWidget.init 0 0)
           (Rotate.ProgressWindow.init 30) [1; 2; 3; 4; 5; 6; 7; 8; 9; 10]);
    try reflexivity; repeat split; reflexivity.
Defined.

(** C1 as stated fails: with the clock advancing by [dt = 1] between ticks
    and [speed = 1], ten ticks after [toggle_play_pause()] leave [elapsed] at
    0.16, not at 10, in both programs. *)
Lemma ten_ticks_are_not_ten_seconds :
  playing_forward_at 0.16
    (widget_transport
       (run_animation [1; 2; 3; 4; 5; 6; 7; 8; 9; 10]
          (Audio.MorphOpenGLWidget.toggle_play_pause
             (Audio.MorphOpenGLWidget.init 0 0))))
  /\ (exists p',
        run_ui 10 (fst (Rotate.ProgressWindow.toggle_play_pause
                          (Rotate.ProgressWindow.init 30))) = Ok p'
        /\ playing_forward_at 0.16 (window_transport p'))
  /\ ~ 0.16 == 10.
Proof.
  split; [| split].
  - vm_compute. auto.
  - eexists. split; [vm_compute; reflexivity |]. vm_compute. auto.
  - intros H. vm_compute in H. discriminate.
Qed.

Lemma rewind_lands_on_zero v : rewinding_at 0.032 v -> rewinding_at 0 (tick v).
Proof.
  intros (He & Hp & Hr). unfold rewinding_at, tick. rewrite Hp, Hr. cbn [negb].
  destruct (Qltb _ _) eqn:E.
  - apply Qltb_lt in E. lra.
  - cbn [t_elapsed t_paused t_rewind_mode]. split; [lra | auto].
Qed.

(** C2, amended.  From [elapsed = 10], [toggle_rewind()] and then [n] ticks:
    every tick takes the fixed step [0.016 * 2.0 = 0.032] off [elapsed],
    whatever [speed] is and whatever the clock read.  After [n <= 312] ticks
    the transport is Rewinding at [10 - n * 0.032] (five ticks: 9.84); from
    the 313th tick on, the one at which [elapsed] would fall below 0, it is
    Paused at exactly 0 with [rewind_mode] false.  A tick that lands on 0
    exactly does not pause: the test is [elapsed < 0]. *)
Theorem transport_rewind
  (w : Audio.MorphOpenGLWidget.t Q) (p : Rotate.ProgressWindow.t Q)
  (clock : list Q) :
  Audio.MorphOpenGLWidget.elapsed w == 10 ->
  Audio.MorphOpenGLWidget.rewind_mode w = false ->
  Rotate.ProgressWindow.elapsed p == 10 ->
  Rotate.ProgressWindow.rewind_mode p = false ->
  Rotate.ProgressWindow.running p = true ->
  ~ Rotate.ProgressWindow.duration p == 0 ->
  let n := length clock in
  let w' := run_animation clock (Audio.MorphOpenGLWidget.toggle_rewind w) in
  exists p',
    run_ui n (fst (Rotate.ProgressWindow.toggle_rewind p)) = Ok p'
    /\ ((n <= 312)%nat ->
        rewinding_at (10 - inject_Z (Z.of_nat n) * 0.032) (widget_transport w')
        /\ rewinding_at (10 - inject_Z (Z.of_nat n) * 0.032) (window_transport p'))
    /\ ((313 <= n)%nat ->
        paused_at 0 (widget_transport w') /\ paused_at 0 (window_transport p'))
    /\ (forall (w0 : Audio.MorphOpenGLWidget.t Q) (now : Q),
          rewinding_at 0.032 (widget_transport w0) ->
          rewinding_at 0
            (widget_transport (Audio.MorphOpenGLWidget.update_animation w0 now))).
Proof.
  intros Hwe Hwr Hpe Hpr Hrun Hdur n w'.
  set (p1 := fst (Rotate.ProgressWindow.toggle_rewind p)).
  assert (Hp1 : window_transport p1
                = mkTransport (Rotate.ProgressWindow.elapsed p)
                    (Rotate.ProgressWindow.duration p) false true
                    (Rotate.ProgressWindow.speed p)
                /\ Rotate.ProgressWindow.running p1 = true
                /\ Rotate.ProgressWindow.duration p1 = Rotate.ProgressWindow.duration p).
  { unfold p1. destruct p as [d e run pa sp sa r drag sl].
    cbn in Hpr, Hrun. subst r run. destruct sa; repeat split. }
  destruct Hp1 as (Hv1 & Hr1 & Hd1).
  destruct (run_ui_ticks n p1) as (p' & Hok & Hv); [exact Hr1 | rewrite Hd1; exact Hdur |].
  exists p'. split; [exact Hok |].
  assert (Hw1 : widget_transport (Audio.MorphOpenGLWidget.toggle_rewind w)
                = mkTransport (Audio.MorphOpenGLWidget.elapsed w)
                    (Audio.MorphOpenGLWidget.duration w) false true
                    (Audio.MorphOpenGLWidget.speed w)).
  { destruct w as [c lt e d pa r sp cv sv es sub]. cbn in Hwr. subst r. reflexivity. }
  unfold w'. rewrite run_animation_ticks, Hw1, Hv, Hv1. fold n.
  destruct (rewind_scenario
              (mkTransport (Audio.MorphOpenGLWidget.elapsed w)
                 (Audio.MorphOpenGLWidget.duration w) false true
                 (Audio.MorphOpenGLWidget.speed w)) n) as [Wa Wb];
    try assumption; try reflexivity.
  destruct (rewind_scenario
              (mkTransport (Rotate.ProgressWindow.elapsed p)
                 (Rotate.ProgressWindow.duration p) false true
                 (Rotate.ProgressWindow.speed p)) n) as [Pa Pb];
    try assumption; try reflexivity.
  unfold rewinding_at, paused_at.
  split; [intros Hn; split; auto | split; [intros Hn; split; auto |]].
  intros w0 now Hw0. rewrite update_animation_tick.
  exact (rewind_lands_on_zero _ Hw0).
Qed.

Lemma transport_rewind_witness :
  exists p',
    run_ui 5 (fst (Rotate.ProgressWindow.toggle_rewind
                     (Rotate.ProgressWindow.assign_elapsed 10
                        (Rotate.ProgressWindow.init 30)))) = Ok p'
    /\ ((5 <= 312)%nat ->
        rewinding_at (10 - 5 * 0.032)
          (widget_transport
             (run_animation [1; 2; 3; 4; 5]
                (Audio.MorphOpenGLWidget.toggle_rewind
                   (Audio.MorphOpenGLWidget.set_position
                      (Audio.MorphOpenGLWidget.init 0 0) 10))))
        /\ rewinding_at (10 - 5 * 0.032) (window_transport p'))
    /\ ((313 <= 5)%nat ->
        paused_at 0
          (widget_transport
             (run_animation [1; 2; 3; 4; 5]
                (Audio.MorphOpenGLWidget.toggle_rewind
                   (Audio.MorphOpenGLWidget.set_position
                      (Audio.MorphOpenGLWidget.init 0 0) 10))))
        /\ paused_at 0 (window_transport p'))
    /\ (forall (w0 : Audio.MorphOpenGLWidget.t Q) (now : Q),
          rewinding_at 0.032 (widget_transport w0) ->
          rewinding_at 0
            (widget_transport (Audio.MorphOpenGLWidget.update_animation w0 now))).
Proof.
  apply (transport_rewind
           (Audio.MorphOpenGLWidget.set_position (Audio.MorphOpenGLWidget.init 0 0) 10)
           (Rotate.ProgressWindow.assign_elapsed 10 (Rotate.ProgressWindow.init 30))
           [1; 2; 3; 4; 5]);
    try reflexivity.
  vm_compute. discriminate.
Defined.

(** C2 as stated fails: from [elapsed = 10], five ticks after
    [toggle_rewind()], with the clock advancing by [dt = 1] between them,
    leave [elapsed] at 9.84 with the transport still rewinding, not at 0 and
    Paused, in both programs. *)
Lemma five_ticks_do_not_rewind_ten_seconds :
  rewinding_at 9.84
    (widget_transport
       (run_animation [1; 2; 3; 4; 5]
          (Audio.MorphOpenGLWidget.toggle_rewind
             (Audio.MorphOpenGLWidget.set_position
                (Audio.MorphOpenGLWidget.init 0 0) 10))))
  /\ (exists p',
        run_ui 5 (fst (Rotate.ProgressWindow.toggle_rewind
                         (Rotate.ProgressWindow.assign_elapsed 10
                            (Rotate.ProgressWindow.init 30)))) = Ok p'
        /\ rewinding_at 9.84 (window_transport p'))
  /\ ~ 9.84 == 0.
Proof.
  split; [| split].
  - vm_compute. auto.
  - eexists. split; [vm_compute; reflexivity |]. vm_compute. auto.
  - intros H. vm_compute in H. discriminate.
Qed.

(** The same runs on binary64, the arithmetic Python computes with: ten ticks
    give 0.16000000000000003; the 1875th leaves [elapsed] just below 30 and
    the 1876th clamps it to 30 and pauses; the 313th tick of a rewind from 10
    clamps at 0 and pauses. *)
Example forward_playback_binary64 :
  let w := Audio.MorphOpenGLWidget.toggle_play_pause
             (Audio.MorphOpenGLWidget.init (lit 0) (lit 0)) in
  let after n :=
    run_animation (map (fun k => float_of_int (Z.of_nat k)) (seq 1 n)) w in
  Audio.MorphOpenGLWidget.elapsed (after 10%nat) = 0x1.47ae147ae147cp-3%float
  /\ Audio.MorphOpenGLWidget.paused (after 10%nat) = false
  /\ PrimFloat.ltb (Audio.MorphOpenGLWidget.elapsed (after 1875%nat)) (lit 30) = true
  /\ Audio.MorphOpenGLWidget.paused (after 1875%nat) = false
  /\ Audio.MorphOpenGLWidget.elapsed (after 1876%nat) = lit 30
  /\ Audio.MorphOpenGLWidget.paused (after 1876%nat) = true.
Proof. vm_compute. repeat split. Qed.

Example rewind_binary64 :
  let w := Audio.MorphOpenGLWidget.toggle_rewind
             (Audio.MorphOpenGLWidget.set_position
                (Audio.MorphOpenGLWidget.init (lit 0) (lit 0)) (lit 10)) in
  let after n :=
    run_animation (map (fun k => float_of_int (Z.of_nat k)) (seq 1 n)) w in
  PrimFloat.ltb (lit 9.8) (Audio.MorphOpenGLWidget.elapsed (after 5%nat)) = true
  /\ Audio.MorphOpenGLWidget.rewind_mode (after 5%nat) = true
  /\ Audio.MorphOpenGLWidget.rewind_mode (after 312%nat) = true
  /\ Audio.MorphOpenGLWidget.elapsed (after 313%nat) = lit 0
  /\ Audio.MorphOpenGLWidget.paused (after 313%nat) = true
  /\ Audio.MorphOpenGLWidget.rewind_mode (after 313%nat) = false.
Proof. vm_compute. repeat split. Qed.

(** ** The rotation controller *)

Lemma smooth_value_agrees {A : Type} `{PyFloat A} :
  @Rotate.SmoothValue.init A = @Audio.SmoothValue.init A
  /\ @Rotate.SmoothValue.update A _ = @Audio.SmoothValue.update A _
  /\ @Rotate.SmoothValue.set_target A = @Audio.SmoothValue.set_target A
  /\ @Rotate.SmoothValue.get A = @Audio.SmoothValue.get A.
Proof. repeat split. Qed.

Lemma controller_agrees {A : Type} `{PyFloat A} :
  @Rotate.RotationController.init A _ = @Audio.RotationController.init A _
  /\ @Rotate.RotationController.update A _ = @Audio.RotationController.update A _
  /\ @Rotate.RotationController.start_orbit A _
     = @Audio.RotationController.start_orbit A _
  /\ @Rotate.RotationController.stop_orbit A _
     = @Audio.RotationController.stop_orbit A _
  /\ @Rotate.RotationController.should_resume_auto_rotation A _
     = @Audio.RotationController.should_resume_auto_rotation A _
  /\ @Rotate.RotationController.resume_auto_rotation A _
     = @Audio.RotationController.resume_auto_rotation A _
  /\ @Rotate.RotationController.update_mouse_velocity A _
     = @Audio.RotationController.update_mouse_velocity A _.
Proof.
  destruct smooth_value_agrees as (Hinit & Hupdate & Hset & Hget).
  unfold Rotate.RotationController.init, Audio.RotationController.init,
    Rotate.RotationController.update, Audio.RotationController.update,
    Rotate.RotationController.start_orbit, Audio.RotationController.start_orbit,
    Rotate.RotationController.stop_orbit, Audio.RotationController.stop_orbit,
    Rotate.RotationController.should_resume_auto_rotation,
    Audio.RotationController.should_resume_auto_rotation,
    Rotate.RotationController.resume_auto_rotation,
    Audio.RotationController.resume_auto_rotation,
    Rotate.RotationController.update_mouse_velocity,
    Audio.RotationController.update_mouse_velocity.
  rewrite Hinit, Hupdate, Hset, Hget.
  repeat split.
Qed.

Lemma call_agrees {A : Type} `{PyFloat A} (c : RotationController A) (k : call A) :
  rotate_call c k = audio_call c k.
Proof.
  destruct controller_agrees as (_ & Hu & Hstart & Hstop & Hshould & Hres & Hmouse).
  destruct k; cbn [rotate_call audio_call].
  - rewrite Hu. reflexivity.
  - rewrite Hstart. reflexivity.
  - rewrite Hstop. reflexivity.
  - rewrite Hshould. reflexivity.
  - rewrite Hres. reflexivity.
  - rewrite Hmouse. reflexivity.
Qed.

(** C10.  The two copies of [RotationController] agree: they build the same
    initial state, and from every state every sequence of calls leaves the
    same state and returns the same answers. *)
Theorem controllers_agree {A : Type} `{PyFloat A}
  (c : RotationController A) (calls : list (call A)) (now : A) :
  Rotate.RotationController.init now = Audio.RotationController.init now
  /\ run_calls rotate_call c calls = run_calls audio_call c calls.
Proof.
  split; [destruct controller_agrees as (Hi & _); rewrite Hi; reflexivity |].
  revert c. induction calls as [| k rest IH]; intros c; cbn [run_calls];
    [reflexivity |].
  rewrite call_agrees.
  destruct (audio_call c k) as [c' answer]. rewrite IH. reflexivity.
Qed.

(** No call changes [momentum_multiplier]: it is 0.2 in every state that
    [__init__] and the methods build. *)
Lemma momentum_multiplier_kept {A : Type} `{PyFloat A}
  (c : RotationController A) (k : call A) :
  momentum_multiplier (fst (rotate_call c k)) = momentum_multiplier c.
Proof.
  destruct k; cbn [rotate_call fst]; try reflexivity.
  - unfold Rotate.RotationController.update.
    repeat match goal with
           | |- context [if ?b then _ else _] => destruct b
           end; reflexivity.
  - unfold Rotate.RotationController.update_mouse_velocity.
    destruct (fltb _ _); reflexivity.
Qed.

Lemma momentum_multiplier_of_run {A : Type} `{PyFloat A}
  (now : A) (calls : list (call A)) :
  momentum_multiplier
    (fst (run_calls rotate_call (Rotate.RotationController.init now) calls))
  = lit 0.2.
Proof.
  assert (G : forall c, momentum_multiplier c = lit 0.2 ->
                        momentum_multiplier (fst (run_calls rotate_call c calls))
                        = lit 0.2).
  { induction calls as [| k rest IH]; intros c Hc; [exact Hc |].
    cbn [run_calls]. pose proof (momentum_multiplier_kept c k) as Hk.
    destruct (rotate_call c k) as [c' answer]. cbn [fst] in Hk.
    specialize (IH c'). destruct (run_calls rotate_call c' rest) as [c'' answers].
    cbn [fst] in *. apply IH. congruence. }
  apply G. reflexivity.
Qed.

(** C7.  [stop_orbit()] in a state whose [momentum_multiplier] is the 0.2 of
    [__init__]: the momentum about each axis becomes 0.2 times the current
    value of the drag velocity that turns about it ([momentum_x] from
    [velocity_y], [momentum_y] from [velocity_x]), the target of [transition]
    becomes 1, and [auto_rotation] is true on return; the orientation, the
    velocities and the current value of [transition] are as before.  Both
    copies. *)
Theorem stop_orbit_hands_over {A : Type} `{PyFloat A}
  (c : RotationController A) :
  momentum_multiplier c = lit 0.2 ->
  let c' := Rotate.RotationController.stop_orbit c in
  Audio.RotationController.stop_orbit c = c'
  /\ momentum_x c' = fmul (current (velocity_y c)) (lit 0.2)
  /\ momentum_y c' = fmul (current (velocity_x c)) (lit 0.2)
  /\ target (transition c') = lit 1.0
  /\ auto_rotation c' = true
  /\ current (transition c') = current (transition c)
  /\ rotation_x c' = rotation_x c
  /\ rotation_y c' = rotation_y c
  /\ velocity_x c' = velocity_x c
  /\ velocity_y c' = velocity_y c.
Proof.
  intros Hm c'. unfold c'.
  split; [reflexivity |].
  cbn. unfold Rotate.SmoothValue.get. rewrite Hm. repeat split.
Qed.

Lemma stop_orbit_hands_over_witness :
  let c' := Rotate.RotationController.stop_orbit dragged_controller in
  Audio.RotationController.stop_orbit dragged_controller = c'
  /\ momentum_x c' = fmul (current (velocity_y dragged_controller)) (lit 0.2)
  /\ momentum_y c' = fmul (current (velocity_x dragged_controller)) (lit 0.2)
  /\ target (transition c') = lit 1.0
  /\ auto_rotation c' = true
  /\ current (transition c') = current (transition dragged_controller)
  /\ rotation_x c' = rotation_x dragged_controller
  /\ rotation_y c' = rotation_y dragged_controller
  /\ velocity_x c' = velocity_x dragged_controller
  /\ velocity_y c' = velocity_y dragged_controller.
Proof.
  apply (stop_orbit_hands_over dragged_controller). vm_compute. reflexivity.
Defined.

(** ** Seeking *)

Lemma max_min_clamp (x lo lo' hi : Q) :
  lo' == lo -> lo <= hi -> Py.max lo' (Py.min x hi) == clamp x lo hi.
Proof.
  intros Hlo Hle. unfold Py.max, Py.min, clamp. py_unfold.
  destruct (Qltb hi x) eqn:E1; [apply Qltb_lt in E1 | apply Qltb_ge in E1].
  - destruct (Qltb lo' hi) eqn:E2; [apply Qltb_lt in E2 | apply Qltb_ge in E2];
      destruct (Qlt_le_dec x lo); destruct (Qlt_le_dec hi x); lra.
  - destruct (Qltb lo' x) eqn:E2; [apply Qltb_lt in E2 | apply Qltb_ge in E2];
      destruct (Qlt_le_dec x lo); destruct (Qlt_le_dec hi x); lra.
Qed.

(** C8.  [set_position(position)] stores [clamp(position, 0, duration)] in
    [elapsed], whatever the transport is doing, and changes nothing else of
    it: seeking to [duration + 100] gives [duration], seeking to -5 gives 0.
    Releasing the slider seeks the widget to the slider's percentage of
    [duration] this way (shown for a player without audio data, which the
    seek leaves alone).  ([duration] is the 30.0 of [__init__]; the statement
    needs it not negative.) *)
Theorem seek_clamps (w : Audio.MorphOpenGLWidget.t Q) (position : Q) :
  0 <= Audio.MorphOpenGLWidget.duration w ->
  let seek := Audio.MorphOpenGLWidget.set_position w in
  Audio.MorphOpenGLWidget.elapsed (seek position)
    == clamp position 0 (Audio.MorphOpenGLWidget.duration w)
  /\ Audio.MorphOpenGLWidget.elapsed (seek (Audio.MorphOpenGLWidget.duration w + 100))
     == Audio.MorphOpenGLWidget.duration w
  /\ Audio.MorphOpenGLWidget.elapsed (seek (-5)) == 0
  /\ Audio.MorphOpenGLWidget.paused (seek position) = Audio.MorphOpenGLWidget.paused w
  /\ Audio.MorphOpenGLWidget.rewind_mode (seek position)
     = Audio.MorphOpenGLWidget.rewind_mode w
  /\ Audio.MorphOpenGLWidget.duration (seek position)
     = Audio.MorphOpenGLWidget.duration w
  /\ Audio.MorphOpenGLWidget.speed (seek position) = Audio.MorphOpenGLWidget.speed w
  /\ (forall (m : Audio.MainWindow.t Q) (sd : sounddevice Q),
        Audio.MainWindow.gl_widget m = w ->
        audio_data (Audio.MainWindow.audio_player m) = None ->
        exists m',
          Audio.MainWindow.slider_released m sd = Ok (m', sd)
          /\ Audio.MainWindow.gl_widget m'
             = seek (float_of_int (Audio.MainWindow.progress_slider m) / lit 100.0
                     * Audio.MorphOpenGLWidget.duration w)%py
          /\ Audio.MainWindow.audio_player m' = Audio.MainWindow.audio_player m
          /\ Audio.MainWindow.slider_being_dragged m' = false).
Proof.
  intros Hd seek.
  assert (Hrelease :
            forall (m : Audio.MainWindow.t Q) (sd : sounddevice Q),
              Audio.MainWindow.gl_widget m = w ->
              audio_data (Audio.MainWindow.audio_player m) = None ->
              exists m',
                Audio.MainWindow.slider_released m sd = Ok (m', sd)
                /\ Audio.MainWindow.gl_widget m'
                   = seek (float_of_int (Audio.MainWindow.progress_slider m) / lit 100.0
                           * Audio.MorphOpenGLWidget.duration w)%py
                /\ Audio.MainWindow.audio_player m' = Audio.MainWindow.audio_player m
                /\ Audio.MainWindow.slider_being_dragged m' = false).
  { intros m sd Hw Hnone. subst w.
    unfold Audio.MainWindow.slider_released, Audio.EnhancedAudioPlayer.set_position.
    rewrite Hnone. cbn [bind]. cbv zeta.
    eexists. split; [reflexivity |]. split; [reflexivity |]. split; reflexivity. }
  unfold seek in *. unfold Audio.MorphOpenGLWidget.set_position.
  cbn [Audio.MorphOpenGLWidget.assign_elapsed Audio.MorphOpenGLWidget.elapsed
       Audio.MorphOpenGLWidget.paused Audio.MorphOpenGLWidget.rewind_mode
       Audio.MorphOpenGLWidget.duration Audio.MorphOpenGLWidget.speed].
  assert (Hz : forall x,
             Py.max (lit 0.0) (Py.min x (Audio.MorphOpenGLWidget.duration w))
             == clamp x 0 (Audio.MorphOpenGLWidget.duration w)).
  { intros x. apply max_min_clamp; [reflexivity | exact Hd]. }
  split; [apply Hz |].
  split.
  { rewrite Hz. unfold clamp.
    destruct (Qlt_le_dec _ 0); [lra |]. destruct (Qlt_le_dec _ _); lra. }
  split.
  { rewrite Hz. unfold clamp.
    destruct (Qlt_le_dec (-5) 0); [reflexivity | lra]. }
  split; [reflexivity |]. split; [reflexivity |]. split; [reflexivity |].
  split; [reflexivity | exact Hrelease].
Qed.

Lemma seek_clamps_witness :
  let seek := Audio.MorphOpenGLWidget.set_position (Audio.MorphOpenGLWidget.init 0 0) in
  Audio.MorphOpenGLWidget.elapsed (seek 130)
    == clamp 130 0 (Audio.MorphOpenGLWidget.duration (Audio.MorphOpenGLWidget.init 0 0))
  /\ Audio.MorphOpenGLWidget.elapsed
       (seek (Audio.MorphOpenGLWidget.duration (Audio.MorphOpenGLWidget.init 0 0) + 100))
     == Audio.MorphOpenGLWidget.duration (Audio.MorphOpenGLWidget.init 0 0)
  /\ Audio.MorphOpenGLWidget.elapsed (seek (-5)) == 0
  /\ Audio.MorphOpenGLWidget.paused (seek 130)
     = Audio.MorphOpenGLWidget.paused (Audio.MorphOpenGLWidget.init 0 0)
  /\ Audio.MorphOpenGLWidget.rewind_mode (seek 130)
     = Audio.MorphOpenGLWidget.rewind_mode (Audio.MorphOpenGLWidget.init 0 0)
  /\ Audio.MorphOpenGLWidget.duration (seek 130)
     = Audio.MorphOpenGLWidget.duration (Audio.MorphOpenGLWidget.init 0 0)
  /\ Audio.MorphOpenGLWidget.speed (seek 130)
     = Audio.MorphOpenGLWidget.speed (Audio.MorphOpenGLWidget.init 0 0)
  /\ (forall (m : Audio.MainWindow.t Q) (sd : sounddevice Q),
        Audio.MainWindow.gl_widget m = Audio.MorphOpenGLWidget.init 0 0 ->
        audio_data (Audio.MainWindow.audio_player m) = None ->
        exists m',
          Audio.MainWindow.slider_released m sd = Ok (m', sd)
          /\ Audio.MainWindow.gl_widget m'
             = seek (float_of_int (Audio.MainWindow.progress_slider m) / lit 100.0
                     * Audio.MorphOpenGLWidget.duration
                         (Audio.MorphOpenGLWidget.init 0 0))%py
          /\ Audio.MainWindow.audio_player m' = Audio.MainWindow.audio_player m
          /\ Audio.MainWindow.slider_being_dragged m' = false).
Proof.
  apply (seek_clamps (Audio.MorphOpenGLWidget.init 0 0) 130).
  vm_compute. discriminate.
Defined.

(** Seeking on binary64, from the state [__init__] builds: past the end,
    before the start, and inside the range. *)
Example seek_binary64 :
  let w := Audio.MorphOpenGLWidget.init (lit 0) (lit 0) in
  Audio.MorphOpenGLWidget.elapsed
    (Audio.MorphOpenGLWidget.set_position w (lit 130)) = lit 30
  /\ Audio.MorphOpenGLWidget.elapsed
       (Audio.MorphOpenGLWidget.set_position w (fopp (lit 5))) = lit 0
  /\ Audio.MorphOpenGLWidget.elapsed
       (Audio.MorphOpenGLWidget.set_position w (lit 12.5)) = lit 12.5.
Proof. vm_compute. repeat split. Qed.

(** ** The audio player *)

(** C9.  [play()] on a player that holds no audio data returns at once: the
    player is unchanged and [sounddevice] is not called, with or without a
    [from_pos].  Both copies. *)
Theorem play_without_audio {A : Type} `{PyFloat A}
  (player : EnhancedAudioPlayer A) (from_pos : option A) (sd : sounddevice A) :
  audio_data player = None ->
  Rotate.EnhancedAudioPlayer.play player from_pos sd = Ok (player, sd)
  /\ Audio.EnhancedAudioPlayer.play player from_pos sd = Ok (player, sd).
Proof.
  intros Hnone.
  unfold Rotate.EnhancedAudioPlayer.play, Audio.EnhancedAudioPlayer.play.
  rewrite Hnone. split; reflexivity.
Qed.

Lemma play_without_audio_witness :
  Rotate.EnhancedAudioPlayer.play (A := Q) Rotate.EnhancedAudioPlayer.init (Some 5) []
  = Ok (Rotate.EnhancedAudioPlayer.init, [])
  /\ Audio.EnhancedAudioPlayer.play (A := Q) Rotate.EnhancedAudioPlayer.init (Some 5) []
     = Ok (Rotate.EnhancedAudioPlayer.init, []).
Proof.
  apply (play_without_audio Rotate.EnhancedAudioPlayer.init (Some 5) []).
  reflexivity.
Defined.

(** ** The morph *)

Lemma lerp_on_unit_interval (c s : vec3 Q) (t t' : Q) :
  0 <= t -> t <= t' -> t' <= 1 ->
  vec3_eq (Rotate.lerp c s t) (spec_interpolate c s t)
  /\ vec3_eq (Rotate.lerp c s 0) c
  /\ vec3_eq (Rotate.lerp c s 1) s
  /\ vec3_on_the_way c s (Rotate.lerp c s t) (Rotate.lerp c s t').
Proof.
  intros H0 Htt H1.
  destruct c as [[c0 c1] c2], s as [[s0 s1] s2].
  unfold Rotate.lerp, spec_interpolate, vec3_eq, vec3_on_the_way, on_the_way, clamp.
  py_unfold.
  destruct (Qlt_le_dec t 0); [lra |]. destruct (Qlt_le_dec 1 t); [lra |].
  repeat split; try ring; intros; nra.
Qed.

Lemma getitem_nth {X : Type} (xs : list X) (i : nat) (d : X) :
  (i < length xs)%nat -> getitem xs i = Ok (nth i xs d).
Proof.
  intros Hi. unfold getitem.
  rewrite (nth_error_nth' xs d Hi). reflexivity.
Qed.

(** A loop that appends one computed element per index collects them. *)
Lemma for_each_collect {Y : Type} (body : list Y -> nat -> result (list Y))
  (g : nat -> Y) (n a : nat) (done : list Y) :
  (forall acc i, (a <= i < a + n)%nat -> body acc i = Ok (acc ++ [g i])) ->
  for_each (seq a n) body done = Ok (done ++ map g (seq a n)).
Proof.
  revert a done. induction n as [| n IH]; intros a done Hbody.
  - cbn. rewrite app_nil_r. reflexivity.
  - cbn [seq for_each map]. rewrite Hbody by lia. cbn [bind].
    rewrite IH by (intros; apply Hbody; lia).
    rewrite <- app_assoc. reflexivity.
Qed.

Lemma map_nth_combine {X Y : Type} (h : X -> X -> Y) (d : X) (xs ys : list X) :
  length xs = length ys ->
  map (fun i => h (nth i xs d) (nth i ys d)) (seq 0 (length xs))
  = map (fun '(x, y) => h x y) (combine xs ys).
Proof.
  revert ys. induction xs as [| x xs IH]; intros [| y ys] Hlen;
    try discriminate; [reflexivity |].
  cbn [length seq map combine nth]. f_equal.
  rewrite <- seq_shift, map_map. apply IH. cbn in Hlen. lia.
Qed.

Lemma draw_morphed_shape_zip (cube sphere : list (vec3 Q)) (t : Q) :
  length cube = length sphere ->
  Rotate.draw_morphed_shape cube sphere t
  = Ok (map (fun '(c, s) => Rotate.lerp c s t) (combine cube sphere)).
Proof.
  intros Hlen. unfold Rotate.draw_morphed_shape, range.
  rewrite Nat2Z.id.
  rewrite (for_each_collect _
             (fun i => Rotate.lerp (nth i cube (0, 0, 0)) (nth i sphere (0, 0, 0)) t)).
  - cbn [app].
    rewrite (map_nth_combine (fun c s => Rotate.lerp c s t) (0, 0, 0) cube sphere Hlen).
    reflexivity.
  - intros acc i Hi.
    rewrite (getitem_nth cube i (0, 0, 0)) by lia.
    rewrite (getitem_nth sphere i (0, 0, 0)) by lia.
    reflexivity.
Qed.

Lemma np_lerp_zip (cube sphere : list (vec3 Q)) (t : Q) :
  length cube = length sphere ->
  Audio.MorphOpenGLWidget._lerp cube sphere t
  = Ok (map (fun '(c, s) => Rotate.lerp c s t) (combine cube sphere)).
Proof.
  intros Hlen. unfold Audio.MorphOpenGLWidget._lerp.
  rewrite Hlen, Nat.eqb_refl. reflexivity.
Qed.

Lemma normalized_elapsed_clamped (e d : Q) :
  ~ d == 0 ->
  exists u,
    Py.bind (truediv e d) (fun ratio => Ok (Py.min (lit 1.0) (Py.max (lit 0.0) ratio)))
    = Ok u
    /\ u == clamp (e / d) 0 1.
Proof.
  intros Hd. unfold truediv. py_unfold.
  destruct (Qeq_bool d 0) eqn:E; [apply Qeq_bool_iff in E; contradiction |].
  cbn [bind]. eexists. split; [reflexivity |].
  unfold Py.min, Py.max, clamp. py_unfold.
  destruct (Qltb 0.0 (e / d)) eqn:E1; [apply Qltb_lt in E1 | apply Qltb_ge in E1].
  - destruct (Qltb (e / d) 1.0) eqn:E2; [apply Qltb_lt in E2 | apply Qltb_ge in E2];
      destruct (Qlt_le_dec (e / d) 0); destruct (Qlt_le_dec 1 (e / d)); lra.
  - destruct (Qltb 0.0 1.0) eqn:E2; [apply Qltb_lt in E2 | apply Qltb_ge in E2];
      destruct (Qlt_le_dec (e / d) 0); destruct (Qlt_le_dec 1 (e / d)); lra.
Qed.

(** C4, amended.  [lerp] computes [cube + (sphere - cube) * t] on every pair
    of co-indexed vertices and does not clamp [t] itself.  For [t] in [0,1]
    that is the specification's [cube + (sphere - cube) * clamp(t, 0, 1)];
    [lerp(C, S, 0)] is [C] and [lerp(C, S, 1)] is [S]; and for
    [0 <= t <= t' <= 1] every coordinate moves from its cube value toward its
    sphere value without turning back.  The renderers only pass a [t] that
    [get_normalized_elapsed] has clamped to [0,1]. *)
Theorem morph_interpolates (cube sphere : list (vec3 Q)) (t t' : Q) :
  length cube = length sphere ->
  0 <= t -> t <= t' -> t' <= 1 ->
  Rotate.draw_morphed_shape cube sphere t
  = Ok (map (fun '(c, s) => Rotate.lerp c s t) (combine cube sphere))
  /\ Audio.MorphOpenGLWidget._lerp cube sphere t
     = Ok (map (fun '(c, s) => Rotate.lerp c s t) (combine cube sphere))
  /\ Forall
       (fun '(c, s) =>
          vec3_eq (Rotate.lerp c s t) (spec_interpolate c s t)
          /\ vec3_eq (Rotate.lerp c s 0) c
          /\ vec3_eq (Rotate.lerp c s 1) s
          /\ vec3_on_the_way c s (Rotate.lerp c s t) (Rotate.lerp c s t'))
       (combine cube sphere)
  /\ (forall (w : Audio.MorphOpenGLWidget.t Q),
        ~ Audio.MorphOpenGLWidget.duration w == 0 ->
        exists u,
          Audio.MorphOpenGLWidget.get_normalized_elapsed w = Ok u
          /\ u == clamp (Audio.MorphOpenGLWidget.elapsed w
                         / Audio.MorphOpenGLWidget.duration w) 0 1)
  /\ (forall (p : Rotate.ProgressWindow.t Q),
        ~ Rotate.ProgressWindow.duration p == 0 ->
        exists u,
          Rotate.ProgressWindow.get_elapsed_normalized p = Ok u
          /\ u == clamp (Rotate.ProgressWindow.elapsed p
                         / Rotate.ProgressWindow.duration p) 0 1).
Proof.
  intros Hlen H0 Htt H1.
  split; [apply draw_morphed_shape_zip, Hlen |].
  split; [apply np_lerp_zip, Hlen |].
  split.
  - apply Forall_forall. intros [c s] _. apply lerp_on_unit_interval; assumption.
  - split; intros x Hd; apply normalized_elapsed_clamped, Hd.
Qed.


Lemma morph_interpolates_witness :
  Rotate.draw_morphed_shape [(-1, -1, -1); (1, 1, 1)] [(-0.5, -0.5, -0.5); (0.5, 0.5, 0.5)] 0.25
  = Ok (map (fun '(c, s) => Rotate.lerp c s 0.25)
          (combine [(-1, -1, -1); (1, 1, 1)] [(-0.5, -0.5, -0.5); (0.5, 0.5, 0.5)]))
  /\ Audio.MorphOpenGLWidget._lerp
       [(-1, -1, -1); (1, 1, 1)] [(-0.5, -0.5, -0.5); (0.5, 0.5, 0.5)] 0.25
     = Ok (map (fun '(c, s) => Rotate.lerp c s 0.25)
             (combine [(-1, -1, -1); (1, 1, 1)] [(-0.5, -0.5, -0.5); (0.5, 0.5, 0.5)]))
  /\ Forall
       (fun '(c, s) =>
          vec3_eq (Rotate.lerp c s 0.25) (spec_interpolate c s 0.25)
          /\ vec3_eq (Rotate.lerp c s 0) c
          /\ vec3_eq (Rotate.lerp c s 1) s
          /\ vec3_on_the_way c s (Rotate.lerp c s 0.25) (Rotate.lerp c s 0.75))
       (combine [(-1, -1, -1); (1, 1, 1)] [(-0.5, -0.5, -0.5); (0.5, 0.5, 0.5)])
  /\ (forall (w : Audio.MorphOpenGLWidget.t Q),
        ~ Audio.MorphOpenGLWidget.duration w == 0 ->
        exists u,
          Audio.MorphOpenGLWidget.get_normalized_elapsed w = Ok u
          /\ u == clamp (Audio.MorphOpenGLWidget.elapsed w
                         / Audio.MorphOpenGLWidget.duration w) 0 1)
  /\ (forall (p : Rotate.ProgressWindow.t Q),
        ~ Rotate.ProgressWindow.duration p == 0 ->
        exists u,
          Rotate.ProgressWindow.get_elapsed_normalized p = Ok u
          /\ u == clamp (Rotate.ProgressWindow.elapsed p
                         / Rotate.ProgressWindow.duration p) 0 1).
Proof.
  apply (morph_interpolates
           [(-1, -1, -1); (1, 1, 1)] [(-0.5, -0.5, -0.5); (0.5, 0.5, 0.5)]
           0.25 0.75);
    [reflexivity | | |]; vm_compute; discriminate.
Defined.

(** C4 as stated fails for a [t] outside [0,1]: at [t = 2], [lerp] of
    [(0,0,0)] and [(1,1,1)] is [(2,2,2)], where the clamped formula gives
    [(1,1,1)]; numpy's [_lerp] does the same. *)
Lemma lerp_does_not_clamp :
  vec3_eq (Rotate.lerp (0, 0, 0) (1, 1, 1) 2) (2, 2, 2)
  /\ vec3_eq (spec_interpolate (0, 0, 0) (1, 1, 1) 2) (1, 1, 1)
  /\ ~ vec3_eq (Rotate.lerp (0, 0, 0) (1, 1, 1) 2)
         (spec_interpolate (0, 0, 0) (1, 1, 1) 2)
  /\ Audio.MorphOpenGLWidget._lerp [(0, 0, 0)] [(1, 1, 1)] 2
     = Ok [Rotate.lerp (0, 0, 0) (1, 1, 1) 2].
Proof.
  split; [vm_compute; auto |]. split; [vm_compute; auto |].
  split; [| reflexivity].
  intros H. vm_compute in H. destruct H as [H _]. discriminate.
Qed.

(** ** Geometry *)

(** A loop over [seq a n] keeps an invariant that follows the index. *)
Lemma for_each_seq_invariant {S : Type} (P : nat -> S -> Prop)
  (body : S -> nat -> result S) (n a : nat) (s : S) :
  P a s ->
  (forall i s, (a <= i < a + n)%nat -> P i s ->
               exists s', body s i = Ok s' /\ P (Datatypes.S i) s') ->
  exists s', for_each (seq a n) body s = Ok s' /\ P (a + n)%nat s'.
Proof.
  revert a s. induction n as [| n IH]; intros a s Hs Hbody.
  - exists s. rewrite Nat.add_0_r. split; [reflexivity | exact Hs].
  - destruct (Hbody a s) as (s1 & E1 & H1); [lia | exact Hs |].
    destruct (IH (Datatypes.S a) s1) as (s' & E' & H'); [exact H1 | |].
    + intros i s0 Hi. apply Hbody. lia.
    + exists s'. cbn [seq for_each]. rewrite E1. cbn [bind].
      split; [exact E' |]. replace (a + Datatypes.S n)%nat with (Datatypes.S a + n)%nat by lia.
      exact H'.
Qed.

(** A loop over a list keeps an invariant of the state. *)
Lemma for_each_invariant {S X : Type} (P : S -> Prop)
  (body : S -> X -> result S) (xs : list X) (s : S) :
  P s ->
  (forall x s, In x xs -> P s -> exists s', body s x = Ok s' /\ P s') ->
  exists s', for_each xs body s = Ok s' /\ P s'.
Proof.
  revert s. induction xs as [| x xs IH]; intros s Hs Hbody.
  - exists s. split; [reflexivity | exact Hs].
  - destruct (Hbody x s) as (s1 & E1 & H1); [left; reflexivity | exact Hs |].
    destruct (IH s1) as (s' & E' & H'); [exact H1 | |].
    + intros y s0 Hy. apply Hbody. right. exact Hy.
    + exists s'. cbn [for_each]. rewrite E1. cbn [bind]. auto.
Qed.

Lemma first_index_bound {X : Type} (p : X -> bool) (xs : list X) (k i : nat) :
  first_index p xs k = Some i -> (k <= i < k + length xs)%nat.
Proof.
  revert k. induction xs as [| x xs IH]; intros k; cbn [first_index length];
    [discriminate |].
  destruct (p x).
  - intros [= <-]. lia.
  - intros Hi. apply IH in Hi. lia.
Qed.

Lemma indices_below_mono (n m : nat) (idxs : list nat) :
  (n <= m)%nat -> indices_below n idxs -> indices_below m idxs.
Proof.
  intros Hle. unfold indices_below. apply Forall_impl. intros i Hi. lia.
Qed.

Lemma edges_below_mono (n m : nat) (edges : list edge) :
  (n <= m)%nat -> edges_below n edges -> edges_below m edges.
Proof.
  intros Hle. unfold edges_below. apply Forall_impl. intros [i j] Hi. lia.
Qed.

Lemma grid_below_mono (n m side : nat) (grid_indices : list (list nat)) :
  (n <= m)%nat -> grid_below n side grid_indices -> grid_below m side grid_indices.
Proof.
  intros Hle. unfold grid_below. apply Forall_impl. intros row [Hl Hb].
  split; [exact Hl | exact (indices_below_mono _ _ _ Hle Hb)].
Qed.

Lemma range_succ (n : Z) : (0 <= n)%Z -> range (n + 1) = seq 0 (Datatypes.S (Z.to_nat n)).
Proof. intros Hn. unfold range. f_equal. lia. Qed.

Section GridEdges.
Variable n : Z.
Hypothesis n_pos : (1 <= n)%Z.
Variable grid_indices : list (list nat).
Variable len : nat.
Hypothesis grid_rows : length grid_indices = Datatypes.S (Z.to_nat n).
Hypothesis grid_ok : grid_below len (Datatypes.S (Z.to_nat n)) grid_indices.

Lemma grid_entry (i j : nat) :
  (i <= Z.to_nat n)%nat -> (j <= Z.to_nat n)%nat ->
  exists row a,
    getitem grid_indices i = Ok row /\ getitem row j = Ok a /\ (a < len)%nat.
Proof.
  intros Hi Hj.
  assert (Hrow : In (nth i grid_indices []) grid_indices) by (apply nth_In; lia).
  unfold grid_below in grid_ok. rewrite Forall_forall in grid_ok.
  destruct (grid_ok _ Hrow) as [Hl Hb].
  exists (nth i grid_indices []), (nth j (nth i grid_indices []) 0%nat).
  split; [apply getitem_nth; lia |].
  split; [apply getitem_nth; lia |].
  unfold indices_below in Hb. rewrite Forall_forall in Hb.
  apply Hb, nth_In. lia.
Qed.

Lemma face_edges_below (edges : list edge) :
  edges_below len edges ->
  exists edges',
    Rotate.face_edges grid_indices n edges = Ok edges'
    /\ Audio.MorphOpenGLWidget.face_edges grid_indices n edges = Ok edges'
    /\ edges_below len edges'.
Proof.
  intros Hedges.
  assert (Hsame : Audio.MorphOpenGLWidget.face_edges grid_indices n edges
                  = Rotate.face_edges grid_indices n edges) by reflexivity.
  rewrite Hsame.
  enough (exists edges', Rotate.face_edges grid_indices n edges = Ok edges'
                         /\ edges_below len edges')
    as (edges' & E & B) by (exists edges'; auto).
  unfold Rotate.face_edges. rewrite range_succ by lia.
  destruct (for_each_seq_invariant (fun _ es => edges_below len es)
              (fun edges i =>
                 for_each (range n)
                   (fun edges j =>
                      bind (getitem grid_indices i) (fun row =>
                      bind (getitem row j) (fun a =>
                      bind (getitem row (j + 1)) (fun b =>
                      let edges := edges ++ [(a, b)] in
                      if (Z.of_nat i <? n)%Z then
                        bind (getitem grid_indices (i + 1)) (fun below =>
                        bind (getitem below j) (fun c =>
                        Ok (edges ++ [(a, c)])))
                      else Ok edges))))
                   edges)
              (Datatypes.S (Z.to_nat n)) 0%nat edges Hedges)
    as (edges' & E & B).
  - intros i es Hi Hes. unfold range.
    destruct (for_each_seq_invariant (fun _ es => edges_below len es)
                (fun edges j =>
                   bind (getitem grid_indices i) (fun row =>
                   bind (getitem row j) (fun a =>
                   bind (getitem row (j + 1)) (fun b =>
                   let edges := edges ++ [(a, b)] in
                   if (Z.of_nat i <? n)%Z then
                     bind (getitem grid_indices (i + 1)) (fun below =>
                     bind (getitem below j) (fun c =>
                     Ok (edges ++ [(a, c)])))
                   else Ok edges))))
                (Z.to_nat n) 0%nat es Hes) as (es' & E' & B').
    + intros j es0 Hj Hes0.
      destruct (grid_entry i j) as (row & a & Erow & Ea & Ha); [lia | lia |].
      destruct (grid_entry i (j + 1)) as (row' & b & Erow' & Eb & Hb); [lia | lia |].
      rewrite Erow in Erow'. injection Erow' as <-.
      rewrite Erow. cbn [bind]. rewrite Ea. cbn [bind]. rewrite Eb. cbn [bind]. cbv zeta.
      assert (Hab : edges_below len (es0 ++ [(a, b)])).
      { apply Forall_app. split; [exact Hes0 |]. constructor; [auto | constructor]. }
      destruct (Z.of_nat i <? n)%Z eqn:Ei.
      * apply Z.ltb_lt in Ei.
        destruct (grid_entry (i + 1) j) as (below & c & Ebelow & Ec & Hc); [lia | lia |].
        rewrite Ebelow. cbn [bind]. rewrite Ec. cbn [bind].
        eexists. split; [reflexivity |].
        apply Forall_app. split; [exact Hab |]. constructor; [auto | constructor].
      * eexists. split; [reflexivity | exact Hab].
    + exists es'. split; [exact E' | exact B'].
  - exists edges'. split; [exact E | exact B].
Qed.
End GridEdges.

Section CubeGrid.
Context {A : Type} `{PyFloat A} `{PyMath A}.
Variable n : Z.
Hypothesis n_pos : (1 <= n)%Z.

Lemma int_truediv_ok (i : Z) :
  int_truediv (A := A) i n = Ok (fdiv (float_of_int i) (float_of_int n)).
Proof.
  unfold int_truediv. destruct (n =? 0)%Z eqn:E; [lia | reflexivity].
Qed.

Lemma add_vertex_bound (vertices : list (vec3 A)) (v : vec3 A) :
  (snd (Rotate.add_vertex vertices v) < length (fst (Rotate.add_vertex vertices v)))%nat
  /\ (length vertices <= length (fst (Rotate.add_vertex vertices v)))%nat.
Proof.
  unfold Rotate.add_vertex.
  destruct (first_index _ vertices 0) as [i |] eqn:E; cbn [fst snd].
  - apply first_index_bound in E. lia.
  - rewrite length_app. cbn [length]. lia.
Qed.

Lemma grid_row_below (corners : list (vec3 A)) (i : nat) (vertices : list (vec3 A)) :
  length corners = 4%nat ->
  exists vertices' row,
    Rotate.grid_row corners n i vertices = Ok (vertices', row)
    /\ length row = Datatypes.S (Z.to_nat n)
    /\ indices_below (length vertices') row
    /\ (length vertices <= length vertices')%nat.
Proof.
  intros Hc. unfold Rotate.grid_row.
  rewrite int_truediv_ok. cbn [bind]. rewrite range_succ by lia.
  match goal with
  | |- context [for_each _ ?body _] =>
      destruct (for_each_seq_invariant
                  (fun j (s : list (vec3 A) * list nat) =>
                     length (snd s) = j
                     /\ indices_below (length (fst s)) (snd s)
                     /\ (length vertices <= length (fst s))%nat)
                  body (Datatypes.S (Z.to_nat n)) 0%nat (vertices, []))
        as ([vertices' row] & E & Hl & Hb & Hm)
  end.
  - cbn [fst snd length]. split; [reflexivity |]. split; [constructor | lia].
  - intros j [vs row] Hj (Hl & Hb & Hm). cbn [fst snd] in *.
    rewrite int_truediv_ok. cbn [bind].
    destruct corners as [| c0 [| c1 [| c2 [| c3 [| ? ?]]]]]; try discriminate.
    cbn [getitem nth_error bind]. cbv zeta.
    match goal with
    | |- context [Rotate.add_vertex vs ?p] =>
        pose proof (add_vertex_bound vs p) as [Hi Hg];
        destruct (Rotate.add_vertex vs p) as [vs' idx]
    end.
    cbn [fst snd] in *. eexists. split; [reflexivity |]. cbn [fst snd].
    split; [rewrite length_app; cbn [length]; lia |].
    split; [| lia].
    apply Forall_app. split.
    + exact (indices_below_mono _ _ _ Hg Hb).
    + constructor; [exact Hi | constructor].
  - exists vertices', row. cbn [fst snd] in *. auto.
Qed.

Lemma face_grid_below (corners : list (vec3 A)) (vertices : list (vec3 A)) :
  length corners = 4%nat ->
  exists vertices' grid_indices,
    Rotate.face_grid corners n vertices = Ok (vertices', grid_indices)
    /\ length grid_indices = Datatypes.S (Z.to_nat n)
    /\ grid_below (length vertices') (Datatypes.S (Z.to_nat n)) grid_indices
    /\ (length vertices <= length vertices')%nat.
Proof.
  intros Hc. unfold Rotate.face_grid. rewrite range_succ by lia.
  match goal with
  | |- context [for_each _ ?body _] =>
      destruct (for_each_seq_invariant
                  (fun i (s : list (vec3 A) * list (list nat)) =>
                     length (snd s) = i
                     /\ grid_below (length (fst s)) (Datatypes.S (Z.to_nat n)) (snd s)
                     /\ (length vertices <= length (fst s))%nat)
                  body (Datatypes.S (Z.to_nat n)) 0%nat (vertices, []))
        as ([vertices' grid] & E & Hl & Hb & Hm)
  end.
  - cbn [fst snd length]. split; [reflexivity |]. split; [constructor | lia].
  - intros i [vs grid] Hi (Hl & Hb & Hm). cbn [fst snd] in *.
    destruct (grid_row_below corners i vs Hc) as (vs' & row & E & Hrl & Hrb & Hrm).
    rewrite E. cbn [bind]. eexists. split; [reflexivity |]. cbn [fst snd].
    split; [rewrite length_app; cbn [length]; lia |].
    split; [| lia].
    apply Forall_app. split.
    + exact (grid_below_mono _ _ _ _ Hrm Hb).
    + constructor; [auto | constructor].
  - exists vertices', grid. cbn [fst snd] in *. auto.
Qed.

Lemma corners_of_quad (size : A) (quad : list nat) :
  In quad Rotate.cube_quads ->
  exists corners,
    comprehension (getitem (Rotate.cube_vertices size)) quad = Ok corners
    /\ length corners = 4%nat.
Proof.
  cbn [Rotate.cube_quads In].
  intros [<- | [<- | [<- | [<- | [<- | [<- | []]]]]]];
    eexists; (split; [reflexivity | reflexivity]).
Qed.

Lemma create_tessellated_cube_below (size : A) :
  exists vertices edges,
    Rotate.create_tessellated_cube size n = Ok (vertices, edges)
    /\ edges_below (length vertices) edges.
Proof.
  unfold Rotate.create_tessellated_cube. cbv zeta.
  match goal with
  | |- context [for_each _ ?body _] =>
      destruct (for_each_invariant
                  (fun (s : list (vec3 A) * list edge) =>
                     edges_below (length (fst s)) (snd s))
                  body Rotate.cube_quads ([], []))
        as ([vertices edges] & E & Hb)
  end.
  - constructor.
  - intros quad [vs es] Hq Hes. cbn [fst snd] in *.
    destruct (corners_of_quad size quad Hq) as (corners & Ec & Hc).
    rewrite Ec. cbn [bind].
    destruct (face_grid_below corners vs Hc) as (vs' & grid & Eg & Hgl & Hgb & Hgm).
    rewrite Eg. cbn [bind].
    destruct (face_edges_below n n_pos grid (length vs') Hgl Hgb es) as (es' & Ee & _ & Hes').
    { exact (edges_below_mono _ _ _ Hgm Hes). }
    rewrite Ee. cbn [bind]. eexists. split; [reflexivity | exact Hes'].
  - exists vertices, edges. auto.
Qed.
End CubeGrid.

Section CachedGrid.
Context {A : Type} `{PyFloat A} `{PyMath A}.
Variable n : Z.
Hypothesis n_pos : (1 <= n)%Z.

Lemma cache_get_below (len : nat) (vertex_cache : list (vec3 A * nat))
  (key : vec3 A) (idx : nat) :
  cache_below len vertex_cache ->
  Audio.MorphOpenGLWidget.cache_get vertex_cache key = Some idx ->
  (idx < len)%nat.
Proof.
  intros Hc. induction Hc as [| [k i] rest Hi _ IH];
    cbn [Audio.MorphOpenGLWidget.cache_get]; [discriminate |].
  destruct (Audio.MorphOpenGLWidget.key_eqb key k).
  - intros [= <-]. exact Hi.
  - exact IH.
Qed.

Lemma cache_below_mono (len len' : nat) (vertex_cache : list (vec3 A * nat)) :
  (len <= len')%nat -> cache_below len vertex_cache -> cache_below len' vertex_cache.
Proof.
  intros Hle. unfold cache_below. apply Forall_impl. intros entry Hi. lia.
Qed.

Lemma cached_grid_row_below (corners : list (vec3 A)) (i : nat)
  (vertices : list (vec3 A)) (vertex_cache : list (vec3 A * nat)) :
  length corners = 4%nat ->
  cache_below (length vertices) vertex_cache ->
  exists vertices' vertex_cache' row,
    Audio.MorphOpenGLWidget.grid_row corners n i (vertices, vertex_cache)
    = Ok (vertices', vertex_cache', row)
    /\ length row = Datatypes.S (Z.to_nat n)
    /\ indices_below (length vertices') row
    /\ cache_below (length vertices') vertex_cache'
    /\ (length vertices <= length vertices')%nat.
Proof.
  intros Hc Hcache. unfold Audio.MorphOpenGLWidget.grid_row.
  rewrite (int_truediv_ok n n_pos). cbn [bind fst snd]. rewrite range_succ by lia.
  match goal with
  | |- context [for_each _ ?body _] =>
      destruct (for_each_seq_invariant
                  (fun j (s : list (vec3 A) * list (vec3 A * nat) * list nat) =>
                     length (snd s) = j
                     /\ indices_below (length (fst (fst s))) (snd s)
                     /\ cache_below (length (fst (fst s))) (snd (fst s))
                     /\ (length vertices <= length (fst (fst s)))%nat)
                  body (Datatypes.S (Z.to_nat n)) 0%nat (vertices, vertex_cache, []))
        as ([[vertices' cache'] row] & E & Hl & Hb & Hk & Hm)
  end.
  - cbn [fst snd length]. split; [reflexivity |].
    split; [constructor |]. split; [exact Hcache | lia].
  - intros j [[vs cache] row] Hj (Hl & Hb & Hk & Hm). cbn [fst snd] in *.
    rewrite (int_truediv_ok n n_pos). cbn [bind].
    destruct corners as [| c0 [| c1 [| c2 [| c3 [| ? ?]]]]]; try discriminate.
    cbn [getitem nth_error bind]. cbv zeta.
    match goal with
    | |- context [Audio.MorphOpenGLWidget.cache_get cache ?key] =>
        destruct (Audio.MorphOpenGLWidget.cache_get cache key) as [idx |] eqn:Eget
    end.
    + eexists. split; [reflexivity |]. cbn [fst snd].
      split; [rewrite length_app; cbn [length]; lia |].
      split; [| split; [exact Hk | lia]].
      apply Forall_app. split; [exact Hb |].
      constructor; [exact (cache_get_below _ _ _ _ Hk Eget) | constructor].
    + eexists. split; [reflexivity |]. cbn [fst snd].
      rewrite !length_app. cbn [length].
      split; [lia |].
      split; [| split; [| lia]].
      * apply Forall_app. split.
        -- apply (indices_below_mono (length vs)); [lia | exact Hb].
        -- constructor; [lia | constructor].
      * apply Forall_app. split.
        -- apply (cache_below_mono (length vs)); [lia | exact Hk].
        -- constructor; [cbn [snd]; lia | constructor].
  - exists vertices', cache', row. cbn [fst snd] in *. auto.
Qed.

Lemma cached_face_grid_below (corners : list (vec3 A))
  (vertices : list (vec3 A)) (vertex_cache : list (vec3 A * nat)) :
  length corners = 4%nat ->
  cache_below (length vertices) vertex_cache ->
  exists vertices' vertex_cache' grid_indices,
    Audio.MorphOpenGLWidget.face_grid corners n (vertices, vertex_cache)
    = Ok (vertices', vertex_cache', grid_indices)
    /\ length grid_indices = Datatypes.S (Z.to_nat n)
    /\ grid_below (length vertices') (Datatypes.S (Z.to_nat n)) grid_indices
    /\ cache_below (length vertices') vertex_cache'
    /\ (length vertices <= length vertices')%nat.
Proof.
  intros Hc Hcache. unfold Audio.MorphOpenGLWidget.face_grid.
  cbn [fst snd]. rewrite range_succ by lia.
  match goal with
  | |- context [for_each _ ?body _] =>
      destruct (for_each_seq_invariant
                  (fun i (s : list (vec3 A) * list (vec3 A * nat) * list (list nat)) =>
                     length (snd s) = i
                     /\ grid_below (length (fst (fst s))) (Datatypes.S (Z.to_nat n)) (snd s)
                     /\ cache_below (length (fst (fst s))) (snd (fst s))
                     /\ (length vertices <= length (fst (fst s)))%nat)
                  body (Datatypes.S (Z.to_nat n)) 0%nat (vertices, vertex_cache, []))
        as ([[vertices' cache'] grid] & E & Hl & Hb & Hk & Hm)
  end.
  - cbn [fst snd length]. split; [reflexivity |].
    split; [constructor |]. split; [exact Hcache | lia].
  - intros i [[vs cache] grid] Hi (Hl & Hb & Hk & Hm). cbn [fst snd] in *.
    destruct (cached_grid_row_below corners i vs cache Hc Hk)
      as (vs' & cache' & row & E & Hrl & Hrb & Hrk & Hrm).
    rewrite E. cbn [bind]. eexists. split; [reflexivity |]. cbn [fst snd].
    split; [rewrite length_app; cbn [length]; lia |].
    split; [| split; [exact Hrk | lia]].
    apply Forall_app. split.
    + exact (grid_below_mono _ _ _ _ Hrm Hb).
    + constructor; [auto | constructor].
  - exists vertices', cache', grid. cbn [fst snd] in *. auto.
Qed.

Lemma float32_array_length (rows : list (vec3 A)) :
  length (Audio.MorphOpenGLWidget.float32_array rows) = length rows.
Proof. unfold Audio.MorphOpenGLWidget.float32_array. apply length_map. Qed.

Lemma cached_cube_below (size : A) :
  exists vertices edges,
    Audio.MorphOpenGLWidget._create_tessellated_cube size n = Ok (vertices, edges)
    /\ edges_below (length vertices) edges.
Proof.
  unfold Audio.MorphOpenGLWidget._create_tessellated_cube. cbv zeta.
  match goal with
  | |- context [for_each ?quads ?body _] =>
      destruct (for_each_invariant
                  (fun (s : list (vec3 A) * list (vec3 A * nat) * list edge) =>
                     edges_below (length (fst (fst s))) (snd s)
                     /\ cache_below (length (fst (fst s))) (snd (fst s)))
                  body quads ([], [], []))
        as ([[vertices cache] edges] & E & Hb & _)
  end.
  - split; constructor.
  - intros quad [[vs cache] es] Hq (Hes & Hk). cbn [fst snd] in *.
    destruct (corners_of_quad size quad Hq) as (corners & Ec & Hc).
    match goal with
    | |- context [bind ?c _] =>
        change c with (comprehension (getitem (Rotate.cube_vertices size)) quad)
    end.
    rewrite Ec. cbn [bind].
    destruct (cached_face_grid_below corners vs cache Hc Hk)
      as (vs' & cache' & grid & Eg & Hgl & Hgb & Hgk & Hgm).
    rewrite Eg. cbn [bind].
    destruct (face_edges_below n n_pos grid (length vs') Hgl Hgb es)
      as (es' & _ & Ee & Hes').
    { exact (edges_below_mono _ _ _ Hgm Hes). }
    rewrite Ee. cbn [bind]. eexists. split; [reflexivity |]. cbn [fst snd]. auto.
  - rewrite E. cbn [bind]. eexists _, _. split; [reflexivity |].
    rewrite float32_array_length. exact Hb.
Qed.
End CachedGrid.

Section Sphere.
Context (M : PyMath Q).

Lemma generate_sphere_vertices_length (cube : list (vec3 Q)) (radius : Q) :
  exists sphere,
    Rotate.generate_sphere_vertices cube radius = Ok sphere
    /\ length sphere = length cube.
Proof.
  unfold Rotate.generate_sphere_vertices.
  enough (G : forall acc,
             exists sphere,
               for_each cube
                 (fun sphere_vertices '(x, y, z) =>
                    let distance := fsqrt (x * x + y * y + z * z)%py in
                    if (distance <? lit 0.0001)%py then
                      Ok (sphere_vertices ++ [(lit 0, lit 0, lit 0)])
                    else
                      bind (truediv x distance) (fun qx =>
                      bind (truediv y distance) (fun qy =>
                      bind (truediv z distance) (fun qz =>
                      Ok (sphere_vertices
                          ++ [((qx * radius)%py, (qy * radius)%py, (qz * radius)%py)])))))
                 acc = Ok sphere
               /\ length sphere = (length acc + length cube)%nat)
    by (destruct (G []) as (sphere & E & Hl); exists sphere; auto).
  induction cube as [| [[x y] z] cube IH]; intros acc.
  - exists acc. cbn. split; [reflexivity | lia].
  - cbn [for_each]. cbv zeta.
    set (distance := fsqrt (x * x + y * y + z * z)%py).
    destruct (distance <? lit 0.0001)%py eqn:E.
    + cbn [bind]. destruct (IH (acc ++ [(lit 0, lit 0, lit 0)])) as (sphere & Es & Hl).
      exists sphere. split; [exact Es |].
      rewrite Hl, length_app. cbn [length]. lia.
    + assert (Hd : forall v, truediv v distance = Ok (v / distance)%py).
      { intros v. unfold truediv. revert E. py_unfold. intros E.
        apply Qltb_ge in E.
        destruct (Qeq_bool distance 0) eqn:Ez; [| reflexivity].
        apply Qeq_bool_iff in Ez. lra. }
      rewrite !Hd. cbn [bind].
      match goal with
      | |- context [for_each cube _ ?acc'] => destruct (IH acc') as (sphere & Es & Hl)
      end.
      exists sphere. split; [exact Es |].
      rewrite Hl, length_app. cbn [length]. lia.
Qed.
End Sphere.

Lemma np_sphere_vertices_length {A : Type} `{PyFloat A} `{PyMath A}
  (cube : list (vec3 A)) (radius : A) :
  length (Audio.MorphOpenGLWidget._generate_sphere_vertices cube radius)
  = length cube.
Proof.
  unfold Audio.MorphOpenGLWidget._generate_sphere_vertices.
  rewrite float32_array_length.
  enough (G : forall acc,
             length
               (fold_left
                  (fun sphere_vertices '(x, y, z) =>
                     let distance := fsqrt (x * x + y * y + z * z)%py in
                     if (distance <? lit 0.0001)%py then
                       sphere_vertices ++ [(lit 0, lit 0, lit 0)]
                     else
                       sphere_vertices
                       ++ [((x / distance * radius)%py, (y / distance * radius)%py,
                            (z / distance * radius)%py)])
                  cube acc)
             = (length acc + length cube)%nat) by apply (G []).
  induction cube as [| [[x y] z] cube IH]; intros acc; cbn [fold_left length];
    [lia |].
  cbv zeta. destruct (_ <? _)%py; rewrite IH, length_app; cbn [length]; lia.
Qed.

(** C6.  For every [subdivisions >= 1] (and every [size] and [radius]) the
    builders return a cube vertex list and a sphere vertex list of the same
    length, and both indices of every edge are below that length; so does
    [_create_geometry] for the three attributes it stores in the widget.
    Both programs; whatever [sqrt], [round] and the [float32] conversion
    compute. *)
Theorem geometry_is_co_indexed (M : PyMath Q) (size radius : Q) (subdivisions : Z) :
  (1 <= subdivisions)%Z ->
  (exists cube edges sphere,
     Rotate.create_tessellated_cube size subdivisions = Ok (cube, edges)
     /\ Rotate.generate_sphere_vertices cube radius = Ok sphere
     /\ length cube = length sphere
     /\ edges_below (length cube) edges)
  /\ (exists cube edges,
        Audio.MorphOpenGLWidget._create_tessellated_cube size subdivisions
        = Ok (cube, edges)
        /\ length cube
           = length (Audio.MorphOpenGLWidget._generate_sphere_vertices cube radius)
        /\ edges_below (length cube) edges)
  /\ (forall w : Audio.MorphOpenGLWidget.t Q,
        Audio.MorphOpenGLWidget.subdivisions w = subdivisions ->
        exists w' cube sphere edges,
          Audio.MorphOpenGLWidget._create_geometry w = Ok w'
          /\ Audio.MorphOpenGLWidget.cube_vertices w' = Some cube
          /\ Audio.MorphOpenGLWidget.sphere_vertices w' = Some sphere
          /\ Audio.MorphOpenGLWidget.edges w' = Some edges
          /\ length cube = length sphere
          /\ edges_below (length cube) edges).
Proof.
  intros Hn. split; [| split].
  - destruct (create_tessellated_cube_below subdivisions Hn size)
      as (cube & edges & E & Hb).
    destruct (generate_sphere_vertices_length M cube radius) as (sphere & Es & Hl).
    exists cube, edges, sphere. auto.
  - destruct (cached_cube_below subdivisions Hn size) as (cube & edges & E & Hb).
    exists cube, edges. rewrite np_sphere_vertices_length. auto.
  - intros w Hw. unfold Audio.MorphOpenGLWidget._create_geometry. rewrite Hw.
    destruct (cached_cube_below subdivisions Hn (lit 1.0))
      as (cube & edges & E & Hb).
    rewrite E. cbn [bind]. cbv zeta.
    exists (Audio.MorphOpenGLWidget.assign_geometry cube
              (Audio.MorphOpenGLWidget._generate_sphere_vertices cube (lit 1.0))
              edges w),
      cube, (Audio.MorphOpenGLWidget._generate_sphere_vertices cube (lit 1.0)),
      edges.
    split; [reflexivity |].
    split; [reflexivity |]. split; [reflexivity |]. split; [reflexivity |].
    split; [symmetry; apply np_sphere_vertices_length | exact Hb].
Qed.

Lemma geometry_is_co_indexed_witness :
  (exists cube edges sphere,
     Rotate.create_tessellated_cube 1 5 = Ok (cube, edges)
     /\ Rotate.generate_sphere_vertices (H0 := PyMath_Q) cube 1 = Ok sphere
     /\ length cube = length sphere
     /\ edges_below (length cube) edges)
  /\ (exists cube edges,
        Audio.MorphOpenGLWidget._create_tessellated_cube (H0 := PyMath_Q) 1 5
        = Ok (cube, edges)
        /\ length cube
           = length (Audio.MorphOpenGLWidget._generate_sphere_vertices
                       (H0 := PyMath_Q) cube 1)
        /\ edges_below (length cube) edges)
  /\ (forall w : Audio.MorphOpenGLWidget.t Q,
        Audio.MorphOpenGLWidget.subdivisions w = 5%Z ->
        exists w' cube sphere edges,
          Audio.MorphOpenGLWidget._create_geometry (H0 := PyMath_Q) w = Ok w'
          /\ Audio.MorphOpenGLWidget.cube_vertices w' = Some cube
          /\ Audio.MorphOpenGLWidget.sphere_vertices w' = Some sphere
          /\ Audio.MorphOpenGLWidget.edges w' = Some edges
          /\ length cube = length sphere
          /\ edges_below (length cube) edges).
Proof. apply (geometry_is_co_indexed PyMath_Q 1 1 5). lia. Defined.

(** What the program builds: five subdivisions of the cube of size 1 give 152
    vertices and 330 edges. *)
Example geometry_of_the_program :
  match Rotate.create_tessellated_cube (A := Q) 1 5 with
  | Ok (cube, edges) => (length cube, length edges)
  | Raise _ => (0, 0)%nat
  end = (152, 330)%nat
  /\ match Audio.MorphOpenGLWidget._create_tessellated_cube (H0 := PyMath_Q) 1 5 with
     | Ok (cube, edges) => (length cube, length edges)
     | Raise _ => (0, 0)%nat
     end = (152, 330)%nat.
Proof. split; vm_compute; reflexivity. Qed.

(** C3, amended.  The builders do not validate [subdivisions].  With
    [subdivisions = 0] the first grid point computes [0 / 0] and the build
    ends in [ZeroDivisionError]; with [subdivisions < 0] every loop is empty,
    nothing is divided and the mesh returned has no vertex and no edge; with
    [subdivisions >= 1] the build returns a mesh.  Both programs. *)
Theorem subdivisions_are_not_validated {A : Type} `{PyFloat A} `{PyMath A}
  (size : A) (subdivisions : Z) :
  ((subdivisions = 0)%Z ->
     Rotate.create_tessellated_cube size subdivisions = Raise ZeroDivisionError
     /\ Audio.MorphOpenGLWidget._create_tessellated_cube size subdivisions
        = Raise ZeroDivisionError)
  /\ ((subdivisions < 0)%Z ->
     Rotate.create_tessellated_cube size subdivisions = Ok ([], [])
     /\ Audio.MorphOpenGLWidget._create_tessellated_cube size subdivisions
        = Ok ([], []))
  /\ ((1 <= subdivisions)%Z ->
     exists mesh mesh',
       Rotate.create_tessellated_cube size subdivisions = Ok mesh
       /\ Audio.MorphOpenGLWidget._create_tessellated_cube size subdivisions
          = Ok mesh').
Proof.
  split; [| split].
  - intros ->. split; reflexivity.
  - intros Hneg.
    assert (E1 : range (subdivisions + 1) = []) by (unfold range; replace (Z.to_nat _) with 0%nat by lia; reflexivity).
    unfold Rotate.create_tessellated_cube,
      Audio.MorphOpenGLWidget._create_tessellated_cube,
      Rotate.face_grid, Audio.MorphOpenGLWidget.face_grid,
      Rotate.face_edges, Audio.MorphOpenGLWidget.face_edges.
    rewrite E1. split; reflexivity.
  - intros Hn.
    destruct (create_tessellated_cube_below subdivisions Hn size)
      as (cube & edges & E & _).
    destruct (cached_cube_below subdivisions Hn size) as (cube' & edges' & E' & _).
    exists (cube, edges), (cube', edges'). auto.
Qed.

(** C3 as stated fails: [subdivisions = 0] is not rejected before the grid
    loop, whose first division is the division by zero that ends the build;
    and [subdivisions = -1] is not rejected at all. *)
Lemma zero_subdivisions_divide_by_zero :
  Rotate.create_tessellated_cube (A := Q) 1 0 = Raise ZeroDivisionError
  /\ Audio.MorphOpenGLWidget._create_tessellated_cube (H0 := PyMath_Q) 1 0
     = Raise ZeroDivisionError
  /\ Rotate.create_tessellated_cube (A := Q) 1 (-1) = Ok ([], [])
  /\ Audio.MorphOpenGLWidget._create_tessellated_cube (H0 := PyMath_Q) 1 (-1)
     = Ok ([], []).
Proof. repeat split. Qed.

(** ** The rotation controller at work *)

(** [update] in closed form: what it leaves in each attribute. *)
Lemma update_closed_form (c : RotationController Q) (dt : Q) :
  let mx := momentum_x c in
  let my := momentum_y c in
  let active := Qltb 0.01 (Qabs mx) || Qltb 0.01 (Qabs my) in
  let factor :=
    damping c
    * (0.97 + 0.03 * (1.0 - Py.min 1.0 ((Qabs mx + Qabs my) * 0.5 / 3.0))) in
  let coast m :=
    let m1 := if active then m * factor else m in
    if Qltb (Qabs m1) 0.01 then 0 else m1 in
  let turn r m :=
    if active
    then Rotate.SmoothValue.set_target (Rotate.SmoothValue.update r)
           (current (Rotate.SmoothValue.update r) + m)
    else Rotate.SmoothValue.update r in
  Rotate.RotationController.update c dt
  = mkRotationController (turn (rotation_x c) mx) (turn (rotation_y c) my)
      (coast mx) (coast my)
      (Rotate.SmoothValue.update (velocity_x c))
      (Rotate.SmoothValue.update (velocity_y c))
      (auto_rotation c) (Rotate.SmoothValue.update (transition c))
      (damping c) (momentum_multiplier c) (last_time c).
Proof.
  destruct c as [rx ry m_x m_y vx vy ar tr d mm lt].
  cbv [Rotate.RotationController.update
       assign_rotation_x assign_rotation_y assign_velocity_x assign_velocity_y
       assign_transition assign_momentum_x assign_momentum_y
       momentum_x momentum_y damping rotation_x rotation_y velocity_x velocity_y
       transition auto_rotation momentum_multiplier last_time
       Rotate.SmoothValue.get
       lit fadd fsub fmul fdiv fabs fltb PyFloat_Q].
  destruct (Qltb 0.01 (Qabs m_x) || Qltb 0.01 (Qabs m_y)); cbv iota.
  - destruct (Qltb (Qabs (m_x * _)) 0.01); cbv iota;
      destruct (Qltb (Qabs (m_y * _)) 0.01); reflexivity.
  - destruct (Qltb (Qabs m_x) 0.01); cbv iota;
      destruct (Qltb (Qabs m_y) 0.01); reflexivity.
Qed.

Lemma update_keeps (c : RotationController Q) (dt : Q) :
  transition (Rotate.RotationController.update c dt)
  = Rotate.SmoothValue.update (transition c)
  /\ auto_rotation (Rotate.RotationController.update c dt) = auto_rotation c
  /\ damping (Rotate.RotationController.update c dt) = damping c
  /\ momentum_multiplier (Rotate.RotationController.update c dt)
     = momentum_multiplier c
  /\ velocity_x (Rotate.RotationController.update c dt)
     = Rotate.SmoothValue.update (velocity_x c)
  /\ velocity_y (Rotate.RotationController.update c dt)
     = Rotate.SmoothValue.update (velocity_y c).
Proof.
  pose proof (update_closed_form c dt) as E. cbv zeta in E. rewrite E.
  repeat split.
Qed.

Lemma update_damping (c : RotationController Q) (dt : Q) :
  damping (Rotate.RotationController.update c dt) = damping c.
Proof. destruct (update_keeps c dt) as (_ & _ & E & _). exact E. Qed.

Lemma fade_kept (c : RotationController Q) (k : call Q) :
  fade_follows_flag c -> fade_follows_flag (fst (rotate_call c k)).
Proof.
  intros (H0 & H1 & Ht & Hs & Hd & Hm). unfold fade_follows_flag.
  destruct k; cbn [rotate_call fst].
  - destruct (update_keeps c delta_time) as (-> & -> & -> & -> & _).
    cbn [Rotate.SmoothValue.update current target smoothing]. py_unfold.
    destruct (auto_rotation c); repeat split; try assumption; nra.
  - cbn. repeat split; try assumption; reflexivity.
  - cbn. repeat split; try assumption; reflexivity.
  - repeat split; assumption.
  - cbn. repeat split; try assumption; reflexivity.
  - unfold Rotate.RotationController.update_mouse_velocity.
    destruct (fltb _ _); cbn; repeat split; assumption.
Qed.

Lemma fade_of_run (c : RotationController Q) (calls : list (call Q)) :
  fade_follows_flag c ->
  fade_follows_flag (fst (run_calls rotate_call c calls)).
Proof.
  revert c. induction calls as [| k rest IH]; intros c Hc; [exact Hc |].
  cbn [run_calls]. pose proof (fade_kept c k Hc) as Hk.
  destruct (rotate_call c k) as [c' answer]. cbn [fst] in Hk.
  specialize (IH c' Hk). destruct (run_calls rotate_call c' rest) as [c'' answers].
  exact IH.
Qed.

Lemma runs_agree {A : Type} `{PyFloat A} (calls : list (call A))
  (c : RotationController A) :
  run_calls audio_call c calls = run_calls rotate_call c calls.
Proof.
  revert c. induction calls as [| k rest IH]; intros c; cbn [run_calls];
    [reflexivity |].
  rewrite <- call_agrees. destruct (rotate_call c k) as [c' answer].
  rewrite IH. reflexivity.
Qed.

(** X1.  Whatever calls follow the constructor ([update],
    [start_orbit], [stop_orbit], [should_resume_auto_rotation],
    [resume_auto_rotation], [update_mouse_velocity], in any order and with
    any arguments), the fade of the auto-rotation stays within [0, 1], its
    target is 1 while [auto_rotation] holds and 0 otherwise, and [smoothing],
    [damping] and [momentum_multiplier] stay at 0.95, 0.95 and 0.2.  Both
    programs. *)
Theorem fade_stays_between_0_and_1 (now : Q) (calls : list (call Q)) :
  fade_follows_flag
    (fst (run_calls rotate_call (Rotate.RotationController.init now) calls))
  /\ fade_follows_flag
       (fst (run_calls audio_call (Audio.RotationController.init now) calls)).
Proof.
  assert (Hinit : fade_follows_flag (Rotate.RotationController.init now)).
  { unfold fade_follows_flag. cbn. repeat split; try reflexivity; lra. }
  split; [exact (fade_of_run _ calls Hinit) |].
  destruct (@controller_agrees Q _) as (Hi & _). rewrite <- Hi.
  rewrite runs_agree. exact (fade_of_run _ calls Hinit).
Qed.

Section Coasting.
Variable c : RotationController Q.
Variable dt : Q.
Hypothesis damping_nonneg : 0 <= damping c.
Hypothesis damping_le_1 : damping c <= 1.

Let mx := momentum_x c.
Let my := momentum_y c.
Let active := Qltb 0.01 (Qabs mx) || Qltb 0.01 (Qabs my).
Let factor :=
  damping c * (0.97 + 0.03 * (1.0 - Py.min 1.0 ((Qabs mx + Qabs my) * 0.5 / 3.0))).
Let coast (m : Q) : Q :=
  let m1 := if active then m * factor else m in
  if Qltb (Qabs m1) 0.01 then 0 else m1.

Lemma factor_bounds : 0 <= factor /\ factor <= damping c.
Proof.
  unfold factor. set (v := (Qabs mx + Qabs my) * 0.5 / 3.0).
  assert (Hv : 0 <= v).
  { unfold v. pose proof (Qabs_nonneg mx). pose proof (Qabs_nonneg my).
    assert (E : (Qabs mx + Qabs my) * 0.5 / 3.0 == (Qabs mx + Qabs my) * (1 # 6))
      by (field). rewrite E. nra. }
  assert (Hmin : 0 <= Py.min 1.0 v /\ Py.min 1.0 v <= 1).
  { unfold Py.min. py_unfold.
    destruct (Qltb v 1.0) eqn:E; [apply Qltb_lt in E | apply Qltb_ge in E]; lra. }
  destruct Hmin as [M0 M1]. set (m := Py.min 1.0 v) in *.
  split; nra.
Qed.

Lemma coast_facts (m : Q) :
  Qabs (coast m) <= Qabs m
  /\ (coast m == 0 \/ 0.01 <= Qabs (coast m))
  /\ (active = true -> Qabs (coast m) <= damping c * Qabs m)
  /\ (active = false -> coast m == (if Qltb (Qabs m) 0.01 then 0 else m)).
Proof.
  destruct factor_bounds as [F0 F1].
  pose proof (Qabs_nonneg m) as Hm.
  assert (Hmf : Qabs (m * factor) == Qabs m * factor).
  { rewrite Qabs_Qmult. rewrite (Qabs_pos factor F0). reflexivity. }
  unfold coast. destruct active.
  - destruct (Qltb (Qabs (m * factor)) 0.01) eqn:E;
      [apply Qltb_lt in E | apply Qltb_ge in E].
    + change (Qabs 0) with 0.
      split; [exact Hm |]. split; [left; reflexivity |].
      split; [intros _; nra | discriminate].
    + split; [rewrite Hmf; nra |]. split; [right; exact E |].
      split; [intros _; rewrite Hmf; nra | discriminate].
  - destruct (Qltb (Qabs m) 0.01) eqn:E;
      [apply Qltb_lt in E | apply Qltb_ge in E].
    + change (Qabs 0) with 0.
      split; [exact Hm |]. split; [left; reflexivity |].
      split; [discriminate | reflexivity].
    + split; [lra |]. split; [right; exact E |].
      split; [discriminate | reflexivity].
Qed.

Lemma active_iff :
  (active = true <-> (0.01 < Qabs mx \/ 0.01 < Qabs my))
  /\ (active = false <-> (Qabs mx <= 0.01 /\ Qabs my <= 0.01)).
Proof.
  unfold active.
  destruct (Qltb 0.01 (Qabs mx)) eqn:E1; [apply Qltb_lt in E1 | apply Qltb_ge in E1];
    destruct (Qltb 0.01 (Qabs my)) eqn:E2; [apply Qltb_lt in E2 | apply Qltb_ge in E2 | apply Qltb_lt in E2 | apply Qltb_ge in E2];
    cbn [orb]; split; split; auto; try discriminate; intros; try lra;
    try (match goal with H : _ \/ _ |- _ => destruct H end; lra).
Qed.

Lemma update_momentum_facts :
  let c' := Rotate.RotationController.update c dt in
  (Qabs (momentum_x c') <= Qabs (momentum_x c)
   /\ Qabs (momentum_y c') <= Qabs (momentum_y c))
  /\ ((momentum_x c' == 0 \/ 0.01 <= Qabs (momentum_x c'))
      /\ (momentum_y c' == 0 \/ 0.01 <= Qabs (momentum_y c')))
  /\ (0.01 < Qabs (momentum_x c) \/ 0.01 < Qabs (momentum_y c) ->
      Qabs (momentum_x c') <= damping c * Qabs (momentum_x c)
      /\ Qabs (momentum_y c') <= damping c * Qabs (momentum_y c)
      /\ target (rotation_x c') = current (rotation_x c') + momentum_x c
      /\ target (rotation_y c') = current (rotation_y c') + momentum_y c)
  /\ (Qabs (momentum_x c) <= 0.01 -> Qabs (momentum_y c) <= 0.01 ->
      momentum_x c' == (if Qltb (Qabs (momentum_x c)) 0.01 then 0 else momentum_x c)
      /\ momentum_y c' == (if Qltb (Qabs (momentum_y c)) 0.01 then 0 else momentum_y c)
      /\ target (rotation_x c') = target (rotation_x c)
      /\ target (rotation_y c') = target (rotation_y c)).
Proof.
  intros c'. unfold c'.
  pose proof (update_closed_form c dt) as E. cbv zeta in E. rewrite E. clear E.
  cbn [momentum_x momentum_y rotation_x rotation_y].
  destruct (coast_facts mx) as (X1 & X2 & X3 & X4).
  destruct (coast_facts my) as (Y1 & Y2 & Y3 & Y4).
  destruct active_iff as [Ha Hq].
  unfold coast, factor, active, mx, my in *.
  split; [split; assumption |]. split; [split; assumption |].
  split.
  - intros Hact. apply Ha in Hact.
    split; [exact (X3 Hact) |]. split; [exact (Y3 Hact) |].
    rewrite Hact. split; reflexivity.
  - intros Hx Hy.
    assert (Hinact : Qltb 0.01 (Qabs (momentum_x c))
                     || Qltb 0.01 (Qabs (momentum_y c)) = false)
      by (apply Hq; split; assumption).
    split; [exact (X4 Hinact) |]. split; [exact (Y4 Hinact) |].
    rewrite Hinact. split; reflexivity.
Qed.
End Coasting.

Lemma quiet_kept (c : RotationController Q) (dt : Q) :
  0 <= damping c -> damping c <= 1 ->
  Qabs (momentum_x c) <= 0.01 /\ Qabs (momentum_y c) <= 0.01 ->
  Qabs (momentum_x (Rotate.RotationController.update c dt)) <= 0.01
  /\ Qabs (momentum_y (Rotate.RotationController.update c dt)) <= 0.01.
Proof.
  intros H0 H1 [Hx Hy].
  destruct (update_momentum_facts c dt H0 H1) as ((X & Y) & _).
  revert X Y. generalize (Rotate.RotationController.update c dt). intros c' X Y.
  split; lra.
Qed.

Lemma fold_left_step {S X : Type} (f : S -> X -> S) (x : X) (xs : list X) (s : S) :
  fold_left f (x :: xs) s = fold_left f xs (f s x).
Proof. reflexivity. Qed.

Lemma quiet_of_run (dts : list Q) (c : RotationController Q) :
  0 <= damping c -> damping c <= 1 ->
  Qabs (momentum_x c) <= 0.01 /\ Qabs (momentum_y c) <= 0.01 ->
  damping (fold_left Rotate.RotationController.update dts c) = damping c
  /\ Qabs (momentum_x (fold_left Rotate.RotationController.update dts c)) <= 0.01
  /\ Qabs (momentum_y (fold_left Rotate.RotationController.update dts c)) <= 0.01.
Proof.
  revert c. induction dts as [| dt dts IH]; intros c H0 H1 Hq.
  - split; [reflexivity | exact Hq].
  - rewrite fold_left_step.
    destruct (IH (Rotate.RotationController.update c dt)) as (D & Q1).
    + rewrite update_damping; assumption.
    + rewrite update_damping; assumption.
    + apply quiet_kept; assumption.
    + split; [rewrite D; apply update_damping | exact Q1].
Qed.

Lemma quiet_step (n : nat) (c : RotationController Q) (dt : Q) :
  0 < damping c -> damping c < 1 ->
  Qabs (momentum_x c) + Qabs (momentum_y c)
  <= 0.01 * (1 + inject_Z (Z.of_nat (S n)) * (1 - damping c)) ->
  Qabs (momentum_x (Rotate.RotationController.update c dt))
  + Qabs (momentum_y (Rotate.RotationController.update c dt))
  <= 0.01 * (1 + inject_Z (Z.of_nat n) * (1 - damping c))
  \/ (Qabs (momentum_x c) <= 0.01 /\ Qabs (momentum_y c) <= 0.01).
Proof.
  intros H0 H1 HS.
  destruct (update_momentum_facts c dt) as (_ & _ & Hact & _); try lra.
  revert Hact.
  generalize (Rotate.RotationController.update c dt). intros c1 Hact.
  destruct (Qlt_le_dec 0.01 (Qabs (momentum_x c))) as [Lx | Lx];
    [| destruct (Qlt_le_dec 0.01 (Qabs (momentum_y c))) as [Ly | Ly]].
  3: right; split; assumption.
  all: left; destruct Hact as (X & Y & _); [auto |].
  all: rewrite inject_nat_succ in HS.
  all: pose proof (inject_nat_nonneg n) as Hn.
  all: pose proof (Qabs_nonneg (momentum_x c)) as Px.
  all: pose proof (Qabs_nonneg (momentum_y c)) as Py.
  all: revert X Y HS Px Py Hn H0 H1.
  all: generalize (Qabs (momentum_x c1)) (Qabs (momentum_y c1))
         (Qabs (momentum_x c)) (Qabs (momentum_y c)) (damping c)
         (inject_Z (Z.of_nat n)).
  all: clear; intros a1 b1 a b k q X Y HS Px Py Hn H0 H1.
  all: assert (HkS : k * (a + b) <= k * (0.01 * (1 + (q + 1) * (1 - k))))
         by (apply Qmult_le_l; [exact H0 | exact HS]).
  all: assert (Hsq : 0 <= (1 - k) * (1 - k) * (q + 1))
         by (apply Qmult_le_0_compat; [apply Qmult_le_0_compat; lra | lra]).
  all: assert (E : 0.01 * (1 + q * (1 - k)) - k * (0.01 * (1 + (q + 1) * (1 - k)))
                   == 0.01 * ((1 - k) * (1 - k) * (q + 1))) by ring.
  all: assert (Hs2 : k * (a + b) == k * a + k * b) by ring.
  all: lra.
Qed.

Lemma quiet_within (n : nat) (c : RotationController Q) :
  0 < damping c -> damping c < 1 ->
  Qabs (momentum_x c) + Qabs (momentum_y c)
  <= 0.01 * (1 + inject_Z (Z.of_nat n) * (1 - damping c)) ->
  forall dts, (n <= length dts)%nat ->
    damping (fold_left Rotate.RotationController.update dts c) = damping c
    /\ Qabs (momentum_x (fold_left Rotate.RotationController.update dts c)) <= 0.01
    /\ Qabs (momentum_y (fold_left Rotate.RotationController.update dts c)) <= 0.01.
Proof.
  revert c. induction n as [| n IH]; intros c H0 H1 HS dts Hlen.
  - apply quiet_of_run; try lra.
    change (inject_Z (Z.of_nat 0)) with 0 in HS.
    pose proof (Qabs_nonneg (momentum_x c)). pose proof (Qabs_nonneg (momentum_y c)).
    split; lra.
  - destruct dts as [| dt dts]; [cbn in Hlen; lia |].
    rewrite fold_left_step. cbn [length] in Hlen.
    destruct (quiet_step n c dt H0 H1 HS) as [Hstep | Hq].
    + assert (D0 : damping (Rotate.RotationController.update c dt) = damping c)
        by apply update_damping.
      destruct (IH (Rotate.RotationController.update c dt)) with (dts := dts)
        as (D & Q1); try (rewrite D0; assumption); [lia |].
      split; [rewrite D; exact D0 | exact Q1].
    + assert (D0 : damping (Rotate.RotationController.update c dt) = damping c)
        by apply update_damping.
      destruct (quiet_of_run dts (Rotate.RotationController.update c dt))
        as (D & Q1); try (rewrite D0; lra).
      * apply quiet_kept; [lra | lra | exact Hq].
      * split; [rewrite D; exact D0 | exact Q1].
Qed.

Lemma fold_left_snoc {S X : Type} (f : S -> X -> S) (xs : list X) (x : X) (s : S) :
  fold_left f (xs ++ [x]) s = f (fold_left f xs s) x.
Proof. rewrite fold_left_app. reflexivity. Qed.

Lemma run_updates_app (dts : list Q) (dt : Q) (c : RotationController Q) :
  run_updates (dts ++ [dt]) c
  = Rotate.RotationController.update (run_updates dts c) dt.
Proof.
  unfold run_updates.
  exact (fold_left_snoc Rotate.RotationController.update dts dt c).
Qed.

Lemma at_rest (c : RotationController Q) (dt : Q) :
  0 <= damping c -> damping c <= 1 ->
  Qabs (momentum_x c) <= 0.01 -> Qabs (momentum_y c) <= 0.01 ->
  (momentum_x c == 0 \/ 0.01 <= Qabs (momentum_x c)) ->
  (momentum_y c == 0 \/ 0.01 <= Qabs (momentum_y c)) ->
  momentum_x (Rotate.RotationController.update c dt) == momentum_x c
  /\ momentum_y (Rotate.RotationController.update c dt) == momentum_y c
  /\ target (rotation_x (Rotate.RotationController.update c dt))
     = target (rotation_x c)
  /\ target (rotation_y (Rotate.RotationController.update c dt))
     = target (rotation_y c).
Proof.
  intros H0 H1 Qx Qy Zx Zy.
  destruct (update_momentum_facts c dt H0 H1) as (_ & _ & _ & Hrest).
  destruct (Hrest Qx Qy) as (Ex & Ey & Tx & Ty).
  split; [| split; [| split; assumption]].
  - rewrite Ex. destruct (Qltb (Qabs (momentum_x c)) 0.01) eqn:E; [| reflexivity].
    apply Qltb_lt in E. destruct Zx as [Z | Z]; [symmetry; exact Z | lra].
  - rewrite Ey. destruct (Qltb (Qabs (momentum_y c)) 0.01) eqn:E; [| reflexivity].
    apply Qltb_lt in E. destruct Zy as [Z | Z]; [symmetry; exact Z | lra].
Qed.

(** X2.  One [update] with a [damping] in [0, 1]: both programs compute the
    same controller; neither momentum grows, and afterwards each is 0 or at
    least 0.01 in size.  While one of them exceeds 0.01, both shrink at least
    by the factor [damping] and each rotation target is set to the rotation
    just computed plus the momentum before the update; once both are within
    0.01 the rotation targets are left alone. *)
Theorem momentum_decays (c : RotationController Q) (dt : Q) :
  0 <= damping c -> damping c <= 1 ->
  Audio.RotationController.update c dt = Rotate.RotationController.update c dt
  /\ (Qabs (momentum_x (Rotate.RotationController.update c dt)) <= Qabs (momentum_x c)
      /\ Qabs (momentum_y (Rotate.RotationController.update c dt)) <= Qabs (momentum_y c))
  /\ ((momentum_x (Rotate.RotationController.update c dt) == 0
       \/ 0.01 <= Qabs (momentum_x (Rotate.RotationController.update c dt)))
      /\ (momentum_y (Rotate.RotationController.update c dt) == 0
          \/ 0.01 <= Qabs (momentum_y (Rotate.RotationController.update c dt))))
  /\ (0.01 < Qabs (momentum_x c) \/ 0.01 < Qabs (momentum_y c) ->
      Qabs (momentum_x (Rotate.RotationController.update c dt))
      <= damping c * Qabs (momentum_x c)
      /\ Qabs (momentum_y (Rotate.RotationController.update c dt))
         <= damping c * Qabs (momentum_y c)
      /\ target (rotation_x (Rotate.RotationController.update c dt))
         = current (rotation_x (Rotate.RotationController.update c dt)) + momentum_x c
      /\ target (rotation_y (Rotate.RotationController.update c dt))
         = current (rotation_y (Rotate.RotationController.update c dt)) + momentum_y c)
  /\ (Qabs (momentum_x c) <= 0.01 -> Qabs (momentum_y c) <= 0.01 ->
      target (rotation_x (Rotate.RotationController.update c dt))
      = target (rotation_x c)
      /\ target (rotation_y (Rotate.RotationController.update c dt))
         = target (rotation_y c)).
Proof.
  intros H0 H1.
  split.
  - destruct (@controller_agrees Q _) as (_ & Hu & _). rewrite <- Hu. reflexivity.
  - destruct (update_momentum_facts c dt H0 H1) as (A & B & C & D).
    split; [exact A |]. split; [exact B |]. split; [exact C |].
    intros Hx Hy. destruct (D Hx Hy) as (_ & _ & Tx & Ty). split; assumption.
Qed.

Lemma momentum_decays_witness :
  Audio.RotationController.update released_controller 0.016
  = Rotate.RotationController.update released_controller 0.016
  /\ (Qabs (momentum_x (Rotate.RotationController.update released_controller 0.016))
      <= Qabs (momentum_x released_controller)
      /\ Qabs (momentum_y (Rotate.RotationController.update released_controller 0.016))
         <= Qabs (momentum_y released_controller))
  /\ ((momentum_x (Rotate.RotationController.update released_controller 0.016) == 0
       \/ 0.01 <= Qabs (momentum_x (Rotate.RotationController.update released_controller 0.016)))
      /\ (momentum_y (Rotate.RotationController.update released_controller 0.016) == 0
          \/ 0.01 <= Qabs (momentum_y (Rotate.RotationController.update released_controller 0.016))))
  /\ (0.01 < Qabs (momentum_x released_controller)
      \/ 0.01 < Qabs (momentum_y released_controller) ->
      Qabs (momentum_x (Rotate.RotationController.update released_controller 0.016))
      <= damping released_controller * Qabs (momentum_x released_controller)
      /\ Qabs (momentum_y (Rotate.RotationController.update released_controller 0.016))
         <= damping released_controller * Qabs (momentum_y released_controller)
      /\ target (rotation_x (Rotate.RotationController.update released_controller 0.016))
         = current (rotation_x (Rotate.RotationController.update released_controller 0.016))
           + momentum_x released_controller
      /\ target (rotation_y (Rotate.RotationController.update released_controller 0.016))
         = current (rotation_y (Rotate.RotationController.update released_controller 0.016))
           + momentum_y released_controller)
  /\ (Qabs (momentum_x released_controller) <= 0.01 ->
      Qabs (momentum_y released_controller) <= 0.01 ->
      target (rotation_x (Rotate.RotationController.update released_controller 0.016))
      = target (rotation_x released_controller)
      /\ target (rotation_y (Rotate.RotationController.update released_controller 0.016))
         = target (rotation_y released_controller)).
Proof.
  apply (momentum_decays released_controller 0.016); vm_compute; discriminate.
Defined.

(** X3.  With a [damping] strictly between 0 and 1 the coasting ends: there
    is a number of updates after which, whatever the time steps, both momenta
    are within 0.01, and any further [update] changes neither the momenta nor
    the rotation targets.  Both programs compute the same run. *)
Theorem momentum_comes_to_rest (c : RotationController Q) :
  0 < damping c -> damping c < 1 ->
  exists N : nat, forall delta_times : list Q, (N <= length delta_times)%nat ->
    fold_left Audio.RotationController.update delta_times c
    = run_updates delta_times c
    /\ Qabs (momentum_x (run_updates delta_times c)) <= 0.01
    /\ Qabs (momentum_y (run_updates delta_times c)) <= 0.01
    /\ forall dt,
         momentum_x (Rotate.RotationController.update (run_updates delta_times c) dt)
         == momentum_x (run_updates delta_times c)
         /\ momentum_y (Rotate.RotationController.update (run_updates delta_times c) dt)
            == momentum_y (run_updates delta_times c)
         /\ target (rotation_x (Rotate.RotationController.update
                                  (run_updates delta_times c) dt))
            = target (rotation_x (run_updates delta_times c))
         /\ target (rotation_y (Rotate.RotationController.update
                                  (run_updates delta_times c) dt))
            = target (rotation_y (run_updates delta_times c)).
Proof.
  intros H0 H1.
  set (S0 := Qabs (momentum_x c) + Qabs (momentum_y c)).
  set (d := 0.01 * (1 - damping c)).
  assert (Hd : 0 < d) by (unfold d; lra).
  set (n := Z.to_nat (Qceiling (S0 / d))).
  assert (HS : S0 <= 0.01 * (1 + inject_Z (Z.of_nat n) * (1 - damping c))).
  { assert (Hnn : 0 <= S0).
    { unfold S0. pose proof (Qabs_nonneg (momentum_x c)).
      pose proof (Qabs_nonneg (momentum_y c)). lra. }
    assert (Hq : S0 / d <= inject_Z (Z.of_nat n)).
    { apply Qle_trans with (inject_Z (Qceiling (S0 / d))); [apply Qle_ceiling |].
      rewrite <- Zle_Qle. unfold n. lia. }
    assert (E : S0 == S0 / d * d) by (field; lra).
    assert (S0 / d * d <= inject_Z (Z.of_nat n) * d)
      by (apply Qmult_le_compat_r; lra).
    unfold d in *. lra. }
  exists (S n). intros dts Hlen.
  split.
  { unfold run_updates. destruct (@controller_agrees Q _) as (_ & Hu & _).
    rewrite <- Hu. reflexivity. }
  destruct (exists_last (l := dts)) as (dts' & dt' & ->);
    [intros ->; cbn in Hlen; lia |].
  rewrite length_app in Hlen. cbn [length] in Hlen.
  rewrite run_updates_app.
  destruct (quiet_within n c H0 H1 HS dts') as (D & Qx & Qy); [lia |].
  fold (run_updates dts' c) in D, Qx, Qy.
  assert (D0 : 0 <= damping (run_updates dts' c)) by (rewrite D; lra).
  assert (D1 : damping (run_updates dts' c) <= 1) by (rewrite D; lra).
  destruct (update_momentum_facts (run_updates dts' c) dt' D0 D1)
    as ((Lx & Ly) & (Zx & Zy) & _).
  assert (D2 : damping (Rotate.RotationController.update (run_updates dts' c) dt')
               = damping (run_updates dts' c)) by apply update_damping.
  revert Lx Ly Zx Zy D2.
  generalize (Rotate.RotationController.update (run_updates dts' c) dt').
  intros c1 Lx Ly Zx Zy D2.
  assert (Q1x : Qabs (momentum_x c1) <= 0.01) by lra.
  assert (Q1y : Qabs (momentum_y c1) <= 0.01) by lra.
  split; [exact Q1x |]. split; [exact Q1y |].
  intros dt. apply at_rest; try assumption; rewrite D2; assumption.
Qed.

Lemma momentum_comes_to_rest_witness :
  exists N : nat, forall delta_times : list Q, (N <= length delta_times)%nat ->
    let c := Rotate.RotationController.stop_orbit dragged_controller in
    fold_left Audio.RotationController.update delta_times c
    = run_updates delta_times c
    /\ Qabs (momentum_x (run_updates delta_times c)) <= 0.01
    /\ Qabs (momentum_y (run_updates delta_times c)) <= 0.01
    /\ forall dt,
         momentum_x (Rotate.RotationController.update (run_updates delta_times c) dt)
         == momentum_x (run_updates delta_times c)
         /\ momentum_y (Rotate.RotationController.update (run_updates delta_times c) dt)
            == momentum_y (run_updates delta_times c)
         /\ target (rotation_x (Rotate.RotationController.update
                                  (run_updates delta_times c) dt))
            = target (rotation_x (run_updates delta_times c))
         /\ target (rotation_y (Rotate.RotationController.update
                                  (run_updates delta_times c) dt))
            = target (rotation_y (run_updates delta_times c)).
Proof.
  apply (momentum_comes_to_rest (Rotate.RotationController.stop_orbit dragged_controller));
    vm_compute; reflexivity.
Defined.

(** The drag of [dragged_controller] in binary64, released and ticked every
    16 ms: the momentum is (0.832, 0.624) at the release, still there after
    83 updates and zero from the 84th on. *)
Example coasting_binary64 :
  let at_rest n :=
    let c := run_updates (repeat (lit 0.016) n) released_float in
    PrimFloat.eqb (momentum_x c) (lit 0) && PrimFloat.eqb (momentum_y c) (lit 0) in
  (PrimFloat.eqb (momentum_x released_float) 0x1.a9fbe76c8b43ap-1
   && PrimFloat.eqb (momentum_y released_float) 0x1.3f7ced916872cp-1
   && negb (at_rest 83%nat) && at_rest 84%nat && at_rest 200%nat)%bool = true.
Proof. vm_compute. reflexivity. Qed.

(** ** The audio player at work *)

Lemma slice_from_tail {X : Type} (xs : list X) (start : Z) :
  (0 <= start)%Z -> slice_from xs start = skipn (Z.to_nat start) xs.
Proof.
  intros H0. unfold slice_from.
  destruct (start <? 0)%Z eqn:E; [apply Z.ltb_lt in E; lia | reflexivity].
Qed.

Lemma slice_from_past_the_end {X : Type} (xs : list X) (start : Z) :
  (Z.of_nat (length xs) <= start)%Z -> slice_from xs start = [].
Proof.
  intros Hle. rewrite slice_from_tail by lia. apply skipn_all2. lia.
Qed.

(** X4.  [play] with a file loaded, from a position whose sample index lies
    inside the data: both programs stop sounddevice, play the samples from
    that index on at [int(sample_rate * speed)], and leave the player
    [playing], not [paused], at that position. *)
Theorem play_starts_playback {A : Type} `{PyFloat A}
  (player : EnhancedAudioPlayer A) (from_pos : option A) (sd : sounddevice A)
  (data : list A) (rate start_sample samplerate : Z) :
  audio_data player = Some data -> sample_rate player = Some rate ->
  let position :=
    match from_pos with Some p => p | None => current_position player end in
  int (position * float_of_int rate)%py = Ok start_sample ->
  (0 <= start_sample < Z.of_nat (length data))%Z ->
  int (float_of_int rate * speed player)%py = Ok samplerate ->
  let playing_player :=
    mkEnhancedAudioPlayer (Some data) (Some rate) true false position
      (speed player) (is_rewinding player) in
  let calls :=
    sd ++ [sd_stop; sd_play (skipn (Z.to_nat start_sample) data) samplerate] in
  Rotate.EnhancedAudioPlayer.play player from_pos sd = Ok (playing_player, calls)
  /\ Audio.EnhancedAudioPlayer.play player from_pos sd = Ok (playing_player, calls).
Proof.
  intros Hdata Hrate position Hstart Hin Hsr playing_player calls.
  unfold Rotate.EnhancedAudioPlayer.play, Audio.EnhancedAudioPlayer.play.
  rewrite Hdata.
  destruct player as [ad sr pl pa pos sp rw].
  cbn [audio_data sample_rate current_position speed is_rewinding] in *.
  subst ad sr.
  assert (Hlt : (start_sample <? Z.of_nat (length data))%Z = true)
    by (apply Z.ltb_lt; lia).
  unfold calls, playing_player, position in *.
  destruct from_pos as [p |];
    cbn [assign_current_position sample_rate current_position speed audio_data
         playing paused is_rewinding];
    rewrite Hstart; cbn [bind]; rewrite Hlt, Hsr; cbn [bind];
    rewrite slice_from_tail by lia; rewrite <- !app_assoc; split; reflexivity.
Qed.

Lemma play_starts_playback_witness :
  Rotate.EnhancedAudioPlayer.play demo_player (Some 1) []
  = Ok (mkEnhancedAudioPlayer (Some [0.1; 0.2; 0.3; 0.4]) (Some 2%Z) true false 1 1 false,
        [] ++ [sd_stop; sd_play (skipn (Z.to_nat 2) [0.1; 0.2; 0.3; 0.4]) 2%Z])
  /\ Audio.EnhancedAudioPlayer.play demo_player (Some 1) []
     = Ok (mkEnhancedAudioPlayer (Some [0.1; 0.2; 0.3; 0.4]) (Some 2%Z) true false 1 1 false,
           [] ++ [sd_stop; sd_play (skipn (Z.to_nat 2) [0.1; 0.2; 0.3; 0.4]) 2%Z]).
Proof.
  apply (play_starts_playback demo_player (Some 1) [] [0.1; 0.2; 0.3; 0.4] 2 2 2);
    try reflexivity. cbn. lia.
Defined.

(** X5.  [play] from a position whose sample index is at or past the end of
    the data.  audio.py stops sounddevice and starts nothing: [playing] and
    [paused] stay as they were.  rotate.py, which has no such test, plays the
    empty rest and marks the player [playing]. *)
Theorem play_past_the_end {A : Type} `{PyFloat A}
  (player : EnhancedAudioPlayer A) (from_pos : option A) (sd : sounddevice A)
  (data : list A) (rate start_sample samplerate : Z) :
  audio_data player = Some data -> sample_rate player = Some rate ->
  let position :=
    match from_pos with Some p => p | None => current_position player end in
  int (position * float_of_int rate)%py = Ok start_sample ->
  (Z.of_nat (length data) <= start_sample)%Z ->
  int (float_of_int rate * speed player)%py = Ok samplerate ->
  Audio.EnhancedAudioPlayer.play player from_pos sd
  = Ok (mkEnhancedAudioPlayer (Some data) (Some rate) (playing player)
          (paused player) position (speed player) (is_rewinding player),
        sd ++ [sd_stop])
  /\ Rotate.EnhancedAudioPlayer.play player from_pos sd
     = Ok (mkEnhancedAudioPlayer (Some data) (Some rate) true false position
             (speed player) (is_rewinding player),
           sd ++ [sd_stop; sd_play [] samplerate]).
Proof.
  intros Hdata Hrate position Hstart Hin Hsr.
  unfold Rotate.EnhancedAudioPlayer.play, Audio.EnhancedAudioPlayer.play.
  rewrite Hdata.
  destruct player as [ad sr pl pa pos sp rw].
  cbn [audio_data sample_rate current_position speed is_rewinding playing paused] in *.
  subst ad sr.
  assert (Hlt : (start_sample <? Z.of_nat (length data))%Z = false)
    by (apply Z.ltb_ge; lia).
  unfold position in *.
  destruct from_pos as [p |];
    cbn [assign_current_position sample_rate current_position speed audio_data
         playing paused is_rewinding];
    rewrite Hstart; cbn [bind]; rewrite Hlt, ?Hsr; cbn [bind];
    rewrite ?slice_from_past_the_end by lia; rewrite <- ?app_assoc;
    split; reflexivity.
Qed.

Lemma play_past_the_end_witness :
  Audio.EnhancedAudioPlayer.play demo_player (Some 5) []
  = Ok (mkEnhancedAudioPlayer (Some [0.1; 0.2; 0.3; 0.4]) (Some 2%Z) false false 5 1 false,
        [] ++ [sd_stop])
  /\ Rotate.EnhancedAudioPlayer.play demo_player (Some 5) []
     = Ok (mkEnhancedAudioPlayer (Some [0.1; 0.2; 0.3; 0.4]) (Some 2%Z) true false 5 1 false,
           [] ++ [sd_stop; sd_play [] 2%Z]).
Proof.
  apply (play_past_the_end demo_player (Some 5) [] [0.1; 0.2; 0.3; 0.4] 2 10 2);
    try reflexivity. cbn. lia.
Defined.

(** X6.  A player that is playing, paused and then resumed.  [pause] stops
    sounddevice and moves [current_position] on by [stream time / speed]; a
    second [pause] does nothing; [resume] plays from the position [pause]
    left, when its sample index lies inside the data.  Both programs. *)
Theorem pause_then_resume {A : Type} `{PyFloat A}
  (player : EnhancedAudioPlayer A) (stream_time : A) (sd : sounddevice A)
  (data : list A) (rate start_sample samplerate : Z) (advance : A) :
  playing player = true -> paused player = false ->
  audio_data player = Some data -> sample_rate player = Some rate ->
  truediv stream_time (speed player) = Ok advance ->
  let position := (current_position player + advance)%py in
  int (position * float_of_int rate)%py = Ok start_sample ->
  (0 <= start_sample < Z.of_nat (length data))%Z ->
  int (float_of_int rate * speed player)%py = Ok samplerate ->
  let paused_player :=
    mkEnhancedAudioPlayer (Some data) (Some rate) true true position
      (speed player) (is_rewinding player) in
  let resumed_player :=
    mkEnhancedAudioPlayer (Some data) (Some rate) true false position
      (speed player) (is_rewinding player) in
  let calls := sd ++ [sd_stop] in
  Audio.EnhancedAudioPlayer.pause player (Some stream_time) sd
  = (paused_player, calls)
  /\ Rotate.EnhancedAudioPlayer.pause player stream_time sd
     = Ok (paused_player, calls)
  /\ Audio.EnhancedAudioPlayer.pause paused_player (Some stream_time) calls
     = (paused_player, calls)
  /\ Audio.EnhancedAudioPlayer.resume paused_player calls
     = Ok (resumed_player,
           calls ++ [sd_stop;
                     sd_play (skipn (Z.to_nat start_sample) data) samplerate])
  /\ Rotate.EnhancedAudioPlayer.resume paused_player calls
     = Ok (resumed_player,
           calls ++ [sd_stop;
                     sd_play (skipn (Z.to_nat start_sample) data) samplerate]).
Proof.
  intros Hpl Hpa Hdata Hrate Hdiv position Hstart Hin Hsr
    paused_player resumed_player calls.
  destruct player as [ad sr pl pa pos sp rw].
  cbn [audio_data sample_rate current_position speed is_rewinding playing paused] in *.
  subst ad sr pl pa.
  split; [| split; [| split]].
  - unfold Audio.EnhancedAudioPlayer.pause.
    cbn [playing paused negb andb speed current_position assign_current_position
         assign_paused audio_data sample_rate is_rewinding].
    rewrite Hdiv. reflexivity.
  - unfold Rotate.EnhancedAudioPlayer.pause.
    cbn [playing paused negb andb speed current_position].
    rewrite Hdiv. reflexivity.
  - reflexivity.
  - assert (Hlt : (start_sample <? Z.of_nat (length data))%Z = true)
      by (apply Z.ltb_lt; lia).
    unfold Audio.EnhancedAudioPlayer.resume, Rotate.EnhancedAudioPlayer.resume,
      Audio.EnhancedAudioPlayer.play, Rotate.EnhancedAudioPlayer.play,
      resumed_player, paused_player, calls, position in *.
    cbn [paused current_position audio_data sample_rate speed playing is_rewinding
         assign_current_position assign_playing assign_paused].
    rewrite Hstart. cbn [bind]. rewrite Hlt, Hsr. cbn [bind].
    rewrite slice_from_tail by lia. rewrite <- !app_assoc.
    split; reflexivity.
Qed.

Lemma pause_then_resume_witness :
  let paused_player :=
    mkEnhancedAudioPlayer (Some [0.1; 0.2; 0.3; 0.4]) (Some 2%Z) true true
      (0 + 1) 1 false in
  let resumed_player :=
    mkEnhancedAudioPlayer (Some [0.1; 0.2; 0.3; 0.4]) (Some 2%Z) true false
      (0 + 1) 1 false in
  let calls := [] ++ [sd_stop] in
  Audio.EnhancedAudioPlayer.pause playing_player (Some 1) []
  = (paused_player, calls)
  /\ Rotate.EnhancedAudioPlayer.pause playing_player 1 []
     = Ok (paused_player, calls)
  /\ Audio.EnhancedAudioPlayer.pause paused_player (Some 1) calls
     = (paused_player, calls)
  /\ Audio.EnhancedAudioPlayer.resume paused_player calls
     = Ok (resumed_player,
           calls ++ [sd_stop;
                     sd_play (skipn (Z.to_nat 2) [0.1; 0.2; 0.3; 0.4]) 2%Z])
  /\ Rotate.EnhancedAudioPlayer.resume paused_player calls
     = Ok (resumed_player,
           calls ++ [sd_stop;
                     sd_play (skipn (Z.to_nat 2) [0.1; 0.2; 0.3; 0.4]) 2%Z]).
Proof.
  assert (Hin : (0 <= 2 < Z.of_nat (length [0.1; 0.2; 0.3; 0.4]%Q))%Z)
    by (cbn; lia).
  exact (pause_then_resume playing_player 1 [] [0.1; 0.2; 0.3; 0.4] 2 2 2 1
           eq_refl eq_refl eq_refl eq_refl eq_refl eq_refl Hin eq_refl).
Defined.

(** X7.  [pause] at the edges.  On a player that is not playing, or is
    paused already, it does nothing in either program.  With a [speed] of 0
    rotate.py raises ZeroDivisionError, while audio.py swallows the error,
    stops sounddevice and marks the player [paused] at its old position; so
    does audio.py when sounddevice has no stream. *)
Theorem pause_at_the_edges {A : Type} `{PyFloat A}
  (player : EnhancedAudioPlayer A) (stream_time : A) (sd : sounddevice A) :
  (playing player && negb (paused player) = false ->
   forall stream,
     Audio.EnhancedAudioPlayer.pause player stream sd = (player, sd)
     /\ Rotate.EnhancedAudioPlayer.pause player stream_time sd = Ok (player, sd))
  /\ (playing player && negb (paused player) = true ->
      (speed player =? lit 0)%py = true ->
      Rotate.EnhancedAudioPlayer.pause player stream_time sd
      = Raise ZeroDivisionError
      /\ Audio.EnhancedAudioPlayer.pause player (Some stream_time) sd
         = (assign_paused true player, sd ++ [sd_stop]))
  /\ (playing player && negb (paused player) = true ->
      Audio.EnhancedAudioPlayer.pause player None sd
      = (assign_paused true player, sd ++ [sd_stop])).
Proof.
  unfold Audio.EnhancedAudioPlayer.pause, Rotate.EnhancedAudioPlayer.pause.
  split; [| split].
  - intros ->. intros stream. split; reflexivity.
  - intros -> Hz. unfold truediv. rewrite Hz. split; reflexivity.
  - intros ->. reflexivity.
Qed.

(** X8.  [set_position] with a file loaded at a positive sample rate: the
    position is clamped to [0, len(audio_data) / sample_rate]; a player that
    is playing restarts from there, any other only takes the position.  Both
    programs. *)
Theorem player_seek_clamps (player : EnhancedAudioPlayer Q) (position : Q)
  (sd : sounddevice Q) (data : list Q) (rate : Z) :
  audio_data player = Some data -> sample_rate player = Some rate ->
  (0 < rate)%Z ->
  let total := inject_Z (Z.of_nat (length data)) / inject_Z rate in
  exists p : Q,
    p == clamp position 0 total
    /\ Audio.EnhancedAudioPlayer.set_position player position sd
       = (if playing player && negb (paused player)
          then Audio.EnhancedAudioPlayer.play
                 (assign_current_position p player) (Some p) sd
          else Ok (assign_current_position p player, sd))
    /\ Rotate.EnhancedAudioPlayer.set_position player position sd
       = (if playing player && negb (paused player)
          then Rotate.EnhancedAudioPlayer.play
                 (assign_current_position p player) (Some p) sd
          else Ok (assign_current_position p player, sd)).
Proof.
  intros Hdata Hrate Hpos total.
  exists (Py.max (lit 0.0) (Py.min position total)).
  split.
  - apply max_min_clamp; [reflexivity |].
    unfold total. apply Qle_shift_div_l.
    + change 0 with (inject_Z 0). rewrite <- Zlt_Qlt. exact Hpos.
    + change 0 with (inject_Z 0) at 1.
      assert (E : inject_Z 0 * inject_Z rate == inject_Z 0) by ring.
      rewrite E. rewrite <- Zle_Qle. lia.
  - unfold Audio.EnhancedAudioPlayer.set_position,
      Rotate.EnhancedAudioPlayer.set_position.
    rewrite Hdata, Hrate. unfold int_truediv.
    assert (Hnz : (rate =? 0)%Z = false) by (apply Z.eqb_neq; lia).
    rewrite Hnz. cbn [bind].
    destruct player as [ad sr pl pa pos sp rw].
    cbn [assign_current_position playing paused current_position].
    split; reflexivity.
Qed.

Lemma player_seek_clamps_witness :
  exists p : Q,
    p == clamp 7 0 (inject_Z (Z.of_nat (length [0.1; 0.2; 0.3; 0.4])) / inject_Z 2)
    /\ Audio.EnhancedAudioPlayer.set_position demo_player 7 []
       = (if playing demo_player && negb (paused demo_player)
          then Audio.EnhancedAudioPlayer.play
                 (assign_current_position p demo_player) (Some p) []
          else Ok (assign_current_position p demo_player, []))
    /\ Rotate.EnhancedAudioPlayer.set_position demo_player 7 []
       = (if playing demo_player && negb (paused demo_player)
          then Rotate.EnhancedAudioPlayer.play
                 (assign_current_position p demo_player) (Some p) []
          else Ok (assign_current_position p demo_player, [])).
Proof.
  apply (player_seek_clamps demo_player 7 [] [0.1; 0.2; 0.3; 0.4] 2);
    try reflexivity.
Defined.

(** X9.  [set_position] without a file: rotate.py raises TypeError (it
    takes [len(None)]), audio.py does nothing.  With a file whose sample rate
    is 0 both raise ZeroDivisionError. *)
Theorem player_seek_without_audio {A : Type} `{PyFloat A}
  (player : EnhancedAudioPlayer A) (position : A) (sd : sounddevice A) :
  (audio_data player = None ->
   Rotate.EnhancedAudioPlayer.set_position player position sd = Raise TypeError
   /\ Audio.EnhancedAudioPlayer.set_position player position sd = Ok (player, sd))
  /\ (forall data, audio_data player = Some data -> sample_rate player = Some 0%Z ->
      Rotate.EnhancedAudioPlayer.set_position player position sd
      = Raise ZeroDivisionError
      /\ Audio.EnhancedAudioPlayer.set_position player position sd
         = Raise ZeroDivisionError).
Proof.
  unfold Rotate.EnhancedAudioPlayer.set_position,
    Audio.EnhancedAudioPlayer.set_position.
  split.
  - intros ->. split; reflexivity.
  - intros data -> ->. split; reflexivity.
Qed.

Example seek_without_audio :
  Rotate.EnhancedAudioPlayer.set_position (A := Q) Rotate.EnhancedAudioPlayer.init 3 []
  = Raise TypeError
  /\ Audio.EnhancedAudioPlayer.set_position (A := Q) Audio.EnhancedAudioPlayer.init 3 []
     = Ok (Audio.EnhancedAudioPlayer.init, []).
Proof. split; reflexivity. Qed.

Section Sync.
Import Rotate.Run.

Lemma Qeq_bool_same (x : Q) : Qeq_bool x x = true.
Proof. apply Qeq_bool_iff. reflexivity. Qed.

(** X10.  The audio sync of a pass of [AnimationThread.run] settles: when it
    has run without an exception and the flags of the thread stay as they
    are, the sync of a later pass neither changes the player nor calls
    sounddevice, whatever [progress_window.elapsed] and the stream time are
    then.  The audio is not restarted on every frame. *)
Theorem sync_audio_settles (self : Rotate.AnimationThread.t Q)
  (player player' : EnhancedAudioPlayer Q) (elapsed stream_time : Q)
  (sd sd' : sounddevice Q) (elapsed' stream_time' : Q) :
  sync_audio self player elapsed stream_time sd = Ok (player', sd') ->
  sync_audio self player' elapsed' stream_time' sd' = Ok (player', sd').
Proof.
  destruct self as [run file tp tr ts].
  destruct player as [ad sr pl pa pos sp rw].
  unfold sync_audio, Rotate.EnhancedAudioPlayer.pause,
    Rotate.EnhancedAudioPlayer.set_speed, Rotate.EnhancedAudioPlayer.play,
    Rotate.EnhancedAudioPlayer.start_rewind, Rotate.EnhancedAudioPlayer.stop_rewind,
    truediv.
  cbn [Rotate.AnimationThread.paused Rotate.AnimationThread.rewind_mode
       Rotate.AnimationThread.speed Rotate.AnimationThread.audio_file
       playing paused is_rewinding speed audio_data sample_rate current_position
       assign_current_position assign_paused assign_playing assign_player_speed
       assign_is_rewinding].
  change (@feqb Q PyFloat_Q) with Qeq_bool.
  change (@int Q PyFloat_Q) with (fun x : Q => @Ok Z (Qint x)).
  cbv beta.
  destruct tp, tr, pl, pa, rw, ad as [data |], sr as [rate |], file as [| ch file];
    cbn [negb andb orb bind playing paused is_rewinding speed audio_data
         sample_rate current_position assign_current_position assign_paused
         assign_playing assign_player_speed assign_is_rewinding];
    repeat match goal with
           | |- context [Qeq_bool ?a ?b] =>
               lazymatch a with
               | b => rewrite (Qeq_bool_same a)
               | _ => let E := fresh "E" in destruct (Qeq_bool a b) eqn:E
               end;
               cbn [negb andb orb bind playing paused is_rewinding speed
                    audio_data sample_rate current_position assign_current_position
                    assign_paused assign_playing assign_player_speed
                    assign_is_rewinding]
           end;
    try discriminate;
    intros [= <- <-];
    cbn [negb andb orb bind playing paused is_rewinding speed audio_data
         sample_rate current_position assign_current_position assign_paused
         assign_playing assign_player_speed assign_is_rewinding];
    rewrite ?Qeq_bool_same;
    repeat match goal with
           | E : Qeq_bool ?a ?b = _ |- context [Qeq_bool ?a ?b] => rewrite E
           end;
    try reflexivity.
Qed.

Lemma sync_audio_settles_witness :
  sync_audio playing_thread
    (mkEnhancedAudioPlayer (Some [0.1; 0.2; 0.3; 0.4]) (Some 2%Z) true false 1 1 false)
    1.016 0.016 [sd_stop; sd_play [0.3; 0.4] 2]
  = Ok (mkEnhancedAudioPlayer (Some [0.1; 0.2; 0.3; 0.4]) (Some 2%Z) true false 1 1 false,
        [sd_stop; sd_play [0.3; 0.4] 2]).
Proof.
  apply (sync_audio_settles playing_thread demo_player _ 1 0 [] _ 1.016 0.016).
  reflexivity.
Defined.

End Sync.

(** ** The control window of rotate.py *)

Lemma tick_invariant (v : transport) :
  transport_invariant v -> transport_invariant (tick v).
Proof.
  intros (H0 & H1 & Hs & Hr). unfold transport_invariant, tick.
  destruct (t_paused v) eqn:Ep; cbn [negb]; [rewrite Ep; auto |].
  destruct (t_rewind_mode v) eqn:Er.
  - destruct (Qltb _ _) eqn:E; [apply Qltb_lt in E | apply Qltb_ge in E];
      cbn [t_elapsed t_duration t_speed t_paused t_rewind_mode].
    + repeat split; try lra; auto; discriminate.
    + repeat split; try lra; auto.
  - destruct (Qltb _ _) eqn:E; [apply Qltb_lt in E | apply Qltb_ge in E];
      cbn [t_elapsed t_duration t_speed t_paused t_rewind_mode].
    + repeat split; try lra; auto; discriminate.
    + repeat split; auto; try discriminate; destruct Hs as [Hs | Hs]; rewrite Hs; lra.
Qed.

Section WindowRuns.
Import Rotate.ProgressWindow.

(** What [update_ui] does when the window is running and [duration] is not
    zero. *)
Lemma update_ui_facts (w : Rotate.ProgressWindow.t Q) :
  running w = true -> ~ duration w == 0 ->
  exists w',
    update_ui w = Ok (w', snd (update_progress w))
    /\ window_transport w' = tick (window_transport w)
    /\ running w' = true
    /\ duration w' = duration w
    /\ start_animation w' = start_animation w
    /\ slider_being_dragged w' = slider_being_dragged w
    /\ progress_slider w'
       = (if slider_being_dragged w then progress_slider w
          else slider_value (Qint (elapsed w' / duration w * 100)))
    /\ snd (update_progress w)
       = (if paused w' && negb (paused w)
          then [mkSignal (Some true)
                  (if rewind_mode w then Some false else None)
                  (Some (elapsed w')) None]
          else []).
Proof.
  intros Hrun Hdur.
  destruct w as [d e run p sp sa r drag sl].
  cbn [running duration] in Hrun, Hdur. subst run.
  unfold update_ui. cbn [running].
  assert (Hprog :
    let w1 := fst (update_progress (mk d e true p sp sa r drag sl)) in
    window_transport w1 = tick (window_transport (mk d e true p sp sa r drag sl))
    /\ running w1 = true /\ duration w1 = d /\ start_animation w1 = sa
    /\ slider_being_dragged w1 = drag /\ progress_slider w1 = sl
    /\ snd (update_progress (mk d e true p sp sa r drag sl))
       = (if paused w1 && negb p
          then [mkSignal (Some true) (if r then Some false else None)
                  (Some (elapsed w1)) None]
          else [])).
  { cbv [update_progress tick window_transport assign_elapsed assign_paused
         assign_rewind_mode
         duration elapsed running paused speed start_animation rewind_mode
         slider_being_dragged progress_slider
         t_elapsed t_duration t_paused t_rewind_mode t_speed
         lit fadd fsub fmul fltb PyFloat_Q].
    destruct p; cbn [negb fst snd andb]; [repeat split |].
    destruct r; destruct (Qltb _ _); cbn [fst snd andb negb]; repeat split. }
  cbv zeta in Hprog.
  destruct (update_progress _) as [w1 emitted]. cbn [fst snd] in Hprog |- *.
  destruct Hprog as (Ht & Hr & Hd & Hsa & Hdr & Hsl & Hem).
  destruct w1 as [d1 e1 run1 p1 sp1 sa1 r1 drag1 sl1].
  cbn [running duration start_animation slider_being_dragged progress_slider
       paused elapsed] in Hr, Hd, Hsa, Hdr, Hsl, Hem. subst.
  assert (Hdiv : truediv e1 d = Ok (e1 / d)).
  { unfold truediv. cbv [feqb lit PyFloat_Q fdiv].
    destruct (Qeq_bool d 0) eqn:E; [| reflexivity].
    apply Qeq_bool_iff in E. contradiction. }
  cbn [slider_being_dragged elapsed duration paused rewind_mode].
  destruct drag; cbn [negb bind].
  - eexists. split; [reflexivity |]. repeat split; try exact Ht.
  - rewrite Hdiv. cbn [bind]. eexists. split; [reflexivity |].
    repeat split; try exact Ht.
Qed.

Lemma slider_value_range (v : Z) : (0 <= slider_value v <= 100)%Z.
Proof. unfold slider_value. lia. Qed.

Lemma window_step_facts (d : Q) (w : Rotate.ProgressWindow.t Q)
  (e : window_event) (thread : Rotate.AnimationThread.t Q) :
  0 < d -> window_invariant d w -> mirrors thread w ->
  exists w' emitted,
    window_step w e = Ok (w', emitted)
    /\ window_invariant d w'
    /\ mirrors (deliver emitted thread) w'.
Proof.
  intros Hd (Hdur & Hrun & Hsl & Hinv) (Mp & Mr & Ms).
  destruct e; cbn [window_step].
  1: { (* update_ui *)
    destruct (update_ui_facts w) as (w' & E & Ht & Hr' & Hd' & _ & Hdr & Hs' & Hem);
      [exact Hrun | rewrite Hdur; lra |].
    exists w', (snd (update_progress w)). split; [exact E |].
    pose proof (tick_invariant _ Hinv) as Hinv'. rewrite <- Ht in Hinv'.
    split.
    + split; [congruence |]. split; [exact Hr' |]. split; [| exact Hinv'].
      rewrite Hs'. destruct (slider_being_dragged w);
        [exact Hsl | apply slider_value_range].
    + rewrite Hem.
      assert (Hp : paused w' = t_paused (tick (window_transport w)))
        by (rewrite <- Ht; reflexivity).
      assert (Hr : rewind_mode w' = t_rewind_mode (tick (window_transport w)))
        by (rewrite <- Ht; reflexivity).
      assert (Hsp : speed w' = t_speed (tick (window_transport w)))
        by (rewrite <- Ht; reflexivity).
      unfold mirrors. rewrite Hp, Hr, Hsp.
      destruct thread as [trun tfile tp tr ts].
      destruct w as [wd we wrun wp wsp wsa wr wdrag wsl].
      cbn [Rotate.AnimationThread.paused Rotate.AnimationThread.rewind_mode
           Rotate.AnimationThread.speed paused rewind_mode speed] in Mp, Mr, Ms.
      subst tp tr ts.
      unfold tick, window_transport, deliver.
      cbn [t_paused t_rewind_mode t_speed t_elapsed t_duration
           paused rewind_mode speed elapsed duration].
      destruct wp; cbn [negb andb fold_left]; [repeat split |].
      destruct wr; destruct (Qltb _ _);
        cbn [t_paused t_rewind_mode t_speed negb andb fold_left]; repeat split. }
  all: destruct thread as [trun tfile tp tr ts];
    destruct w as [wd we wrun wp wsp wsa wr wdrag wsl];
    destruct Hinv as (H0 & H1 & Hs & Hr);
    cbn [window_transport t_elapsed t_duration t_speed t_paused t_rewind_mode
         duration running progress_slider elapsed speed paused rewind_mode
         Rotate.AnimationThread.paused Rotate.AnimationThread.rewind_mode
         Rotate.AnimationThread.speed] in *;
    subst wd tp tr ts wrun;
    eexists _, _; (split; [reflexivity |]);
    unfold window_invariant, transport_invariant, window_transport, mirrors,
      deliver.
  - (* slider_pressed *)
    cbn [slider_pressed assign_slider_being_dragged
         duration running progress_slider elapsed speed paused rewind_mode
         t_elapsed t_duration t_speed t_paused t_rewind_mode fold_left
         Rotate.AnimationThread.paused Rotate.AnimationThread.rewind_mode
         Rotate.AnimationThread.speed].
    split; [| repeat split].
    split; [reflexivity |]. split; [reflexivity |]. split; [exact Hsl |].
    split; [assumption |]. split; [assumption |]. split; assumption.
  - (* slider moved *)
    pose proof (slider_value_range value) as Hv.
    unfold slider_changed, assign_progress_slider, assign_elapsed.
    cbn [slider_being_dragged duration elapsed running paused speed
         start_animation rewind_mode progress_slider].
    destruct wdrag;
      cbn [duration running progress_slider elapsed speed paused rewind_mode
           t_elapsed t_duration t_speed t_paused t_rewind_mode fold_left
           Rotate.AnimationThread.paused Rotate.AnimationThread.rewind_mode
           Rotate.AnimationThread.speed].
    + assert (Hq : 0 <= inject_Z (slider_value value)
                   /\ inject_Z (slider_value value) <= 100).
      { split; [change 0 with (inject_Z 0) | change 100 with (inject_Z 100)];
          rewrite <- Zle_Qle; lia. }
      unfold float_of_int. py_unfold.
      assert (E : inject_Z (slider_value value) / 100.0 * d
                  == inject_Z (slider_value value) * d * (1 # 100)) by field.
      split; [| repeat split].
      split; [reflexivity |]. split; [reflexivity |]. split; [exact Hv |].
      split; [rewrite E; nra |]. split; [rewrite E; nra |]. split; assumption.
    + split; [| repeat split].
      split; [reflexivity |]. split; [reflexivity |]. split; [exact Hv |].
      split; [assumption |]. split; [assumption |]. split; assumption.
  - (* slider_released *)
    unfold slider_released, assign_slider_being_dragged, assign_elapsed.
    cbn [duration running progress_slider elapsed speed paused rewind_mode
         start_animation slider_being_dragged fst snd fold_left
         t_elapsed t_duration t_speed t_paused t_rewind_mode
         Rotate.AnimationThread.handle_progress_signals
         sig_paused sig_rewind_mode sig_speed
         Rotate.AnimationThread.paused Rotate.AnimationThread.rewind_mode
         Rotate.AnimationThread.speed].
    assert (Hq : 0 <= inject_Z wsl /\ inject_Z wsl <= 100).
    { split; [change 0 with (inject_Z 0) | change 100 with (inject_Z 100)];
        rewrite <- Zle_Qle; lia. }
    unfold float_of_int. py_unfold.
    assert (E : inject_Z wsl / 100.0 * d == inject_Z wsl * d * (1 # 100)) by field.
    split; [| repeat split].
    split; [reflexivity |]. split; [reflexivity |]. split; [exact Hsl |].
    split; [rewrite E; nra |]. split; [rewrite E; nra |]. split; assumption.
  - (* toggle_play_pause *)
    destruct wp, wsa; cbn; repeat split; try assumption; try discriminate; lia.
  - (* toggle_rewind *)
    destruct wr, wsa; cbn; repeat split; try assumption; try discriminate; lia.
  - (* toggle_speed *)
    unfold toggle_speed. cbn [speed]. py_unfold.
    destruct (Qeq_bool wsp 1.0);
      cbn [assign_speed duration running progress_slider elapsed speed paused
           rewind_mode start_animation slider_being_dragged fst snd
           t_elapsed t_duration t_speed t_paused t_rewind_mode fold_left
           Rotate.AnimationThread.handle_progress_signals
           sig_paused sig_rewind_mode sig_speed
           Rotate.AnimationThread.paused Rotate.AnimationThread.rewind_mode
           Rotate.AnimationThread.speed Rotate.AnimationThread.running
           Rotate.AnimationThread.audio_file];
      (split; [| repeat split]);
      (split; [reflexivity |]); (split; [reflexivity |]);
      (split; [assumption |]); (split; [assumption |]);
      (split; [assumption |]); (split; [| assumption]);
      [right; reflexivity | left; reflexivity].
Qed.
End WindowRuns.

Lemma run_window_facts (d : Q) (events : list window_event)
  (w : Rotate.ProgressWindow.t Q) (thread : Rotate.AnimationThread.t Q) :
  0 < d -> window_invariant d w -> mirrors thread w ->
  exists w' signals,
    run_window events w = Ok (w', signals)
    /\ window_invariant d w'
    /\ mirrors (deliver signals thread) w'.
Proof.
  intros Hd. revert w thread.
  induction events as [| e rest IH]; intros w thread Hinv Hm.
  - exists w, []. split; [reflexivity |]. split; assumption.
  - destruct (window_step_facts d w e thread Hd Hinv Hm)
      as (w1 & emitted & E1 & Hinv1 & Hm1).
    destruct (IH w1 (deliver emitted thread) Hinv1 Hm1)
      as (w2 & later & E2 & Hinv2 & Hm2).
    exists w2, (emitted ++ later).
    cbn [run_window]. rewrite E1. cbn [bind]. rewrite E2. cbn [bind].
    split; [reflexivity |]. split; [exact Hinv2 |].
    unfold deliver in *. rewrite fold_left_app. exact Hm2.
Qed.

Lemma init_window_invariant (d : Q) :
  0 < d -> window_invariant d (Rotate.ProgressWindow.init d).
Proof.
  intros Hd. unfold window_invariant, transport_invariant. cbn.
  split; [reflexivity |]. split; [reflexivity |]. split; [lia |].
  split; [lra |]. split; [lra |]. split; [left; reflexivity | discriminate].
Qed.

Lemma init_mirrors (d : Q) (audio_file : String.string) :
  mirrors (Rotate.AnimationThread.init audio_file) (Rotate.ProgressWindow.init d).
Proof. repeat split. Qed.

(** X11.  The control window of rotate.py, made with a positive [duration]:
    no sequence of timer ticks, slider moves and button presses raises;
    [elapsed] stays within [0, duration], the slider within 0..100, the speed
    at 1 or 2, and [rewind_mode] never holds while [paused];
    [get_elapsed_normalized] returns [elapsed / duration] with no clamping
    left to do. *)
Theorem window_keeps_the_transport_in_range (d : Q)
  (events : list window_event) :
  0 < d ->
  exists w signals t,
    run_window events (Rotate.ProgressWindow.init d) = Ok (w, signals)
    /\ window_invariant d w
    /\ Rotate.ProgressWindow.get_elapsed_normalized w = Ok t
    /\ t == Rotate.ProgressWindow.elapsed w / d.
Proof.
  intros Hd.
  destruct (run_window_facts d events (Rotate.ProgressWindow.init d)
              (Rotate.AnimationThread.init String.EmptyString) Hd
              (init_window_invariant d Hd) (init_mirrors d _))
    as (w & signals & E & Hinv & _).
  pose proof Hinv as Hinv0.
  destruct Hinv as (Hdur & Hrun & Hsl & H0 & H1 & Hs & Hr).
  cbn [window_transport t_elapsed t_duration] in H0, H1.
  destruct (normalized_elapsed_clamped (Rotate.ProgressWindow.elapsed w)
              (Rotate.ProgressWindow.duration w)) as (t & Et & Ht);
    [rewrite Hdur; lra |].
  exists w, signals, t. split; [exact E |].
  split; [exact Hinv0 |].
  split; [exact Et |].
  rewrite Ht, Hdur in *. unfold clamp.
  assert (Hr0 : 0 <= Rotate.ProgressWindow.elapsed w / d)
    by (apply Qle_shift_div_l; lra).
  assert (Hr1 : Rotate.ProgressWindow.elapsed w / d <= 1)
    by (apply Qle_shift_div_r; lra).
  destruct (Qlt_le_dec _ 0); [lra |]. destruct (Qlt_le_dec 1 _); [lra | reflexivity].
Qed.

Lemma window_keeps_the_transport_in_range_witness :
  exists w signals t,
    run_window [TogglePlayPause; UpdateUi; ToggleSpeed; SliderPressed;
                SliderMoved 250; SliderReleased; ToggleRewind; UpdateUi]
      (Rotate.ProgressWindow.init 30) = Ok (w, signals)
    /\ window_invariant 30 w
    /\ Rotate.ProgressWindow.get_elapsed_normalized w = Ok t
    /\ t == Rotate.ProgressWindow.elapsed w / 30.
Proof.
  apply (window_keeps_the_transport_in_range 30
           [TogglePlayPause; UpdateUi; ToggleSpeed; SliderPressed;
            SliderMoved 250; SliderReleased; ToggleRewind; UpdateUi]).
  reflexivity.
Defined.

(** X12.  With every emitted signal delivered to [handle_progress_signals]
    in order, the [paused], [rewind_mode] and [speed] of the animation thread
    are those of the control window after any sequence of events, the
    automatic pause at either end of the transport included. *)
Theorem thread_mirrors_the_window (d : Q) (audio_file : String.string)
  (events : list window_event) :
  0 < d ->
  exists w signals,
    run_window events (Rotate.ProgressWindow.init d) = Ok (w, signals)
    /\ mirrors (deliver signals (Rotate.AnimationThread.init audio_file)) w.
Proof.
  intros Hd.
  destruct (run_window_facts d events (Rotate.ProgressWindow.init d)
              (Rotate.AnimationThread.init audio_file) Hd
              (init_window_invariant d Hd) (init_mirrors d _))
    as (w & signals & E & _ & Hm).
  exists w, signals. split; assumption.
Qed.

Lemma thread_mirrors_the_window_witness :
  exists w signals,
    run_window [TogglePlayPause; UpdateUi; ToggleSpeed; ToggleRewind; UpdateUi]
      (Rotate.ProgressWindow.init 30) = Ok (w, signals)
    /\ mirrors (deliver signals (Rotate.AnimationThread.init String.EmptyString)) w.
Proof.
  apply (thread_mirrors_the_window 30 String.EmptyString
           [TogglePlayPause; UpdateUi; ToggleSpeed; ToggleRewind; UpdateUi]).
  reflexivity.
Defined.

(** A run of the control window: play, a tick, double speed, the slider
    dragged past its end and released, rewind, a tick. *)
Example window_run :
  match run_window [TogglePlayPause; UpdateUi; ToggleSpeed; SliderPressed;
                    SliderMoved 250; SliderReleased; ToggleRewind; UpdateUi]
          (Rotate.ProgressWindow.init 30) with
  | Ok (w, signals) =>
      Qeq_bool (Rotate.ProgressWindow.elapsed w) (30 - 0.032)
      && Rotate.ProgressWindow.rewind_mode w
      && (Rotate.ProgressWindow.progress_slider w =? 99)%Z
      && (length signals =? 4)%nat
  | Raise _ => false
  end = true.
Proof. vm_compute. reflexivity. Qed.

(** [int(x)] of a number that is not negative is its floor. *)
Lemma Qint_floor (x : Q) :
  0 <= x -> inject_Z (Qint x) <= x /\ x < inject_Z (Qint x) + 1.
Proof.
  intros Hx.
  assert (E : Qint x = Qfloor x).
  { destruct x as [n d]. unfold Qint, Qfloor. cbn [Qnum Qden].
    apply Z.quot_div_nonneg; [| lia].
    unfold Qle in Hx. cbn in Hx. lia. }
  rewrite E. split; [apply Qfloor_le |].
  pose proof (Qlt_floor x) as L. rewrite inject_Z_plus in L. exact L.
Qed.

(** X13.  The slider round trip.  After [update_ui] with the slider not
    held, the slider shows the percentage of [elapsed] rounded down; releasing
    it there without having moved it sets [elapsed] back to that whole
    percentage, by less than one hundredth of [duration]. *)
Theorem slider_round_trip (d : Q) (w : Rotate.ProgressWindow.t Q) :
  0 < d -> window_invariant d w ->
  Rotate.ProgressWindow.slider_being_dragged w = false ->
  exists w1 emitted,
    Rotate.ProgressWindow.update_ui w = Ok (w1, emitted)
    /\ inject_Z (Rotate.ProgressWindow.progress_slider w1)
       <= Rotate.ProgressWindow.elapsed w1 / d * 100
    /\ Rotate.ProgressWindow.elapsed w1 / d * 100
       < inject_Z (Rotate.ProgressWindow.progress_slider w1) + 1
    /\ Rotate.ProgressWindow.elapsed
         (fst (Rotate.ProgressWindow.slider_released w1))
       <= Rotate.ProgressWindow.elapsed w1
    /\ Rotate.ProgressWindow.elapsed w1
       < Rotate.ProgressWindow.elapsed
           (fst (Rotate.ProgressWindow.slider_released w1)) + d / 100.
Proof.
  intros Hd Hinv Hdrag.
  pose proof Hinv as (Hdur & Hrun & Hsl & Ht).
  destruct (update_ui_facts w) as (w1 & E & Htick & Hr1 & Hd1 & _ & _ & Hs1 & _);
    [exact Hrun | rewrite Hdur; lra |].
  exists w1, (snd (Rotate.ProgressWindow.update_progress w)).
  split; [exact E |].
  pose proof (tick_invariant _ Ht) as Ht1. rewrite <- Htick in Ht1.
  destruct Ht1 as (H0 & H1 & _).
  cbn [window_transport t_elapsed t_duration] in H0, H1.
  rewrite Hdrag, Hdur in Hs1. rewrite Hd1, Hdur in H1.
  set (e1 := Rotate.ProgressWindow.elapsed w1) in *.
  assert (Hr0 : 0 <= e1 / d) by (apply Qle_shift_div_l; lra).
  assert (Hr1' : e1 / d <= 1) by (apply Qle_shift_div_r; lra).
  assert (Hp : 0 <= e1 / d * 100) by nra.
  destruct (Qint_floor (e1 / d * 100) Hp) as [F0 F1].
  assert (Hv : (0 <= Qint (e1 / d * 100) <= 100)%Z).
  { split.
    - apply Z.lt_succ_r. rewrite Zlt_Qlt.
      unfold Z.succ. rewrite inject_Z_plus. change (inject_Z 0) with 0.
      change (inject_Z 1) with 1. lra.
    - rewrite Zle_Qle. change (inject_Z 100) with 100. nra. }
  assert (Hsv : Rotate.ProgressWindow.progress_slider w1 = Qint (e1 / d * 100)).
  { rewrite Hs1. unfold slider_value. lia. }
  rewrite Hsv.
  split; [exact F0 |]. split; [exact F1 |].
  unfold Rotate.ProgressWindow.slider_released.
  cbn [fst Rotate.ProgressWindow.assign_elapsed Rotate.ProgressWindow.elapsed
       Rotate.ProgressWindow.assign_slider_being_dragged
       Rotate.ProgressWindow.progress_slider Rotate.ProgressWindow.duration].
  rewrite Hsv, Hd1, Hdur. unfold float_of_int. py_unfold.
  set (v := inject_Z (Qint (e1 / d * 100))) in *.
  assert (Ee : e1 == e1 / d * d) by (field; lra).
  assert (E1 : v / 100.0 * d == v * d * (1 # 100)) by field.
  assert (E2 : d / 100 == d * (1 # 100)) by field.
  rewrite E1, E2.
  assert (G0 : v * d <= e1 / d * 100 * d) by (apply Qmult_le_compat_r; lra).
  assert (G1 : e1 / d * 100 * d < (v + 1) * d) by (apply Qmult_lt_compat_r; lra).
  assert (E3 : e1 / d * 100 * d == 100 * e1) by (field; lra).
  split; lra.
Qed.

Lemma slider_round_trip_witness :
  let w := Rotate.ProgressWindow.assign_elapsed 12.5 (Rotate.ProgressWindow.init 30) in
  exists w1 emitted,
    Rotate.ProgressWindow.update_ui w = Ok (w1, emitted)
    /\ inject_Z (Rotate.ProgressWindow.progress_slider w1)
       <= Rotate.ProgressWindow.elapsed w1 / 30 * 100
    /\ Rotate.ProgressWindow.elapsed w1 / 30 * 100
       < inject_Z (Rotate.ProgressWindow.progress_slider w1) + 1
    /\ Rotate.ProgressWindow.elapsed
         (fst (Rotate.ProgressWindow.slider_released w1))
       <= Rotate.ProgressWindow.elapsed w1
    /\ Rotate.ProgressWindow.elapsed w1
       < Rotate.ProgressWindow.elapsed
           (fst (Rotate.ProgressWindow.slider_released w1)) + 30 / 100.
Proof.
  apply (slider_round_trip 30
           (Rotate.ProgressWindow.assign_elapsed 12.5 (Rotate.ProgressWindow.init 30)));
    [reflexivity | | reflexivity].
  unfold window_invariant, transport_invariant. cbn.
  split; [reflexivity |]. split; [reflexivity |]. split; [lia |].
  split; [discriminate |]. split; [discriminate |].
  split; [left; reflexivity | discriminate].
Defined.

(** At 12.5 s of 30 the slider shows 41, and a release there seeks to
    12.3 s. *)
Example slider_round_trip_example :
  let w := Rotate.ProgressWindow.assign_elapsed 12.5 (Rotate.ProgressWindow.init 30) in
  match Rotate.ProgressWindow.update_ui w with
  | Ok (w1, _) =>
      (Rotate.ProgressWindow.progress_slider w1 =? 41)%Z
      && Qeq_bool (Rotate.ProgressWindow.elapsed
                     (fst (Rotate.ProgressWindow.slider_released w1))) 12.3
  | Raise _ => false
  end = true.
Proof. vm_compute. reflexivity. Qed.

(** X14.  A control window whose [duration] is 0:
    [get_elapsed_normalized] raises ZeroDivisionError, and so does every
    [update_ui] of the running window unless the slider is held, in which
    case only the transport is updated; releasing the slider sets [elapsed]
    to 0. *)
Theorem zero_duration_raises (w : Rotate.ProgressWindow.t Q) :
  Rotate.ProgressWindow.duration w == 0 ->
  Rotate.ProgressWindow.get_elapsed_normalized w = Raise ZeroDivisionError
  /\ (Rotate.ProgressWindow.running w = true ->
      Rotate.ProgressWindow.update_ui w
      = (if Rotate.ProgressWindow.slider_being_dragged w
         then Ok (Rotate.ProgressWindow.update_progress w)
         else Raise ZeroDivisionError))
  /\ Rotate.ProgressWindow.elapsed
       (fst (Rotate.ProgressWindow.slider_released w)) == 0.
Proof.
  intros Hd.
  assert (Hz : Qeq_bool (Rotate.ProgressWindow.duration w) 0 = true)
    by (apply Qeq_bool_iff; exact Hd).
  split; [| split].
  - unfold Rotate.ProgressWindow.get_elapsed_normalized, truediv.
    change (feqb (Rotate.ProgressWindow.duration w) (lit 0))
      with (Qeq_bool (Rotate.ProgressWindow.duration w) 0).
    rewrite Hz. reflexivity.
  - intros Hrun. unfold Rotate.ProgressWindow.update_ui. rewrite Hrun.
    destruct w as [d e run p sp sa r drag sl].
    cbn [Rotate.ProgressWindow.duration Rotate.ProgressWindow.slider_being_dragged] in *.
    unfold Rotate.ProgressWindow.update_progress, truediv.
    change (@feqb Q PyFloat_Q) with Qeq_bool.
    change (@fltb Q PyFloat_Q) with Qltb.
    change (@lit Q PyFloat_Q 0) with 0.
    cbn [Rotate.ProgressWindow.paused Rotate.ProgressWindow.rewind_mode
         Rotate.ProgressWindow.elapsed Rotate.ProgressWindow.duration
         Rotate.ProgressWindow.speed Rotate.ProgressWindow.assign_elapsed
         Rotate.ProgressWindow.assign_paused Rotate.ProgressWindow.assign_rewind_mode].
    destruct p; cbn [negb];
      [| destruct r;
         match goal with |- context [Qltb ?a ?b] => destruct (Qltb a b) end];
      cbn [Rotate.ProgressWindow.slider_being_dragged Rotate.ProgressWindow.duration
           Rotate.ProgressWindow.elapsed Rotate.ProgressWindow.paused
           Rotate.ProgressWindow.rewind_mode Rotate.ProgressWindow.speed
           Rotate.ProgressWindow.assign_elapsed Rotate.ProgressWindow.assign_paused
           Rotate.ProgressWindow.assign_rewind_mode];
      destruct drag; cbn [negb bind]; rewrite ?Hz; reflexivity.
  - unfold Rotate.ProgressWindow.slider_released.
    cbn [fst Rotate.ProgressWindow.elapsed Rotate.ProgressWindow.assign_elapsed
         Rotate.ProgressWindow.assign_slider_being_dragged
         Rotate.ProgressWindow.duration Rotate.ProgressWindow.progress_slider].
    py_unfold. rewrite Hd. ring.
Qed.

Lemma zero_duration_raises_witness :
  Rotate.ProgressWindow.get_elapsed_normalized (Rotate.ProgressWindow.init 0)
  = Raise ZeroDivisionError
  /\ (Rotate.ProgressWindow.running (Rotate.ProgressWindow.init 0) = true ->
      Rotate.ProgressWindow.update_ui (Rotate.ProgressWindow.init 0)
      = (if Rotate.ProgressWindow.slider_being_dragged (Rotate.ProgressWindow.init 0)
         then Ok (Rotate.ProgressWindow.update_progress (Rotate.ProgressWindow.init 0))
         else Raise ZeroDivisionError))
  /\ Rotate.ProgressWindow.elapsed
       (fst (Rotate.ProgressWindow.slider_released (Rotate.ProgressWindow.init 0)))
     == 0.
Proof. apply (zero_duration_raises (Rotate.ProgressWindow.init 0)). reflexivity. Defined.

(** ** The main window of audio.py *)

Section MainRuns.
Import Audio.MorphOpenGLWidget.

Lemma update_animation_closed_form (w : Audio.MorphOpenGLWidget.t Q) (now : Q) :
  update_animation w now
  = mk (let c := Audio.RotationController.update (controller w)
                   (now - last_time w) in
        if negb (auto_rotation c)
           && Audio.RotationController.should_resume_auto_rotation c
        then Audio.RotationController.resume_auto_rotation c else c)
      now
      (t_elapsed (tick (widget_transport w)))
      (duration w)
      (t_paused (tick (widget_transport w)))
      (t_rewind_mode (tick (widget_transport w)))
      (speed w) (cube_vertices w) (sphere_vertices w) (edges w)
      (subdivisions w).
Proof.
  destruct w as [c lt e d p r sp cv sv es sub].
  unfold update_animation. cbv zeta.
  cbn [controller last_time assign_last_time assign_controller].
  py_unfold.
  set (c1 := Audio.RotationController.update c (now - lt)).
  match goal with
  | |- context [if ?b then assign_controller ?x ?y else ?z] => destruct b
  end;
  cbv [tick widget_transport assign_controller assign_last_time
       assign_elapsed assign_paused assign_rewind_mode
       controller last_time elapsed duration paused rewind_mode speed
       cube_vertices sphere_vertices edges subdivisions
       t_elapsed t_duration t_paused t_rewind_mode t_speed];
  destruct p; cbn [negb]; try reflexivity;
  destruct r; destruct (Qltb _ _); reflexivity.
Qed.



End MainRuns.


(** A run of the main window without audio. *)
Example main_window_run :
  match run_main [Control TogglePlayPause None; Animate 1; Control ToggleSpeed None;
                  Animate 2; Control UpdateUi None; Control SliderPressed None;
                  Control (SliderMoved 50) None; Control SliderReleased None;
                  Control ToggleRewind None; Animate 3]
          (Audio.MainWindow.init 0 0, []) with
  | Ok (m, sd) =>
      Qeq_bool (Audio.MorphOpenGLWidget.elapsed (Audio.MainWindow.gl_widget m))
        (15 - 0.032)
      && Audio.MorphOpenGLWidget.rewind_mode (Audio.MainWindow.gl_widget m)
      && Qeq_bool (speed (Audio.MainWindow.audio_player m)) 2
      && (length sd =? 0)%nat
  | Raise _ => false
  end = true.
Proof. vm_compute. reflexivity. Qed.

Lemma Qint_nonneg (x : Q) : 0 <= x -> (0 <= Qint x)%Z.
Proof.
  intros Hx. destruct x as [n d]. unfold Qint. cbn [Qnum Qden].
  apply Z.quot_pos; [| lia]. unfold Qle in Hx. cbn in Hx. lia.
Qed.

(** X16.  Pressing Play in the main window of audio.py while the animation
    is paused and the loaded player is not sounding: the player is sought to
    the [elapsed] of the animation, clamped to the length of the audio; when
    the sample index of that position lies inside the data the audio plays
    from there and the player is [playing], otherwise sounddevice is only
    stopped and the player only takes the position.  The widget is unpaused
    in both cases. *)
Theorem pressing_play_starts_the_audio (m : Audio.MainWindow.t Q)
  (stream : option Q) (sd : sounddevice Q) (data : list Q) (rate : Z) :
  Audio.MorphOpenGLWidget.paused (Audio.MainWindow.gl_widget m) = true ->
  audio_data (Audio.MainWindow.audio_player m) = Some data ->
  sample_rate (Audio.MainWindow.audio_player m) = Some rate ->
  (0 < rate)%Z ->
  playing (Audio.MainWindow.audio_player m)
  && negb (paused (Audio.MainWindow.audio_player m)) = false ->
  exists p : Q,
    p == clamp (Audio.MorphOpenGLWidget.elapsed (Audio.MainWindow.gl_widget m)) 0
           (inject_Z (Z.of_nat (length data)) / inject_Z rate)
    /\ Audio.MainWindow.toggle_play_pause m stream sd
       = Ok (Audio.MainWindow.mk
               (if (Qint (p * inject_Z rate) <? Z.of_nat (length data))%Z
                then mkEnhancedAudioPlayer (Some data) (Some rate) true false p
                       (speed (Audio.MainWindow.audio_player m))
                       (is_rewinding (Audio.MainWindow.audio_player m))
                else assign_current_position p (Audio.MainWindow.audio_player m))
               (Audio.MorphOpenGLWidget.assign_rewind_mode false
                  (Audio.MorphOpenGLWidget.toggle_play_pause
                     (Audio.MainWindow.gl_widget m)))
               (Audio.MainWindow.slider_being_dragged m)
               (Audio.MainWindow.progress_slider m),
             if (Qint (p * inject_Z rate) <? Z.of_nat (length data))%Z
             then sd ++ [sd_stop;
                         sd_play (skipn (Z.to_nat (Qint (p * inject_Z rate))) data)
                           (Qint (inject_Z rate
                                  * speed (Audio.MainWindow.audio_player m)))]
             else sd ++ [sd_stop]).
Proof.
  intros Hp Hdata Hrate Hpos Hidle.
  destruct m as [pl w drag sl].
  cbn [Audio.MainWindow.gl_widget Audio.MainWindow.audio_player
       Audio.MainWindow.slider_being_dragged Audio.MainWindow.progress_slider] in *.
  set (total := inject_Z (Z.of_nat (length data)) / inject_Z rate).
  assert (Htot : 0 <= total).
  { unfold total. apply Qle_shift_div_l.
    - change 0 with (inject_Z 0). rewrite <- Zlt_Qlt. exact Hpos.
    - change 0 with (inject_Z 0) at 1.
      assert (E : inject_Z 0 * inject_Z rate == inject_Z 0) by ring.
      rewrite E. rewrite <- Zle_Qle. lia. }
  set (p := Py.max (lit 0.0) (Py.min (Audio.MorphOpenGLWidget.elapsed w) total)).
  assert (Hclamp : p == clamp (Audio.MorphOpenGLWidget.elapsed w) 0 total)
    by (apply max_min_clamp; [reflexivity | exact Htot]).
  assert (Hp0 : 0 <= p).
  { rewrite Hclamp. unfold clamp.
    destruct (Qlt_le_dec _ 0); [lra |]. destruct (Qlt_le_dec total _); lra. }
  assert (Hstart : (0 <= Qint (p * inject_Z rate))%Z).
  { apply Qint_nonneg. apply Qmult_le_0_compat; [exact Hp0 |].
    change 0 with (inject_Z 0). rewrite <- Zle_Qle. lia. }
  exists p. split; [exact Hclamp |].
  unfold Audio.MainWindow.toggle_play_pause.
  destruct w as [c lt el d wp wr wsp cv sv es sub].
  cbn [Audio.MorphOpenGLWidget.paused] in Hp. subst wp.
  cbn [Audio.MainWindow.gl_widget Audio.MainWindow.audio_player
       Audio.MainWindow.slider_being_dragged Audio.MainWindow.progress_slider
       Audio.MorphOpenGLWidget.toggle_play_pause
       Audio.MorphOpenGLWidget.assign_rewind_mode
       Audio.MorphOpenGLWidget.assign_paused
       Audio.MorphOpenGLWidget.paused Audio.MorphOpenGLWidget.elapsed
       Audio.MorphOpenGLWidget.rewind_mode negb].
  cbn [Audio.MorphOpenGLWidget.elapsed] in p, Hclamp.
  destruct pl as [ad sr ply pa pos sp rw].
  cbn [audio_data sample_rate playing paused speed is_rewinding] in *.
  subst ad sr.
  unfold Audio.EnhancedAudioPlayer.set_position, int_truediv.
  cbn [audio_data sample_rate].
  assert (Hnz : (rate =? 0)%Z = false) by (apply Z.eqb_neq; lia).
  rewrite Hnz. cbn [bind assign_current_position playing paused].
  rewrite Hidle. cbn [bind].
  change (Py.max (lit 0.0)
            (Py.min el (float_of_int (Z.of_nat (length data)) / float_of_int rate)%py))
    with p.
  cbv [assign_current_position audio_data sample_rate playing paused
       current_position speed is_rewinding].
  assert (Hplay : forall from_pos,
            from_pos = None \/ from_pos = Some p ->
            Audio.EnhancedAudioPlayer.play
              (mkEnhancedAudioPlayer (Some data) (Some rate) ply pa p sp rw)
              from_pos sd
            = if (Qint (p * inject_Z rate) <? Z.of_nat (length data))%Z
              then Ok (mkEnhancedAudioPlayer (Some data) (Some rate) true false p sp rw,
                       sd ++ [sd_stop;
                              sd_play (skipn (Z.to_nat (Qint (p * inject_Z rate))) data)
                                (Qint (inject_Z rate * sp))])
              else Ok (mkEnhancedAudioPlayer (Some data) (Some rate) ply pa p sp rw,
                       sd ++ [sd_stop])).
  { intros from_pos Hfrom. unfold Audio.EnhancedAudioPlayer.play.
    cbn [audio_data].
    assert (Hsame : match from_pos with
                    | Some q => assign_current_position q
                                  (mkEnhancedAudioPlayer (Some data) (Some rate)
                                     ply pa p sp rw)
                    | None => mkEnhancedAudioPlayer (Some data) (Some rate)
                                ply pa p sp rw
                    end
                    = mkEnhancedAudioPlayer (Some data) (Some rate) ply pa p sp rw)
      by (destruct Hfrom as [-> | ->]; reflexivity).
    rewrite Hsame.
    cbn [sample_rate current_position speed audio_data playing paused is_rewinding
         assign_playing assign_paused].
    change (int (p * float_of_int rate)%py) with (@Ok Z (Qint (p * inject_Z rate))).
    cbn [bind].
    destruct (Qint (p * inject_Z rate) <? Z.of_nat (length data))%Z; [| reflexivity].
    change (int (float_of_int rate * sp)%py) with (@Ok Z (Qint (inject_Z rate * sp))).
    cbn [bind]. rewrite slice_from_tail by exact Hstart.
    rewrite <- app_assoc. reflexivity. }
  unfold Audio.EnhancedAudioPlayer.resume.
  cbn [paused current_position].
  destruct pa; cbv iota.
  - rewrite (Hplay (Some p)) by (right; reflexivity).
    destruct (Qint (p * inject_Z rate) <? Z.of_nat (length data))%Z; reflexivity.
  - rewrite (Hplay None) by (left; reflexivity).
    destruct (Qint (p * inject_Z rate) <? Z.of_nat (length data))%Z; reflexivity.
Qed.

Lemma pressing_play_starts_the_audio_witness :
  exists p : Q,
    p == clamp (Audio.MorphOpenGLWidget.elapsed (Audio.MainWindow.gl_widget loaded_window))
           0 (inject_Z (Z.of_nat (length [0.1; 0.2; 0.3; 0.4])) / inject_Z 2)
    /\ Audio.MainWindow.toggle_play_pause loaded_window None []
       = Ok (Audio.MainWindow.mk
               (if (Qint (p * inject_Z 2) <? Z.of_nat (length [0.1; 0.2; 0.3; 0.4]%Q))%Z
                then mkEnhancedAudioPlayer (Some [0.1; 0.2; 0.3; 0.4]) (Some 2%Z)
                       true false p
                       (speed (Audio.MainWindow.audio_player loaded_window))
                       (is_rewinding (Audio.MainWindow.audio_player loaded_window))
                else assign_current_position p
                       (Audio.MainWindow.audio_player loaded_window))
               (Audio.MorphOpenGLWidget.assign_rewind_mode false
                  (Audio.MorphOpenGLWidget.toggle_play_pause
                     (Audio.MainWindow.gl_widget loaded_window)))
               (Audio.MainWindow.slider_being_dragged loaded_window)
               (Audio.MainWindow.progress_slider loaded_window),
             if (Qint (p * inject_Z 2) <? Z.of_nat (length [0.1; 0.2; 0.3; 0.4]%Q))%Z
             then [] ++ [sd_stop;
                         sd_play (skipn (Z.to_nat (Qint (p * inject_Z 2)))
                                    [0.1; 0.2; 0.3; 0.4])
                           (Qint (inject_Z 2
                                  * speed (Audio.MainWindow.audio_player loaded_window)))]
             else [] ++ [sd_stop]).
Proof.
  apply (pressing_play_starts_the_audio loaded_window None [] [0.1; 0.2; 0.3; 0.4] 2);
    reflexivity.
Defined.

(** One second into the animation, four samples at two a second: the last
    two are played. *)
Example pressing_play :
  Audio.MainWindow.toggle_play_pause loaded_window None []
  = Ok (Audio.MainWindow.mk
          (mkEnhancedAudioPlayer (Some [0.1; 0.2; 0.3; 0.4]) (Some 2%Z) true false
             1 1 false)
          (Audio.MorphOpenGLWidget.assign_paused false
             (Audio.MorphOpenGLWidget.assign_elapsed 1
                (Audio.MorphOpenGLWidget.init 0 0)))
          false 0,
        [sd_stop; sd_play [0.3; 0.4] 2]).
Proof. reflexivity. Qed.

(** ** The Space key *)

Section SpaceKey.
Import Audio.MorphOpenGLWidget.

Lemma fading_out_kept (w : t Q) (now : Q) :
  fading_out (controller w) ->
  fading_out (controller (update_animation w now))
  /\ current (transition (controller (update_animation w now)))
     <= current (transition (controller w)).
Proof.
  intros (Ha & H0 & H1 & Ht & Hs).
  rewrite (update_animation_closed_form w now). cbn [controller]. cbv zeta.
  destruct (@controller_agrees Q _) as (_ & Hu & _ & _ & Hsh & _).
  rewrite <- Hu, <- Hsh.
  destruct (update_keeps (controller w) (now - last_time w)) as (Etr & Eau & _).
  set (c1 := Rotate.RotationController.update (controller w) (now - last_time w)) in *.
  assert (Hcur : current (transition c1) <= 0.95 /\ 0 <= current (transition c1)
                 /\ current (transition c1) <= current (transition (controller w))).
  { rewrite Etr. cbn [Rotate.SmoothValue.update current]. py_unfold.
    split; [| split]; nra. }
  assert (Hno : Rotate.RotationController.should_resume_auto_rotation c1 = false).
  { unfold Rotate.RotationController.should_resume_auto_rotation,
      Rotate.SmoothValue.get. py_unfold.
    assert (E : Qltb 0.95 (current (transition c1)) = false)
      by (apply Qltb_ge; lra).
    rewrite E. apply andb_false_r. }
  rewrite Hno, andb_false_r.
  split; [| apply Hcur].
  unfold fading_out. rewrite Eau, Etr.
  cbn [Rotate.SmoothValue.update current target smoothing].
  rewrite Etr in Hcur. cbn [Rotate.SmoothValue.update current] in Hcur.
  split; [exact Ha |]. split; [apply Hcur |]. split; [lra |]. split; assumption.
Qed.

Lemma fading_out_of_run (clock : list Q) (w : t Q) :
  fading_out (controller w) ->
  fading_out (controller (run_animation clock w))
  /\ current (transition (controller (run_animation clock w)))
     <= current (transition (controller w)).
Proof.
  unfold run_animation. revert w.
  induction clock as [| now rest IH]; intros w Hw.
  - split; [exact Hw | apply Qle_refl].
  - rewrite fold_left_step.
    destruct (fading_out_kept w now Hw) as [Hk Hle].
    destruct (IH _ Hk) as [Hr Hle'].
    split; [exact Hr |].
    revert Hle Hle'.
    generalize (current (transition (controller
                  (fold_left update_animation rest (update_animation w now))))).
    generalize (current (transition (controller (update_animation w now)))).
    intros a b Ha Hb. lra.
Qed.

(** X17.  In audio.py the Space key, pressed while the auto-rotation is on,
    turns it off for good as far as the timer is concerned: after any number
    of [update_animation] ticks [auto_rotation] is still off, the fade heads
    for 0, and it is never above its value at the key press. *)
Theorem space_turns_auto_rotation_off (w : t Q) (clock : list Q) :
  fade_follows_flag (controller w) -> auto_rotation (controller w) = true ->
  auto_rotation
    (controller (run_animation clock (fst (keyPressEvent w Key_Space)))) = false
  /\ target (transition
               (controller (run_animation clock (fst (keyPressEvent w Key_Space)))))
     == 0
  /\ 0 <= current (transition
                     (controller
                        (run_animation clock (fst (keyPressEvent w Key_Space)))))
  /\ current (transition
                (controller (run_animation clock (fst (keyPressEvent w Key_Space)))))
     <= current (transition (controller w)).
Proof.
  intros (H0 & H1 & Ht & Hs & _) Hauto.
  assert (Hstart : fading_out (controller (fst (keyPressEvent w Key_Space)))
                   /\ current (transition
                                 (controller (fst (keyPressEvent w Key_Space))))
                      = current (transition (controller w))).
  { cbn [keyPressEvent fst]. rewrite Hauto.
    destruct w as [c lt el d p r sp cv sv es sub].
    cbn [controller assign_controller] in *.
    split; [| reflexivity].
    unfold fading_out. cbn. repeat split; try assumption; reflexivity. }
  destruct Hstart as [Hstart Ecur].
  destruct (fading_out_of_run clock _ Hstart) as ((A & B & C & D & _) & Hle).
  rewrite Ecur in Hle.
  split; [exact A |]. split; [exact D |]. split; [exact B | exact Hle].
Qed.

Lemma space_turns_auto_rotation_off_witness :
  auto_rotation
    (controller (run_animation [1; 2; 3]
                   (fst (keyPressEvent (init 0 0) Key_Space)))) = false
  /\ target (transition
               (controller (run_animation [1; 2; 3]
                              (fst (keyPressEvent (init 0 0) Key_Space)))))
     == 0
  /\ 0 <= current (transition
                     (controller
                        (run_animation [1; 2; 3]
                           (fst (keyPressEvent (init 0 0) Key_Space)))))
  /\ current (transition
                (controller (run_animation [1; 2; 3]
                               (fst (keyPressEvent (init 0 0) Key_Space)))))
     <= current (transition (controller (init 0 0))).
Proof.
  apply (space_turns_auto_rotation_off (init 0 0) [1; 2; 3]).
  - unfold fade_follows_flag. cbn. repeat split; try reflexivity; lra.
  - reflexivity.
Defined.
End SpaceKey.

Section Frame.
Import Rotate.Run.

(** One pass with a single Space key, from the controller [c1] that
    [controller.update] leaves. *)
Lemma pass_with_space (self : Rotate.AnimationThread.t Q) (l : locals Q) (now : Q)
  (progress_window : Rotate.ProgressWindow.t Q) (stream_time : Q)
  (sd sd' : sounddevice Q) (player' : EnhancedAudioPlayer Q) (t : Q)
  (c1 : RotationController Q) :
  c1 = Rotate.RotationController.update (controller l) (fsub now (last_time l)) ->
  auto_rotation c1 = true ->
  Qabs (momentum_x c1) < 0.3 -> Qabs (momentum_y c1) < 0.3 ->
  0.95 < current (transition c1) ->
  sync_audio self (audio_player l)
    (Rotate.ProgressWindow.elapsed progress_window) stream_time sd
  = Ok (player', sd') ->
  Rotate.ProgressWindow.get_elapsed_normalized progress_window = Ok t ->
  frame self l now [KEYDOWN K_SPACE] progress_window stream_time sd
  = Ok (Continue
          (mkLocals
             (Rotate.RotationController.resume_auto_rotation
                (Rotate.RotationController.start_orbit c1))
             (last_mouse_pos l) player' now
             (animation_completed l || Qle_bool 1.0 t), sd')).
Proof.
  intros Hc1 Hauto Hmx Hmy Hfade Hsync Ht.
  unfold frame. cbv zeta. rewrite <- Hc1. clear Hc1.
  cbn [handle_events handle_event]. rewrite Hauto. cbv iota.
  assert (Hs2 : Rotate.RotationController.should_resume_auto_rotation
                  (Rotate.RotationController.start_orbit c1) = true).
  { unfold Rotate.RotationController.should_resume_auto_rotation,
      Rotate.SmoothValue.get.
    change (momentum_x (Rotate.RotationController.start_orbit c1))
      with (momentum_x c1).
    change (momentum_y (Rotate.RotationController.start_orbit c1))
      with (momentum_y c1).
    change (current (transition (Rotate.RotationController.start_orbit c1)))
      with (current (transition c1)).
    py_unfold.
    assert (E1 : Qltb (Qabs (momentum_x c1)) 0.3 = true) by (apply Qltb_lt; lra).
    assert (E2 : Qltb (Qabs (momentum_y c1)) 0.3 = true) by (apply Qltb_lt; lra).
    assert (E3 : Qltb 0.95 (current (transition c1)) = true)
      by (apply Qltb_lt; lra).
    rewrite E1, E2, E3. reflexivity. }
  rewrite Hsync. cbn [bind]. rewrite Ht. cbn [bind].
  rewrite Hs2.
  change (auto_rotation (Rotate.RotationController.start_orbit c1)) with false.
  cbn [negb andb].
  change (auto_rotation (Rotate.RotationController.resume_auto_rotation
                           (Rotate.RotationController.start_orbit c1)))
    with true.
  cbn [negb].
  change (fleb (lit 1.0) t) with (Qle_bool 1.0 t).
  destruct (Qle_bool 1.0 t), (animation_completed l); reflexivity.
Qed.

Lemma resume_after_start (c : RotationController Q) :
  auto_rotation (Rotate.RotationController.resume_auto_rotation
                   (Rotate.RotationController.start_orbit c)) = true
  /\ target (transition (Rotate.RotationController.resume_auto_rotation
                            (Rotate.RotationController.start_orbit c))) = 1.0
  /\ current (transition (Rotate.RotationController.resume_auto_rotation
                             (Rotate.RotationController.start_orbit c)))
     = current (transition c).
Proof. repeat split. Qed.

(** X18.  In rotate.py the same key is undone within the pass that reads
    it.  With the auto-rotation on, its fade above 0.95 and both momenta
    below 0.3, a pass whose only event is the Space key ends with
    [auto_rotation] on again and the fade heading for 1: [start_orbit] is
    followed by the test of [should_resume_auto_rotation] before the fade has
    moved. *)
Theorem space_is_undone_within_the_pass
  (self : Rotate.AnimationThread.t Q) (l : locals Q) (now : Q)
  (progress_window : Rotate.ProgressWindow.t Q) (stream_time : Q)
  (sd sd' : sounddevice Q) (player' : EnhancedAudioPlayer Q) (t : Q) :
  fade_follows_flag (controller l) ->
  auto_rotation (controller l) = true ->
  0.95 < current (transition (controller l)) ->
  Qabs (momentum_x (controller l)) < 0.3 ->
  Qabs (momentum_y (controller l)) < 0.3 ->
  sync_audio self (audio_player l)
    (Rotate.ProgressWindow.elapsed progress_window) stream_time sd
  = Ok (player', sd') ->
  Rotate.ProgressWindow.get_elapsed_normalized progress_window = Ok t ->
  exists c',
    frame self l now [KEYDOWN K_SPACE] progress_window stream_time sd
    = Ok (Continue
            (mkLocals c' (last_mouse_pos l) player' now
               (animation_completed l || Qle_bool 1.0 t), sd'))
    /\ auto_rotation c' = true
    /\ target (transition c') = 1.0
    /\ current (transition c')
       = current (Rotate.SmoothValue.update (transition (controller l))).
Proof.
  intros (F0 & F1 & Ft & Fs & Fd & _) Hauto Hfade Hmx Hmy Hsync Ht.
  rewrite Hauto in Ft.
  destruct (update_keeps (controller l) (fsub now (last_time l)))
    as (Etr & Eau & _).
  destruct (update_momentum_facts (controller l) (fsub now (last_time l)))
    as ((Mx & My) & _); [lra | lra |].
  remember (Rotate.RotationController.update (controller l)
              (fsub now (last_time l))) as c1 eqn:Hc1.
  assert (Hf1 : 0.95 < current (transition c1)).
  { rewrite Etr. cbn [Rotate.SmoothValue.update current]. py_unfold. nra. }
  exists (Rotate.RotationController.resume_auto_rotation
            (Rotate.RotationController.start_orbit c1)).
  split.
  - apply pass_with_space; try assumption; try lra. congruence.
  - destruct (resume_after_start c1) as (A & B & C).
    split; [exact A |]. split; [exact B |]. rewrite C, Etr. reflexivity.
Qed.

Lemma space_is_undone_within_the_pass_witness :
  exists c',
    frame (Rotate.AnimationThread.init String.EmptyString) first_pass 1
      [KEYDOWN K_SPACE] (Rotate.ProgressWindow.init 30) 0 []
    = Ok (Continue
            (mkLocals c' (last_mouse_pos first_pass) Rotate.EnhancedAudioPlayer.init 1
               (animation_completed first_pass || Qle_bool 1.0 0.0), []))
    /\ auto_rotation c' = true
    /\ target (transition c') = 1.0
    /\ current (transition c')
       = current (Rotate.SmoothValue.update (transition (controller first_pass))).
Proof.
  apply (space_is_undone_within_the_pass
           (Rotate.AnimationThread.init String.EmptyString) first_pass 1
           (Rotate.ProgressWindow.init 30) 0 [] []
           Rotate.EnhancedAudioPlayer.init 0.0).
  - unfold fade_follows_flag. cbn. repeat split; try reflexivity; lra.
  - reflexivity.
  - reflexivity.
  - reflexivity.
  - reflexivity.
  - reflexivity.
  - reflexivity.
Defined.

End Frame.

(** ** Drawing *)

Lemma line_loop (morph : list (vec3 Q)) (edges : list edge) (done : list (vec3 Q)) :
  edges_below (length morph) edges ->
  for_each edges
    (fun lines '(a, b) =>
       bind (getitem morph a) (fun va =>
       bind (getitem morph b) (fun vb => Ok (lines ++ [va; vb]))))
    done
  = Ok (done ++ lines_of morph edges).
Proof.
  intros Hb. revert done.
  induction Hb as [| [a b] rest [Ha Hb'] _ IH]; intros done.
  - cbn. rewrite app_nil_r. reflexivity.
  - cbn [for_each].
    rewrite (getitem_nth morph a (0, 0, 0) Ha). cbn [bind].
    rewrite (getitem_nth morph b (0, 0, 0) Hb'). cbn [bind].
    rewrite IH. unfold lines_of. cbn [flat_map].
    rewrite <- app_assoc. reflexivity.
Qed.

Lemma overlay_cases (t : Q) :
  overlay_at t (if Qltb 0.7 t then Some ((t - 0.7) / 0.3 * 0.5) else None).
Proof.
  unfold overlay_at.
  destruct (Qltb 0.7 t) eqn:E; [apply Qltb_lt in E | apply Qltb_ge in E].
  - split; [exact E | reflexivity].
  - exact E.
Qed.

Lemma morph_at_length (cube sphere : list (vec3 Q)) (t : Q) :
  length cube = length sphere -> length (morph_at cube sphere t) = length cube.
Proof.
  intros Hl. unfold morph_at. rewrite length_map, length_combine. lia.
Qed.

Lemma draw_morphed_shape_gl_built (cube sphere : list (vec3 Q)) (edges : list edge)
  (t : Q) :
  length cube = length sphere -> edges_below (length cube) edges ->
  exists overlay,
    Rotate.draw_morphed_shape_gl cube sphere edges t
    = Ok (lines_of (morph_at cube sphere t) edges, overlay)
    /\ overlay_at t overlay.
Proof.
  intros Hl Hb. unfold Rotate.draw_morphed_shape_gl.
  rewrite (draw_morphed_shape_zip cube sphere t Hl). cbn [bind].
  fold (morph_at cube sphere t).
  rewrite (line_loop (morph_at cube sphere t) edges []).
  2: { rewrite morph_at_length by exact Hl. exact Hb. }
  cbn [bind app].
  pose proof (overlay_cases t) as Ho.
  change (fltb (lit 0.7) t) with (Qltb 0.7 t).
  destruct (Qltb 0.7 t); eexists; (split; [reflexivity | exact Ho]).
Qed.

Lemma np_draw_morphed_shape_gl_built (w : Audio.MorphOpenGLWidget.t Q)
  (cube sphere : list (vec3 Q)) (edges : list edge) (t : Q) :
  Audio.MorphOpenGLWidget.cube_vertices w = Some cube ->
  Audio.MorphOpenGLWidget.sphere_vertices w = Some sphere ->
  Audio.MorphOpenGLWidget.edges w = Some edges ->
  length cube = length sphere -> edges_below (length cube) edges ->
  exists overlay,
    Audio.MorphOpenGLWidget._draw_morphed_shape_gl w t
    = Ok (lines_of (morph_at cube sphere t) edges, overlay)
    /\ overlay_at t overlay.
Proof.
  intros Hc Hs He Hl Hb.
  unfold Audio.MorphOpenGLWidget._draw_morphed_shape_gl,
    Audio.MorphOpenGLWidget._draw_morphed_shape.
  rewrite Hc, Hs, He.
  rewrite (np_lerp_zip cube sphere t Hl). cbn [bind].
  fold (morph_at cube sphere t).
  rewrite (line_loop (morph_at cube sphere t) edges []).
  2: { rewrite morph_at_length by exact Hl. exact Hb. }
  cbn [bind app].
  pose proof (overlay_cases t) as Ho.
  change (fltb (lit 0.7) t) with (Qltb 0.7 t).
  destruct (Qltb 0.7 t); eexists; (split; [reflexivity | exact Ho]).
Qed.

(** X19.  Drawing what was built never fails.  For [subdivisions >= 1] and
    any [t], [draw_morphed_shape] on the cube, sphere and edges of the
    builders, and [_draw_morphed_shape] on the widget after
    [_create_geometry], raise nothing and send to the GL the two morphed end
    points of every edge, in order; every edge index is a valid index of the
    morphed vertices; the overlay sphere is drawn exactly when [t > 0.7],
    with alpha [(t - 0.7) / 0.3 * 0.5].  Whatever [sqrt], [round] and the
    [float32] conversion compute. *)
Theorem drawing_the_built_geometry (M : PyMath Q) (size radius t : Q)
  (subdivisions : Z) :
  (1 <= subdivisions)%Z ->
  (exists cube edges sphere overlay,
     Rotate.create_tessellated_cube size subdivisions = Ok (cube, edges)
     /\ Rotate.generate_sphere_vertices cube radius = Ok sphere
     /\ Rotate.draw_morphed_shape_gl cube sphere edges t
        = Ok (lines_of (morph_at cube sphere t) edges, overlay)
     /\ edges_below (length (morph_at cube sphere t)) edges
     /\ overlay_at t overlay)
  /\ (forall w : Audio.MorphOpenGLWidget.t Q,
        Audio.MorphOpenGLWidget.subdivisions w = subdivisions ->
        exists w' cube sphere edges overlay,
          Audio.MorphOpenGLWidget._create_geometry w = Ok w'
          /\ Audio.MorphOpenGLWidget.cube_vertices w' = Some cube
          /\ Audio.MorphOpenGLWidget.sphere_vertices w' = Some sphere
          /\ Audio.MorphOpenGLWidget.edges w' = Some edges
          /\ Audio.MorphOpenGLWidget._draw_morphed_shape_gl w' t
             = Ok (lines_of (morph_at cube sphere t) edges, overlay)
          /\ edges_below (length (morph_at cube sphere t)) edges
          /\ overlay_at t overlay).
Proof.
  intros Hn. split.
  - destruct (create_tessellated_cube_below subdivisions Hn size)
      as (cube & edges & E & Hb).
    destruct (generate_sphere_vertices_length M cube radius) as (sphere & Es & Hl).
    symmetry in Hl.
    destruct (draw_morphed_shape_gl_built cube sphere edges t Hl Hb)
      as (overlay & Ed & Ho).
    exists cube, edges, sphere, overlay.
    split; [exact E |]. split; [exact Es |]. split; [exact Ed |].
    split; [rewrite morph_at_length by exact Hl; exact Hb | exact Ho].
  - intros w Hw. unfold Audio.MorphOpenGLWidget._create_geometry. rewrite Hw.
    destruct (cached_cube_below subdivisions Hn (lit 1.0))
      as (cube & edges & E & Hb).
    rewrite E. cbn [bind]. cbv zeta.
    set (sphere := Audio.MorphOpenGLWidget._generate_sphere_vertices cube (lit 1.0)).
    assert (Hl : length cube = length sphere)
      by (symmetry; apply np_sphere_vertices_length).
    set (w' := Audio.MorphOpenGLWidget.assign_geometry cube sphere edges w).
    destruct (np_draw_morphed_shape_gl_built w' cube sphere edges t
                eq_refl eq_refl eq_refl Hl Hb) as (overlay & Ed & Ho).
    exists w', cube, sphere, edges, overlay.
    split; [reflexivity |].
    split; [reflexivity |]. split; [reflexivity |]. split; [reflexivity |].
    split; [exact Ed |].
    split; [rewrite morph_at_length by exact Hl; exact Hb | exact Ho].
Qed.

Lemma drawing_the_built_geometry_witness :
  (exists cube edges sphere overlay,
     Rotate.create_tessellated_cube 1 5 = Ok (cube, edges)
     /\ Rotate.generate_sphere_vertices (H0 := PyMath_Q) cube 1 = Ok sphere
     /\ Rotate.draw_morphed_shape_gl cube sphere edges 0.8
        = Ok (lines_of (morph_at cube sphere 0.8) edges, overlay)
     /\ edges_below (length (morph_at cube sphere 0.8)) edges
     /\ overlay_at 0.8 overlay)
  /\ (forall w : Audio.MorphOpenGLWidget.t Q,
        Audio.MorphOpenGLWidget.subdivisions w = 5%Z ->
        exists w' cube sphere edges overlay,
          Audio.MorphOpenGLWidget._create_geometry (H0 := PyMath_Q) w = Ok w'
          /\ Audio.MorphOpenGLWidget.cube_vertices w' = Some cube
          /\ Audio.MorphOpenGLWidget.sphere_vertices w' = Some sphere
          /\ Audio.MorphOpenGLWidget.edges w' = Some edges
          /\ Audio.MorphOpenGLWidget._draw_morphed_shape_gl w' 0.8
             = Ok (lines_of (morph_at cube sphere 0.8) edges, overlay)
          /\ edges_below (length (morph_at cube sphere 0.8)) edges
          /\ overlay_at 0.8 overlay).
Proof. apply (drawing_the_built_geometry PyMath_Q 1 1 0.8 5). lia. Defined.

(** Before [initializeGL] has built the geometry there is nothing to draw,
    and edges that point past the vertices raise IndexError. *)
Example drawing_without_geometry :
  Audio.MorphOpenGLWidget._draw_morphed_shape_gl
    (Audio.MorphOpenGLWidget.init 0 0) 0.5 = Raise TypeError
  /\ Rotate.draw_morphed_shape_gl [(1, 1, 1)] [(2, 2, 2)] [(0, 1)%nat] 0.5
     = Raise IndexError.
Proof. split; reflexivity. Qed.
